(** * Reconciliation and validation engine of the AI order processing system

    A shallow embedding of the numeric normalisers, the item matcher, the
    shipping reconciler, the delivery date calculator and the approval
    decision of [src/priority_api.py], of the report generator of
    [src/response_handler.py] and of [src/order_validator.py], followed by
    the properties of the specification that are settled against them.

    Conventions of the embedding.
    - A Python [str] is a Rocq [string]; the text processing itself runs on
      the list of its characters ([chars] / [text]).  Characters are bytes, so
      [\d], [isdigit] and [strip] are read on their ASCII range.
    - A Python [float] amount is an exact rational of [Q]: the decimal
      numeral that [float(...)] reads is taken at its exact value and
      [abs(a - b)] is the exact difference.  Equalities of amounts are [Qeq].
      The module [Binary64] gives the comparisons of prices on the doubles
      that [float] rounds these values to.
    - The [decimal] module is an interface: its numbers, its reading of a
      text and its comparison, which may raise.
    - A [dict] built by a comprehension is an insertion-ordered association
      list in which a later item with the same key overwrites the value of the
      earlier one and keeps its position.
    - [print] output is not part of the state, except the one error report of
      the date calculator that a property speaks about.
    - An HTTP exchange is an argument (what [requests.patch] answers or
      raises) and a result (the list of requests that were sent). *)

From Stdlib Require Import List String Ascii ZArith QArith Qabs Lia Bool Arith.
From Stdlib Require Import DecimalString.
From Stdlib Require Import Floats.SpecFloat.
Import ListNotations.

Open Scope string_scope.
Open Scope list_scope.

(* ================================================================== *)
(** ** Python strings *)
(* ================================================================== *)

Module PyStr.

Definition chars (s : string) : list ascii := list_ascii_of_string s.
Definition text (l : list ascii) : string := string_of_list_ascii l.

Definition is_empty {A : Type} (l : list A) : bool :=
  match l with [] => true | _ :: _ => false end.

(** [c.isdigit()] and the class [\d], on ASCII. *)
Definition isdigit (c : ascii) : bool :=
  (48 <=? nat_of_ascii c)%nat && (nat_of_ascii c <=? 57)%nat.

(** [c.isspace()], on ASCII: tab, line feed, vertical tab, form feed,
    carriage return, the four separators 0x1c-0x1f and the space. *)
Definition isspace (c : ascii) : bool :=
  let n := nat_of_ascii c in
  ((9 <=? n)%nat && (n <=? 13)%nat) || ((28 <=? n)%nat && (n <=? 32)%nat).

(** [c in s] for a one-character [c]. *)
Definition contains (c : ascii) (s : list ascii) : bool :=
  existsb (Ascii.eqb c) s.

(** [s.replace(c, '')] for a one-character [c]. *)
Definition remove_char (c : ascii) (s : list ascii) : list ascii :=
  filter (fun x => negb (Ascii.eqb x c)) s.

(** [s.replace(c, d)] for one-character [c] and [d]. *)
Definition replace_char (c d : ascii) (s : list ascii) : list ascii :=
  map (fun x => if Ascii.eqb x c then d else x) s.

(** [s.split(c)]: the pieces between the occurrences of [c]; never empty. *)
Fixpoint split_on (c : ascii) (s : list ascii) : list (list ascii) :=
  match s with
  | [] => [[]]
  | x :: r =>
      if Ascii.eqb x c then [] :: split_on c r
      else match split_on c r with
           | p :: ps => (x :: p) :: ps
           | [] => [[x]]
           end
  end.

(** [s.rfind(c)]: the index of the last occurrence of [c], or [-1]. *)
Fixpoint rfind_from (c : ascii) (s : list ascii) (i last : Z) : Z :=
  match s with
  | [] => last
  | x :: r => rfind_from c r (i + 1)%Z (if Ascii.eqb x c then i else last)
  end.

Definition rfind (c : ascii) (s : list ascii) : Z := rfind_from c s 0%Z (-1)%Z.

(** [s.startswith(p)]. *)
Fixpoint startswith (p s : list ascii) : bool :=
  match p, s with
  | [], _ => true
  | _ :: _, [] => false
  | a :: p', b :: s' => Ascii.eqb a b && startswith p' s'
  end.

(** [p in s] for a substring [p]. *)
Fixpoint is_substring (p s : list ascii) : bool :=
  startswith p s ||
  match s with
  | [] => false
  | _ :: s' => is_substring p s'
  end.

(** [s.endswith(c)] for a one-character [c]. *)
Definition endswith_char (c : ascii) (s : list ascii) : bool :=
  match rev s with
  | x :: _ => Ascii.eqb x c
  | [] => false
  end.

(** [s.lstrip()], [s.rstrip()] and [s.strip()]. *)
Fixpoint lstrip (s : list ascii) : list ascii :=
  match s with
  | x :: r => if isspace x then lstrip r else s
  | [] => []
  end.

Definition rstrip (s : list ascii) : list ascii := rev (lstrip (rev s)).

Definition strip (s : list ascii) : list ascii := rstrip (lstrip s).

(** [s.lower()], on ASCII. *)
Definition lower_char (c : ascii) : ascii :=
  let n := nat_of_ascii c in
  if (65 <=? n)%nat && (n <=? 90)%nat then ascii_of_nat (n + 32) else c.

Definition lower (s : list ascii) : list ascii := map lower_char s.

(** The value of a run of decimal digits, most significant first. *)
Definition digit_val (c : ascii) : Z := (Z.of_nat (nat_of_ascii c) - 48)%Z.

Fixpoint digits_val (acc : Z) (s : list ascii) : Z :=
  match s with
  | [] => acc
  | c :: r => digits_val (10 * acc + digit_val c)%Z r
  end.

(** [float(s)] on the numerals that reach it in the price extractors: digits
    with at most one period and at least one digit.  [None] is [ValueError]
    (no digit, a second period, or any other character such as a comma). *)
Definition float (s : list ascii) : option Q :=
  match split_on "." s with
  | [ip] =>
      if forallb isdigit ip && negb (is_empty ip)
      then Some (inject_Z (digits_val 0%Z ip))
      else None
  | [ip; fp] =>
      if forallb isdigit ip && forallb isdigit fp && negb (is_empty (ip ++ fp))
      then Some (Qmake (digits_val 0%Z (ip ++ fp))
                       (Z.to_pos (10 ^ Z.of_nat (List.length fp))))
      else None
  | _ => None
  end.

(** [re.findall(r'\d+', s)[0]]: the first maximal run of digits, if any. *)
Fixpoint take_digits (s : list ascii) : list ascii :=
  match s with
  | c :: r => if isdigit c then c :: take_digits r else []
  | [] => []
  end.

Fixpoint first_digit_run (s : list ascii) : option (list ascii) :=
  match s with
  | [] => None
  | c :: r => if isdigit c then Some (take_digits s) else first_digit_run r
  end.

End PyStr.

(** Strict comparison of amounts, [a < b]. *)
Definition Qlt_bool (a b : Q) : bool := negb (Qle_bool b a).

(* ================================================================== *)
(** ** Python dictionaries built from item lists *)
(* ================================================================== *)

Module PyDict.

(** [d[k] = v]: an existing key keeps its position and takes the new value;
    a new key is appended. *)
Fixpoint set {V : Type} (k : string) (v : V) (d : list (string * V))
  : list (string * V) :=
  match d with
  | [] => [(k, v)]
  | (k', v') :: r =>
      if String.eqb k' k then (k', v) :: r else (k', v') :: set k v r
  end.

(** [d.get(k)]. *)
Fixpoint get {V : Type} (k : string) (d : list (string * V)) : option V :=
  match d with
  | [] => None
  | (k', v) :: r => if String.eqb k' k then Some v else get k r
  end.

(** [k in d]. *)
Definition has {V : Type} (k : string) (d : list (string * V)) : bool :=
  match get k d with Some _ => true | None => false end.

(** [{key(item): item for item in items}]. *)
Definition of_items {A : Type} (key : A -> string) (items : list A)
  : list (string * A) :=
  fold_left (fun d item => set (key item) item d) items [].

Definition keys {V : Type} (d : list (string * V)) : list string :=
  map fst d.

End PyDict.

(* ================================================================== *)
(** ** Data model *)
(* ================================================================== *)

(** [o.get(field, default)] on an optional field. *)
Definition get_default {A : Type} (o : option A) (default : A) : A :=
  match o with Some v => v | None => default end.

(** [field in item]: the key is present. *)
Definition is_some {A : Type} (o : option A) : bool :=
  match o with Some _ => true | None => false end.

(** Truth value of a string: non-empty. *)
Definition truthy (s : string) : bool :=
  match s with EmptyString => false | String _ _ => true end.

(** [a or b] on strings. *)
Definition str_or (a b : string) : string := if truthy a then a else b.

(** An item of the AI extraction: a JSON object of raw strings, each of
    which may be absent. *)
Record ai_item := {
  product_code : option string;
  description : option string;
  item_description : option string;
  name : option string;
  partname : option string;
  quantity : option string;
  item_total : option string;
  price : option string;
  total_price : option string;
  delivery_date : option string
}.

(** A line of the authoritative order ([PORDERITEMS_SUBFORM]); the fields are
    always selected by the query that fetches them. *)
Record priority_item := {
  PARTNAME : string;
  TQUANT : Q;
  VATPRICE : Q
}.

(** The product code under which an extracted item is filed:
    [item.get('product_code', '')]. *)
Definition code_of (item : ai_item) : string :=
  get_default (product_code item) EmptyString.

(* ================================================================== *)
(** ** Python [int], [datetime] and [strptime] *)
(* ================================================================== *)

Module PyDate.

Import PyStr.

(** [int(s)] in base ten: surrounding whitespace, an optional sign, digits
    that single underscores may separate.  [None] is [ValueError]. *)
Fixpoint int_digits (acc : Z) (after_digit : bool) (s : list ascii)
  : option Z :=
  match s with
  | [] => if after_digit then Some acc else None
  | c :: r =>
      if isdigit c then int_digits (10 * acc + digit_val c)%Z true r
      else if Ascii.eqb c "_" && after_digit then int_digits acc false r
      else None
  end.

Definition int (s : list ascii) : option Z :=
  match strip s with
  | c :: r =>
      if Ascii.eqb c "-" then option_map Z.opp (int_digits 0%Z false r)
      else if Ascii.eqb c "+" then int_digits 0%Z false r
      else int_digits 0%Z false (c :: r)
  | [] => None
  end.

Record date := { year : Z; month : Z; day : Z }.

Definition MAXORDINAL : Z := 3652059%Z.

Definition _is_leap (y : Z) : bool :=
  (y mod 4 =? 0)%Z && (negb (y mod 100 =? 0)%Z || (y mod 400 =? 0)%Z).

Definition _DAYS_IN_MONTH : list Z :=
  [ -1; 31; 28; 31; 30; 31; 30; 31; 31; 30; 31; 30; 31 ]%Z.

Definition _DAYS_BEFORE_MONTH : list Z :=
  [ -1; 0; 31; 59; 90; 120; 151; 181; 212; 243; 273; 304; 334 ]%Z.

Definition _days_before_year (y : Z) : Z :=
  let y := (y - 1)%Z in (y * 365 + y / 4 - y / 100 + y / 400)%Z.

Definition _days_in_month (y m : Z) : Z :=
  if (m =? 2)%Z && _is_leap y then 29%Z
  else nth (Z.to_nat m) _DAYS_IN_MONTH 0%Z.

Definition _days_before_month (y m : Z) : Z :=
  (nth (Z.to_nat m) _DAYS_BEFORE_MONTH 0
   + (if (m >? 2) && _is_leap y then 1 else 0))%Z.

Definition _ymd2ord (y m d : Z) : Z :=
  (_days_before_year y + _days_before_month y m + d)%Z.

Definition _ord2ymd (n : Z) : date :=
  let n := (n - 1)%Z in
  let n400 := (n / 146097)%Z in
  let n := (n mod 146097)%Z in
  let year := (n400 * 400 + 1)%Z in
  let n100 := (n / 36524)%Z in
  let n := (n mod 36524)%Z in
  let n4 := (n / 1461)%Z in
  let n := (n mod 1461)%Z in
  let n1 := (n / 365)%Z in
  let n := (n mod 365)%Z in
  let year := (year + n100 * 100 + n4 * 4 + n1)%Z in
  if (n1 =? 4)%Z || (n100 =? 4)%Z then
    {| year := (year - 1)%Z; month := 12%Z; day := 31%Z |}
  else
    let leapyear :=
      (n1 =? 3)%Z && (negb (n4 =? 24)%Z || (n100 =? 3)%Z) in
    let month := Z.shiftr (n + 50) 5 in
    let preceding :=
      (nth (Z.to_nat month) _DAYS_BEFORE_MONTH 0
       + (if (month >? 2) && leapyear then 1 else 0))%Z in
    if (preceding >? n)%Z then
      let month := (month - 1)%Z in
      let preceding :=
        (preceding
         - (nth (Z.to_nat month) _DAYS_IN_MONTH 0
            + (if (month =? 2) && leapyear then 1 else 0)))%Z in
      {| year := year; month := month; day := (n - preceding + 1)%Z |}
    else
      {| year := year; month := month; day := (n - preceding + 1)%Z |}.

(** [datetime(y, m, d)]: [None] is the [ValueError] of a field out of range. *)
Definition datetime (y m d : Z) : option date :=
  if (1 <=? y)%Z && (y <=? 9999)%Z && (1 <=? m)%Z && (m <=? 12)%Z
     && (1 <=? d)%Z && (d <=? _days_in_month y m)%Z
  then Some {| year := y; month := m; day := d |}
  else None.

Definition toordinal (d : date) : Z := _ymd2ord (year d) (month d) (day d).

(** [d + timedelta(days=k)]: [None] is the [OverflowError] of a date outside
    the years 1 to 9999. *)
Definition add_days (d : date) (k : Z) : option date :=
  let o := (toordinal d + k)%Z in
  if (1 <=? o)%Z && (o <=? MAXORDINAL)%Z then Some (_ord2ymd o) else None.

(** [d.weekday()]: Monday is 0, Sunday is 6. *)
Definition weekday (d : date) : Z := ((toordinal d + 6) mod 7)%Z.

(** Decimal numeral of a non-negative number, padded with zeros to [width]. *)
Fixpoint pad_digits (width : nat) (n : Z) (acc : list ascii) : list ascii :=
  match width with
  | O => acc
  | S w =>
      pad_digits w (n / 10)%Z
        (ascii_of_nat (48 + Z.to_nat (n mod 10)) :: acc)
  end.

(** [d.strftime("%d/%m/%Y")]. *)
Definition strftime_dmy (d : date) : string :=
  text (pad_digits 2 (day d) [] ++ chars "/" ++ pad_digits 2 (month d) []
        ++ chars "/" ++ pad_digits 4 (year d) []).

(** The fields of [strptime(s, "%d/%m/%Y")]: the day is one or two digits
    from 1 to 31 (one digit may follow a zero or a space), the month one or
    two digits from 1 to 12, the year exactly four digits. *)
Definition nonzero_digit (c : ascii) : bool :=
  isdigit c && negb (Ascii.eqb c "0").

Definition strptime_d (s : list ascii) : option Z :=
  match s with
  | [a] => if nonzero_digit a then Some (digit_val a) else None
  | [a; b] =>
      if Ascii.eqb a "3" && (Ascii.eqb b "0" || Ascii.eqb b "1")
      then Some (30 + digit_val b)%Z
      else if (Ascii.eqb a "1" || Ascii.eqb a "2") && isdigit b
      then Some (10 * digit_val a + digit_val b)%Z
      else if (Ascii.eqb a "0" || Ascii.eqb a " ") && nonzero_digit b
      then Some (digit_val b)
      else None
  | _ => None
  end.

Definition strptime_m (s : list ascii) : option Z :=
  match s with
  | [a] => if nonzero_digit a then Some (digit_val a) else None
  | [a; b] =>
      if Ascii.eqb a "1"
         && (Ascii.eqb b "0" || Ascii.eqb b "1" || Ascii.eqb b "2")
      then Some (10 + digit_val b)%Z
      else if Ascii.eqb a "0" && nonzero_digit b then Some (digit_val b)
      else None
  | _ => None
  end.

Definition strptime_Y (s : list ascii) : option Z :=
  match s with
  | [a; b; c; d] =>
      if forallb isdigit s then Some (digits_val 0%Z s) else None
  | _ => None
  end.

(** [datetime.strptime(s, "%d/%m/%Y")]; [None] is [ValueError]. *)
Definition strptime_dmy (s : list ascii) : option date :=
  match split_on "/" s with
  | [d; m; y] =>
      match strptime_d d, strptime_m m, strptime_Y y with
      | Some d, Some m, Some y => datetime y m d
      | _, _, _ => None
      end
  | _ => None
  end.

End PyDate.

(* ================================================================== *)
(** ** [src/priority_api.py]: class [PriorityAPIClient] *)
(* ================================================================== *)

Module PriorityAPIClient.

Import PyStr.

(** *** Numeric normalisers *)

(** [_extract_numeric_quantity]: the first run of digits, or [0]. *)
Definition _extract_numeric_quantity (quantity_str : string) : Z :=
  match first_digit_run (chars quantity_str) with
  | Some run => digits_val 0%Z run
  | None => 0%Z
  end.

(** [re.sub(r'[^\d\.,]', '', original_str)]. *)
Definition keep_numeric (s : list ascii) : list ascii :=
  filter (fun c => isdigit c || Ascii.eqb c "." || Ascii.eqb c ",") s.

(** The [if / elif / elif] block of [_extract_numeric_price] that rewrites
    [cleaned] according to the separators it holds. *)
Definition resolve_separators (cleaned : list ascii) : list ascii :=
  if contains "," cleaned && contains "." cleaned then
    let last_comma := rfind "," cleaned in
    let last_period := rfind "." cleaned in
    if (last_comma >? last_period)%Z
    then replace_char "," "." (remove_char "." cleaned)
    else remove_char "," cleaned
  else if contains "," cleaned && negb (contains "." cleaned) then
    replace_char "," "." cleaned
  else if contains "." cleaned && negb (contains "," cleaned) then
    let parts := split_on "." cleaned in
    if (List.length parts =? 2)%nat && (List.length (nth 1 parts []) <=? 2)%nat
    then cleaned
    else remove_char "." cleaned
  else cleaned.

(** [float(cleaned) if cleaned else 0.0], with [ValueError] caught as [0.0]. *)
Definition to_amount (cleaned : list ascii) : Q :=
  if is_empty cleaned then 0%Q
  else match float cleaned with
       | Some result => result
       | None => 0%Q
       end.

Definition _extract_numeric_price (price_str : string) : Q :=
  if negb (truthy price_str) then 0%Q
  else
    let cleaned := keep_numeric (chars price_str) in
    if is_empty cleaned then 0%Q
    else to_amount (resolve_separators cleaned).

(** *** Total price check of [get_order_data] *)

(** [abs(float(a) - b)] and the one-cent test [price_difference < 0.01]. *)
Definition price_difference_of (a b : Q) : Q := Qabs (a - b).

Definition within_one_cent (a b : Q) : bool :=
  Qlt_bool (price_difference_of a b) 0.01%Q.

(** *** Item matcher: [validate_items_detail] *)

Record item_result := {
  ir_partname : string;
  ir_priority_quantity : Q;
  ir_priority_price : Q;
  ir_quantity_match : bool;
  ir_price_match : bool;
  ir_validation_passed : bool;
  ir_ai_quantity_raw : option string;
  ir_ai_quantity_numeric : option Z;
  ir_ai_price_raw : option string;
  ir_ai_price_numeric : option Q;
  ir_price_difference : option Q
}.

Record quantity_mismatch := {
  qm_partname : string;
  qm_priority_quantity : Q;
  qm_ai_quantity : string;
  qm_ai_quantity_numeric : Z
}.

Record price_mismatch := {
  pm_partname : string;
  pm_priority_price : Q;
  pm_ai_price : string;
  pm_ai_price_numeric : Q;
  pm_difference : Q
}.

Record mismatches := {
  mm_quantity : list quantity_mismatch;
  mm_price : list price_mismatch;
  missing_in_ai : list string;
  missing_in_priority : list string
}.

Record validation_results := {
  all_items_valid : bool;
  item_count_match : bool;
  priority_item_count : nat;
  ai_item_count : nat;
  item_details : list item_result;
  vr_mismatches : mismatches
}.

(** Field updates of the result dictionary. *)
Definition set_invalid (vr : validation_results) : validation_results :=
  {| all_items_valid := false;
     item_count_match := item_count_match vr;
     priority_item_count := priority_item_count vr;
     ai_item_count := ai_item_count vr;
     item_details := item_details vr;
     vr_mismatches := vr_mismatches vr |}.

Definition add_detail (d : item_result) (vr : validation_results)
  : validation_results :=
  {| all_items_valid := all_items_valid vr;
     item_count_match := item_count_match vr;
     priority_item_count := priority_item_count vr;
     ai_item_count := ai_item_count vr;
     item_details := item_details vr ++ [d];
     vr_mismatches := vr_mismatches vr |}.

Definition with_mismatches (m : mismatches) (vr : validation_results)
  : validation_results :=
  {| all_items_valid := all_items_valid vr;
     item_count_match := item_count_match vr;
     priority_item_count := priority_item_count vr;
     ai_item_count := ai_item_count vr;
     item_details := item_details vr;
     vr_mismatches := m |}.

Definition add_quantity_mismatch (q : quantity_mismatch) (m : mismatches) :=
  {| mm_quantity := mm_quantity m ++ [q]; mm_price := mm_price m;
     missing_in_ai := missing_in_ai m;
     missing_in_priority := missing_in_priority m |}.

Definition add_price_mismatch (p : price_mismatch) (m : mismatches) :=
  {| mm_quantity := mm_quantity m; mm_price := mm_price m ++ [p];
     missing_in_ai := missing_in_ai m;
     missing_in_priority := missing_in_priority m |}.

Definition add_missing_in_ai (k : string) (m : mismatches) :=
  {| mm_quantity := mm_quantity m; mm_price := mm_price m;
     missing_in_ai := missing_in_ai m ++ [k];
     missing_in_priority := missing_in_priority m |}.

Definition add_missing_in_priority (k : string) (m : mismatches) :=
  {| mm_quantity := mm_quantity m; mm_price := mm_price m;
     missing_in_ai := missing_in_ai m;
     missing_in_priority := missing_in_priority m ++ [k] |}.

(** The comparison of one authoritative item with its extracted counterpart:
    the body of the branch [if partname in ai_by_product_code]. *)
Definition compare_item (priority_item : priority_item) (ai_item : ai_item)
  : item_result :=
  let ai_quantity_str := get_default (quantity ai_item) EmptyString in
  let ai_item_total_str := get_default (item_total ai_item) EmptyString in
  let ai_quantity_numeric := _extract_numeric_quantity ai_quantity_str in
  let ai_price_numeric := _extract_numeric_price ai_item_total_str in
  let quantity_match :=
    Qeq_bool (inject_Z ai_quantity_numeric) (TQUANT priority_item) in
  let price_difference :=
    price_difference_of (VATPRICE priority_item) ai_price_numeric in
  let price_match := Qlt_bool price_difference 0.01%Q in
  {| ir_partname := PARTNAME priority_item;
     ir_priority_quantity := TQUANT priority_item;
     ir_priority_price := VATPRICE priority_item;
     ir_quantity_match := quantity_match;
     ir_price_match := price_match;
     ir_validation_passed := quantity_match && price_match;
     ir_ai_quantity_raw := Some ai_quantity_str;
     ir_ai_quantity_numeric := Some ai_quantity_numeric;
     ir_ai_price_raw := Some ai_item_total_str;
     ir_ai_price_numeric := Some ai_price_numeric;
     ir_price_difference := Some price_difference |}.

(** The result recorded for an authoritative item without counterpart. *)
Definition missing_item (priority_item : priority_item) : item_result :=
  {| ir_partname := PARTNAME priority_item;
     ir_priority_quantity := TQUANT priority_item;
     ir_priority_price := VATPRICE priority_item;
     ir_quantity_match := false;
     ir_price_match := false;
     ir_validation_passed := false;
     ir_ai_quantity_raw := None;
     ir_ai_quantity_numeric := None;
     ir_ai_price_raw := None;
     ir_ai_price_numeric := None;
     ir_price_difference := None |}.

(** One turn of the loop [for priority_item in priority_items]. *)
Definition check_priority_item (ai_by_product_code : list (string * ai_item))
  (vr : validation_results) (priority_item : priority_item)
  : validation_results :=
  let partname := PARTNAME priority_item in
  match PyDict.get partname ai_by_product_code with
  | Some ai_item =>
      let r := compare_item priority_item ai_item in
      let vr1 :=
        if negb (ir_quantity_match r) then
          set_invalid
            (with_mismatches
               (add_quantity_mismatch
                  {| qm_partname := partname;
                     qm_priority_quantity := TQUANT priority_item;
                     qm_ai_quantity := get_default (quantity ai_item) EmptyString;
                     qm_ai_quantity_numeric :=
                       get_default (ir_ai_quantity_numeric r) 0%Z |}
                  (vr_mismatches vr)) vr)
        else vr in
      let vr2 :=
        if negb (ir_price_match r) then
          set_invalid
            (with_mismatches
               (add_price_mismatch
                  {| pm_partname := partname;
                     pm_priority_price := VATPRICE priority_item;
                     pm_ai_price := get_default (item_total ai_item) EmptyString;
                     pm_ai_price_numeric :=
                       get_default (ir_ai_price_numeric r) 0%Q;
                     pm_difference := get_default (ir_price_difference r) 0%Q |}
                  (vr_mismatches vr1)) vr1)
        else vr1 in
      let vr3 := if negb (ir_validation_passed r) then set_invalid vr2 else vr2 in
      add_detail r vr3
  | None =>
      add_detail (missing_item priority_item)
        (set_invalid
           (with_mismatches (add_missing_in_ai partname (vr_mismatches vr)) vr))
  end.

(** One turn of the loop [for ai_item in ai_items]. *)
Definition check_ai_item (priority_by_partname : list (string * priority_item))
  (vr : validation_results) (ai_item : ai_item) : validation_results :=
  let product_code := code_of ai_item in
  if negb (PyDict.has product_code priority_by_partname) then
    set_invalid
      (with_mismatches
         (add_missing_in_priority product_code (vr_mismatches vr)) vr)
  else vr.

Definition validate_items_detail (priority_items : list priority_item)
  (ai_items : list ai_item) : validation_results :=
  let validation_results :=
    {| all_items_valid := true;
       item_count_match :=
         (List.length priority_items =? List.length ai_items)%nat;
       priority_item_count := List.length priority_items;
       ai_item_count := List.length ai_items;
       item_details := [];
       vr_mismatches :=
         {| mm_quantity := []; mm_price := [];
            missing_in_ai := []; missing_in_priority := [] |} |} in
  let priority_by_partname := PyDict.of_items PARTNAME priority_items in
  let ai_by_product_code := PyDict.of_items code_of ai_items in
  let validation_results :=
    fold_left (check_priority_item ai_by_product_code) priority_items
      validation_results in
  fold_left (check_ai_item priority_by_partname) ai_items validation_results.

(** *** Shipping reconciler *)

(** The shipping record handed over by the caller or found among the items:
    a dictionary whose keys may each be absent. *)
Record shipping_info := {
  si_source : option string;
  si_found_keyword : option string;
  si_raw_text : option string;
  si_price_raw : option string;
  si_price_numeric : option Q;
  si_ai_item : option ai_item
}.

(** Truth value of the dictionary: it has at least one key. *)
Definition shipping_info_truthy (d : shipping_info) : bool :=
  is_some (si_source d) || is_some (si_found_keyword d)
  || is_some (si_raw_text d) || is_some (si_price_raw d)
  || is_some (si_price_numeric d) || is_some (si_ai_item d).

Definition shipping_keywords : list string :=
  [ "shipping & handling"; "expedited handling"; "shipping"; "handling";
    "freight"; "delivery" ].

(** The text of an item in which the keywords are looked up: the fields
    [product_code], [description], [item_description], [name], [partname]
    that are present, each after a space, lowered and stripped. *)
Definition item_text_of (item : ai_item) : list ascii :=
  let add (field : option string) (acc : list ascii) : list ascii :=
    match field with
    | Some v => acc ++ chars " " ++ chars v
    | None => acc
    end in
  strip (lower
    (add (partname item)
      (add (name item)
        (add (item_description item)
          (add (description item)
            (add (product_code item) [])))))).

(** The first keyword of the list that occurs in the text. *)
Definition find_keyword (item_text : list ascii) : option string :=
  find (fun keyword => is_substring (chars keyword) item_text) shipping_keywords.

Fixpoint _extract_ai_shipping_info (ai_items : list ai_item)
  : option shipping_info :=
  match ai_items with
  | [] => None
  | item :: rest =>
      let item_text := item_text_of item in
      match find_keyword item_text with
      | Some keyword =>
          let price_raw :=
            str_or (get_default (item_total item) EmptyString)
              (str_or (get_default (price item) EmptyString)
                 (get_default (total_price item) EmptyString)) in
          let price_numeric := _extract_numeric_price price_raw in
          Some {| si_source := None;
                  si_found_keyword := Some keyword;
                  si_raw_text := Some (text item_text);
                  si_price_raw := Some price_raw;
                  si_price_numeric := Some price_numeric;
                  si_ai_item := Some item |}
      | None => _extract_ai_shipping_info rest
      end
  end.

Inductive validation_case :=
| both_exist_compare_prices
| priority_has_ai_missing
| ai_has_priority_missing
| neither_has_shipping.

Record shipping_validation := {
  shipping_validation_passed : bool;
  sv_validation_case : validation_case;
  priority_shipping_items : list (string * Q);
  priority_shipping_total : Q;
  sv_ai_shipping_info : option shipping_info;
  shipping_match : bool;
  sv_price_difference : Q
}.

(** [partname.startswith('SH')]. *)
Definition is_shipping_item (item : priority_item) : bool :=
  startswith (chars "SH") (chars (PARTNAME item)).

(** One turn of the loop that collects the authoritative shipping items
    ([priority_shipping_items]) and their total ([total_priority_shipping]). *)
Definition add_shipping_item (acc : list (string * Q) * Q)
  (item : priority_item) : list (string * Q) * Q :=
  if is_shipping_item item
  then (fst acc ++ [(PARTNAME item, VATPRICE item)],
        (snd acc + VATPRICE item)%Q)
  else acc.

Definition collect_priority_shipping (priority_items : list priority_item)
  : list (string * Q) * Q :=
  fold_left add_shipping_item priority_items ([], 0%Q).

(** [ai_shipping_info or self._extract_ai_shipping_info(ai_items)]. *)
Definition ai_shipping_extracted_of (ai_items : list ai_item)
  (ai_shipping_info : option shipping_info) : option shipping_info :=
  match ai_shipping_info with
  | Some d => if shipping_info_truthy d then Some d
              else _extract_ai_shipping_info ai_items
  | None => _extract_ai_shipping_info ai_items
  end.

Definition validate_shipping_charges (priority_items : list priority_item)
  (ai_items : list ai_item) (ai_shipping_info : option shipping_info)
  : shipping_validation :=
  let (priority_shipping_items, total_priority_shipping) :=
    collect_priority_shipping priority_items in
  let ai_shipping_extracted :=
    ai_shipping_extracted_of ai_items ai_shipping_info in
  let ai_shipping_price :=
    match ai_shipping_extracted with
    | Some d => get_default (si_price_numeric d) 0%Q
    | None => 0%Q
    end in
  let has_priority_shipping :=
    (0 <? List.length priority_shipping_items)%nat in
  let has_ai_shipping := is_some ai_shipping_extracted in
  if has_priority_shipping && has_ai_shipping then
    let price_difference :=
      Qabs (total_priority_shipping - ai_shipping_price) in
    let shipping_match := Qlt_bool price_difference 0.01%Q in
    {| shipping_validation_passed := shipping_match;
       sv_validation_case := both_exist_compare_prices;
       priority_shipping_items := priority_shipping_items;
       priority_shipping_total := total_priority_shipping;
       sv_ai_shipping_info := ai_shipping_extracted;
       shipping_match := shipping_match;
       sv_price_difference := price_difference |}
  else if has_priority_shipping && negb has_ai_shipping then
    {| shipping_validation_passed := false;
       sv_validation_case := priority_has_ai_missing;
       priority_shipping_items := priority_shipping_items;
       priority_shipping_total := total_priority_shipping;
       sv_ai_shipping_info := ai_shipping_extracted;
       shipping_match := false;
       sv_price_difference := 0%Q |}
  else if negb has_priority_shipping && has_ai_shipping then
    {| shipping_validation_passed := false;
       sv_validation_case := ai_has_priority_missing;
       priority_shipping_items := priority_shipping_items;
       priority_shipping_total := total_priority_shipping;
       sv_ai_shipping_info := ai_shipping_extracted;
       shipping_match := false;
       sv_price_difference := 0%Q |}
  else
    {| shipping_validation_passed := true;
       sv_validation_case := neither_has_shipping;
       priority_shipping_items := priority_shipping_items;
       priority_shipping_total := total_priority_shipping;
       sv_ai_shipping_info := ai_shipping_extracted;
       shipping_match := true;
       sv_price_difference := 0%Q |}.

(** *** Delivery date calculator: [calculate_priority_date] *)

Import PyDate.

(** What the function hands back: the returned string, and whether the
    [except] branch printed its calculation error. *)
Record date_result := {
  returned : string;
  error_reported : bool
}.

(** The parsing of the delivery date: [DD.MM.YYYY] when the string holds a
    period, [DD/MM/YYYY] otherwise.  [None] is the [ValueError] raised. *)
Definition parse_delivery_date (delivery_date_str : string) : option date :=
  let s := chars delivery_date_str in
  if contains "." s then
    match split_on "." s with
    | [p0; p1; p2] =>
        match int p2, int p1, int p0 with
        | Some y, Some m, Some d => datetime y m d
        | _, _, _ => None
        end
    | _ => None
    end
  else strptime_dmy s.

(** ["12 Bet" in delivery_address and "St." in delivery_address]. *)
Definition special_address (delivery_address : string) : bool :=
  is_substring (chars "12 Bet") (chars delivery_address)
  && is_substring (chars "St.") (chars delivery_address).

(** The date arithmetic between the parsing and the formatting; [None] is
    the [OverflowError] of a date that leaves the calendar. *)
Definition priority_date_of (original_date : date) (delivery_address : string)
  : option date :=
  match add_days original_date (-6) with
  | None => None
  | Some calculated_date =>
      if special_address delivery_address then
        let days_since_monday := weekday calculated_date in
        let days_to_thursday := (3 - days_since_monday)%Z in
        add_days calculated_date days_to_thursday
      else if (weekday calculated_date =? 5)%Z then
        add_days calculated_date (-1)
      else Some calculated_date
  end.

(** The [except Exception] branch. *)
Definition date_fallback (delivery_date_str : string) : date_result :=
  {| returned :=
       if contains "." (chars delivery_date_str)
       then text (replace_char "." "/" (chars delivery_date_str))
       else delivery_date_str;
     error_reported := true |}.

Definition calculate_priority_date (delivery_date_str delivery_address : string)
  : date_result :=
  match parse_delivery_date delivery_date_str with
  | Some original_date =>
      match priority_date_of original_date delivery_address with
      | Some priority_date =>
          {| returned := strftime_dmy priority_date; error_reported := false |}
      | None => date_fallback delivery_date_str
      end
  | None => date_fallback delivery_date_str
  end.

(** *** Approval decision: [get_order_data] and [update_final_status] *)

(** The two order statuses the engine writes: supplier approval and sent
    (back) to the supplier for review. *)
Inductive order_status := SupplierApproval | SentToSupplier.

Definition STATDES_of (st : order_status) : string :=
  match st with
  | SupplierApproval => "אישור ספק"
  | SentToSupplier => "נשלח לספק"
  end.

Record final_status_info := {
  fsu_attempted : bool;
  fsu_success : bool;
  fsu_final_status : option string;
  fsu_intended_status : option string;
  fsu_error : option string;
  fsu_reason : string
}.

(** The validation dictionary; the keys read with [.get] may be absent. *)
Record price_validation := {
  priority_totprice : Q;
  ai_total_price_raw : option string;
  ai_total_price : option Q;
  validation_attempted : option bool;
  price_match : option bool;
  pv_price_difference : Q;
  overall_validation_pass : option bool;
  item_validation : option validation_results;
  pv_shipping_validation : option shipping_validation;
  final_status_update : option final_status_info
}.

(** The total price check of [get_order_data]. *)
Definition total_price_validation (priority_totprice : Q)
  (ai_total_price : option string) : price_validation :=
  match ai_total_price with
  | Some raw =>
      let ai_price_numeric := _extract_numeric_price raw in
      let price_difference :=
        price_difference_of priority_totprice ai_price_numeric in
      let price_match := Qlt_bool price_difference 0.01%Q in
      {| priority_totprice := priority_totprice;
         ai_total_price_raw := ai_total_price;
         ai_total_price := Some ai_price_numeric;
         validation_attempted := Some true;
         price_match := Some price_match;
         pv_price_difference := price_difference;
         overall_validation_pass := None;
         item_validation := None;
         pv_shipping_validation := None;
         final_status_update := None |}
  | None =>
      {| priority_totprice := priority_totprice;
         ai_total_price_raw := None;
         ai_total_price := None;
         validation_attempted := Some false;
         price_match := Some false;
         pv_price_difference := 0%Q;
         overall_validation_pass := None;
         item_validation := None;
         pv_shipping_validation := None;
         final_status_update := None |}
  end.

(** The five criteria as [update_final_status] reads them. *)
Definition criterion_price_match (pv : price_validation) : bool :=
  get_default (price_match pv) false.

Definition criterion_all_items_valid (pv : price_validation) : bool :=
  match item_validation pv with
  | Some iv => all_items_valid iv
  | None => false
  end.

Definition criterion_item_count_match (pv : price_validation) : bool :=
  match item_validation pv with
  | Some iv => item_count_match iv
  | None => false
  end.

Definition criterion_shipping_valid (pv : price_validation) : bool :=
  match pv_shipping_validation pv with
  | Some sv => shipping_validation_passed sv
  | None => true
  end.

Definition missing_in_ai_of (pv : price_validation) : list string :=
  match item_validation pv with
  | Some iv => missing_in_ai (vr_mismatches iv)
  | None => []
  end.

Definition criterion_no_missing_items (pv : price_validation) : bool :=
  (List.length (missing_in_ai_of pv) =? 0)%nat.

Definition string_of_nat (n : nat) : string :=
  NilEmpty.string_of_uint (Nat.to_uint n).

Fixpoint join (sep : string) (l : list string) : string :=
  match l with
  | [] => EmptyString
  | [x] => x
  | x :: r => (x ++ sep ++ join sep r)%string
  end.

(** The list [issues] of the rejection branch. *)
Definition issues_of (pv : price_validation) : list string :=
  (if negb (criterion_price_match pv) then ["total price mismatch"] else [])
  ++ (if negb (criterion_all_items_valid pv)
      then ["item price/quantity discrepancies"] else [])
  ++ (if negb (criterion_item_count_match pv)
      then ["item count mismatch"] else [])
  ++ (if negb (criterion_no_missing_items pv)
      then [(string_of_nat (List.length (missing_in_ai_of pv))
             ++ " items missing in AI extraction")%string] else [])
  ++ (if negb (criterion_shipping_valid pv)
      then ["shipping validation failed"] else []).

(** The status and its reason, decided when a validation was attempted. *)
Definition decide_status (pv : price_validation) : order_status * string :=
  if criterion_price_match pv && criterion_all_items_valid pv
     && criterion_item_count_match pv
     && criterion_shipping_valid pv && criterion_no_missing_items pv
  then (SupplierApproval,
        "Perfect match: Total price, all item details (price & quantity), item count, and shipping all validated successfully")
  else (SentToSupplier,
        ("Validation failed: " ++ join ", " (issues_of pv))%string).

(** [urllib.parse.quote]: letters, digits and [_.-~/] are kept, every other
    byte becomes [%XX]. *)
Definition hex_digit (n : nat) : ascii :=
  if (n <? 10)%nat then ascii_of_nat (48 + n) else ascii_of_nat (55 + n).

Definition quote_char (c : ascii) : list ascii :=
  let n := nat_of_ascii c in
  if isdigit c
     || ((65 <=? n)%nat && (n <=? 90)%nat)
     || ((97 <=? n)%nat && (n <=? 122)%nat)
     || Ascii.eqb c "_" || Ascii.eqb c "." || Ascii.eqb c "-"
     || Ascii.eqb c "~" || Ascii.eqb c "/"
  then [c]
  else "%"%char :: hex_digit (n / 16) :: hex_digit (n mod 16) :: nil.

Definition quote (s : string) : string := text (flat_map quote_char (chars s)).

(** What [requests.patch] does: it answers with a status code and a body, or
    raises a [RequestException]. *)
Inductive http_answer :=
| Response (status_code : Z) (body : string)
| RequestException (message : string).

(** A [PATCH] on the order that sets its [STATDES]. *)
Record patch_request := {
  req_url : string;
  req_STATDES : string
}.

Definition with_final_status_update (info : final_status_info)
  (pv : price_validation) : price_validation :=
  {| priority_totprice := priority_totprice pv;
     ai_total_price_raw := ai_total_price_raw pv;
     ai_total_price := ai_total_price pv;
     validation_attempted := validation_attempted pv;
     price_match := price_match pv;
     pv_price_difference := pv_price_difference pv;
     overall_validation_pass := overall_validation_pass pv;
     item_validation := item_validation pv;
     pv_shipping_validation := pv_shipping_validation pv;
     final_status_update := Some info |}.

(** The outcome of a call: the boolean returned, the validation dictionary
    as the call leaves it, and the requests sent to the order system. *)
Record status_outcome := {
  so_returned : bool;
  so_price_validation : price_validation;
  so_requests : list patch_request
}.

Definition update_final_status (base_url customer_po : string)
  (price_validation : price_validation) (answer : http_answer)
  : status_outcome :=
  let encoded_po := quote customer_po in
  if get_default (validation_attempted price_validation) false then
    let (new_status, status_reason) := decide_status price_validation in
    let status_update_url :=
      (base_url ++ "/odata/Priority/tabula.ini/eld0999/PORDERS(ORDNAME='"
       ++ encoded_po ++ "')")%string in
    let request :=
      {| req_url := status_update_url; req_STATDES := STATDES_of new_status |} in
    match answer with
    | Response status_code body =>
        if (status_code =? 200)%Z || (status_code =? 204)%Z then
          {| so_returned := true;
             so_price_validation :=
               with_final_status_update
                 {| fsu_attempted := true; fsu_success := true;
                    fsu_final_status := Some (STATDES_of new_status);
                    fsu_intended_status := None;
                    fsu_error := None;
                    fsu_reason := status_reason |} price_validation;
             so_requests := [request] |}
        else
          {| so_returned := false;
             so_price_validation :=
               with_final_status_update
                 {| fsu_attempted := true; fsu_success := false;
                    fsu_final_status := None;
                    fsu_intended_status := Some (STATDES_of new_status);
                    fsu_error :=
                      Some ("Status "
                            ++ NilZero.string_of_int (Z.to_int status_code)
                            ++ ": " ++ body)%string;
                    fsu_reason := status_reason |} price_validation;
             so_requests := [request] |}
    | RequestException message =>
        {| so_returned := false;
           so_price_validation :=
             with_final_status_update
               {| fsu_attempted := true; fsu_success := false;
                  fsu_final_status := None;
                  fsu_intended_status := Some (STATDES_of new_status);
                  fsu_error := Some message;
                  fsu_reason := status_reason |} price_validation;
           so_requests := [request] |}
    end
  else
    {| so_returned := true;
       so_price_validation := price_validation;
       so_requests := [] |}.

(** The validation prefix of [update_order_items]: the authoritative lines
    are split into merchandise and all lines, both validations are run and
    attached.  [None] is the early return on an order without merchandise. *)
Definition order_validation (priority_totprice : Q)
  (original_items : list priority_item) (extracted_total_price : option string)
  (validation_items : list ai_item) (ai_shipping_info : option shipping_info)
  : option price_validation :=
  let price_validation :=
    total_price_validation priority_totprice extracted_total_price in
  let order_items := filter (fun i => negb (is_shipping_item i)) original_items in
  if is_empty order_items then None
  else
    let item_validation_results :=
      validate_items_detail order_items validation_items in
    let shipping_validation_results :=
      validate_shipping_charges original_items validation_items
        ai_shipping_info in
    let all_items_valid := all_items_valid item_validation_results in
    let shipping_valid :=
      shipping_validation_passed shipping_validation_results in
    Some
      {| priority_totprice := priority_totprice;
         ai_total_price_raw := ai_total_price_raw price_validation;
         ai_total_price := ai_total_price price_validation;
         validation_attempted := validation_attempted price_validation;
         price_match := price_match price_validation;
         pv_price_difference := pv_price_difference price_validation;
         overall_validation_pass :=
           if get_default (validation_attempted price_validation) false
           then Some (get_default (price_match price_validation) false
                      && all_items_valid && shipping_valid)
           else None;
         item_validation := Some item_validation_results;
         pv_shipping_validation := Some shipping_validation_results;
         final_status_update := None |}.

End PriorityAPIClient.

(* ================================================================== *)
(** ** [src/response_handler.py]: class [ResponseHandler] *)
(* ================================================================== *)

Module ResponseHandler.

Import PyStr.

(** [re.search(r'(\d+(?:\.\d+)?)', s)]: the first run of digits, with a
    period and further digits when they follow at once; [float] of it. *)
Fixpoint first_number (s : list ascii) : option (list ascii) :=
  match s with
  | [] => None
  | c :: r =>
      if isdigit c then
        let whole := take_digits s in
        match skipn (List.length whole) s with
        | dot :: after =>
            if Ascii.eqb dot "." && negb (is_empty (take_digits after))
            then Some (whole ++ [dot] ++ take_digits after)
            else Some whole
        | [] => Some whole
        end
      else first_number r
  end.

Definition _extract_numeric_quantity (quantity_str : string) : Q :=
  match first_number (chars quantity_str) with
  | Some numeral => get_default (float numeral) 0%Q
  | None => 0%Q
  end.

Definition keep_numeric := PriorityAPIClient.keep_numeric.

(** The [if / elif / elif] block of this class's [_extract_numeric_price]. *)
Definition resolve_separators (cleaned : list ascii) : list ascii :=
  if contains "," cleaned && contains "." cleaned then
    let last_comma := rfind "," cleaned in
    let last_period := rfind "." cleaned in
    if (last_comma >? last_period)%Z
    then replace_char "," "." (remove_char "." cleaned)
    else remove_char "," cleaned
  else if contains "," cleaned && negb (contains "." cleaned) then
    let parts := split_on "," cleaned in
    if (List.length parts =? 2)%nat && (List.length (nth 1 parts []) <=? 2)%nat
    then replace_char "," "." cleaned
    else if (List.length parts =? 2)%nat
            && (List.length (nth 1 parts []) =? 3)%nat
    then
      if (List.length (nth 0 parts []) <=? 3)%nat
      then remove_char "," cleaned
      else replace_char "," "." cleaned
    else remove_char "," cleaned
  else if contains "." cleaned && negb (contains "," cleaned) then
    let parts := split_on "." cleaned in
    if (List.length parts =? 2)%nat && (List.length (nth 1 parts []) <=? 2)%nat
    then cleaned
    else remove_char "." cleaned
  else cleaned.

Definition _extract_numeric_price (price_str : string) : Q :=
  if negb (truthy price_str) then 0%Q
  else
    let cleaned := keep_numeric (chars price_str) in
    if is_empty cleaned then 0%Q
    else PriorityAPIClient.to_amount (resolve_separators cleaned).

(** The report's test on an item price: [price_difference >= 0.005]. *)
Definition price_flagged (extracted_total priority_total : Q) : bool :=
  Qle_bool 0.005%Q (Qabs (extracted_total - priority_total)).

Record report_quantity_mismatch := {
  rq_partname : string;
  rq_priority_quantity : Q;
  rq_extracted_quantity : string;
  rq_extracted_numeric : Q
}.

Record report_price_mismatch := {
  rp_partname : string;
  rp_priority_total : Q;
  rp_extracted_total : string;
  rp_extracted_numeric : Q;
  rp_difference : Q
}.

Record extraction_validation := {
  length_match : bool;
  expected_count : nat;
  extracted_count : nat;
  missing_partnames : list string;
  quantity_mismatches : list report_quantity_mismatch;
  price_mismatches : list report_price_mismatch;
  is_valid : bool
}.

(** One turn of the loop over [priority_partnames.items()]: the mismatches
    of one authoritative item, appended to those found so far. *)
Definition check_extracted (extracted_partnames : list (string * ai_item))
  (acc : list report_quantity_mismatch * list report_price_mismatch)
  (entry : string * priority_item)
  : list report_quantity_mismatch * list report_price_mismatch :=
  let (partname, priority_item) := entry in
  match PyDict.get partname extracted_partnames with
  | Some extracted_item =>
      let priority_qty := TQUANT priority_item in
      let extracted_qty_str := get_default (quantity extracted_item) EmptyString in
      let extracted_qty := _extract_numeric_quantity extracted_qty_str in
      let quantity_mismatches :=
        if negb (Qeq_bool extracted_qty priority_qty)
        then fst acc ++ [ {| rq_partname := partname;
                             rq_priority_quantity := priority_qty;
                             rq_extracted_quantity := extracted_qty_str;
                             rq_extracted_numeric := extracted_qty |} ]
        else fst acc in
      let priority_total := VATPRICE priority_item in
      let extracted_total_str :=
        get_default (item_total extracted_item) EmptyString in
      let extracted_total := _extract_numeric_price extracted_total_str in
      let price_difference := Qabs (extracted_total - priority_total) in
      let price_mismatches :=
        if Qle_bool 0.005%Q price_difference
        then snd acc ++ [ {| rp_partname := partname;
                             rp_priority_total := priority_total;
                             rp_extracted_total := extracted_total_str;
                             rp_extracted_numeric := extracted_total;
                             rp_difference := price_difference |} ]
        else snd acc in
      (quantity_mismatches, price_mismatches)
  | None => acc
  end.

Definition validate_extraction_results (extracted_items : list ai_item)
  (priority_items : list priority_item) : extraction_validation :=
  let priority_partnames := PyDict.of_items PARTNAME priority_items in
  let extracted_partnames :=
    PyDict.of_items code_of
      (filter (fun item => truthy (code_of item)) extracted_items) in
  let missing_partnames :=
    filter (fun partname => negb (PyDict.has partname extracted_partnames))
      (PyDict.keys priority_partnames) in
  let (quantity_mismatches, price_mismatches) :=
    fold_left (check_extracted extracted_partnames) priority_partnames
      ([], []) in
  let length_match :=
    (List.length extracted_items =? List.length priority_items)%nat in
  {| length_match := length_match;
     expected_count := List.length priority_items;
     extracted_count := List.length extracted_items;
     missing_partnames := missing_partnames;
     quantity_mismatches := quantity_mismatches;
     price_mismatches := price_mismatches;
     is_valid :=
       (List.length missing_partnames =? 0)%nat
       && (List.length quantity_mismatches =? 0)%nat
       && (List.length price_mismatches =? 0)%nat && length_match |}.

End ResponseHandler.

(* ================================================================== *)
(** ** [src/order_validator.py]: class [OrderValidator] *)
(* ================================================================== *)

Module OrderValidator.

Import PyStr.

(** [value.replace("USD", "")]. *)
Fixpoint remove_USD (s : list ascii) : list ascii :=
  match s with
  | "U"%char :: "S"%char :: "D"%char :: r => remove_USD r
  | x :: r => x :: remove_USD r
  | [] => []
  end.

(** [cleaned[:-1]]. *)
Definition drop_last (s : list ascii) : list ascii := removelast s.

(** The text that [clean_number] hands to [Decimal]. *)
Definition clean_number_text (value : string) : list ascii :=
  let cleaned := strip (remove_USD (chars value)) in
  let cleaned :=
    if contains "," cleaned
    then replace_char "," "." (remove_char "." cleaned)
    else cleaned in
  if endswith_char "-" cleaned then "-"%char :: drop_last cleaned else cleaned.

(** [value.split()[0]]: the first token between whitespace, if any. *)
Fixpoint take_token (s : list ascii) : list ascii :=
  match s with
  | c :: r => if isspace c then [] else c :: take_token r
  | [] => []
  end.

Definition first_token (s : list ascii) : option (list ascii) :=
  match lstrip s with
  | [] => None
  | t => Some (take_token t)
  end.

(** [clean_quantity]: the digits of the first token as an integer; [0] when
    there is no token ([IndexError], caught) or no digit. *)
Definition clean_quantity (value : string) : Z :=
  match first_token (chars value) with
  | Some token =>
      let number := filter isdigit token in
      if is_empty number then 0%Z else digits_val 0%Z number
  | None => 0%Z
  end.

Inductive order_status :=
| VALIDATING
| INCOMPLETE_DATA
| SAME
| MISMATCH.

(** What [validate_orders] uses of Python's [decimal] module: the objects
    of the class [Decimal]; [Decimal(text)], where [None] is the
    [InvalidOperation] of a text that is no numeral; [Decimal(str(x))] for a
    number [x] of the authoritative order; and the test
    [abs(a - b) > Decimal('0.01')], where [None] is the signal that the
    subtraction or the comparison raises (a NaN among the operands, an
    overflow), an [ArithmeticError]. *)
Record decimal_library := {
  dec : Type;
  Decimal : list ascii -> option dec;
  Decimal_of_number : Q -> dec;
  differs_by_more_than_a_cent : dec -> dec -> option bool
}.

(** The extracted document: [agilent_data.get("items", [])]. *)
Record agilent_data := { items : option (list ai_item) }.

(** The authoritative answer: [priority_data["value"][0]]. *)
Record priority_data := { PORDERITEMS_SUBFORM : list priority_item }.

(** [int(x)] on a number: truncation towards zero. *)
Definition int_of_number (x : Q) : Z := Z.quot (Qnum x) (Zpos (Qden x)).

(** The loop over the extracted items that records the incomplete ones. *)
Definition incomplete_of (items : list ai_item) : list (string * string) :=
  flat_map
    (fun item =>
       if truthy (get_default (product_code item) EmptyString)
          && negb (truthy (get_default (item_total item) EmptyString))
       then [(get_default (product_code item) EmptyString,
              "Missing total price")]
       else [])
    items.

Section WithDecimal.

Variable L : decimal_library.

Record order_mismatch := {
  om_product_code : string;
  om_quantity_agilent : Z;
  om_quantity_priority : Z;
  om_total_agilent : dec L;
  om_total_priority : dec L
}.

Record order_results := {
  status : order_status;
  mismatches : list order_mismatch;
  missing_in_priority : list string;
  missing_in_agilent : list string;
  incomplete_items : list (string * string)
}.

(** [clean_number]: any exception is caught and gives [Decimal('0')]. *)
Definition clean_number (value : string) : dec L :=
  if negb (truthy value) then Decimal_of_number L 0%Q
  else get_default (Decimal L (clean_number_text value))
         (Decimal_of_number L 0%Q).

(** One turn of the loop over [agilent_items.items()]; [None] is an
    exception that [except (ValueError, KeyError)] does not catch and that
    leaves [validate_orders]. *)
Definition check_agilent_item (priority_items : list (string * priority_item))
  (acc : list order_mismatch * list string) (entry : string * ai_item)
  : option (list order_mismatch * list string) :=
  let (product_code, agilent_item) := entry in
  match PyDict.get product_code priority_items with
  | Some priority_item =>
      match quantity agilent_item with
      | Some quantity_str =>
          let agilent_quantity := clean_quantity quantity_str in
          let priority_quantity := int_of_number (TQUANT priority_item) in
          match item_total agilent_item with
          | Some total_str =>
              let agilent_total := clean_number total_str in
              let priority_total :=
                Decimal_of_number L (VATPRICE priority_item) in
              let mismatch :=
                (fst acc ++ [ {| om_product_code := product_code;
                                 om_quantity_agilent := agilent_quantity;
                                 om_quantity_priority := priority_quantity;
                                 om_total_agilent := agilent_total;
                                 om_total_priority := priority_total |} ],
                 snd acc) in
              if negb (agilent_quantity =? priority_quantity)%Z
              then Some mismatch
              else
                match differs_by_more_than_a_cent L agilent_total
                        priority_total with
                | Some true => Some mismatch
                | Some false => Some acc
                | None => None
                end
          | None => Some acc
          end
      | None => Some acc
      end
  | None => Some (fst acc, snd acc ++ [product_code])
  end.

(** The loop [for product_code, agilent_item in agilent_items.items()]. *)
Fixpoint check_agilent_items (priority_items : list (string * priority_item))
  (entries : list (string * ai_item))
  (acc : list order_mismatch * list string)
  : option (list order_mismatch * list string) :=
  match entries with
  | [] => Some acc
  | entry :: rest =>
      match check_agilent_item priority_items acc entry with
      | Some acc' => check_agilent_items priority_items rest acc'
      | None => None
      end
  end.

(** [validate_orders]; [None] is the exception that leaves it. *)
Definition validate_orders (agilent_data : agilent_data)
  (priority_data : priority_data) : option order_results :=
  let items := get_default (items agilent_data) [] in
  let incomplete_items := incomplete_of items in
  let priority_items :=
    PyDict.of_items PARTNAME (PORDERITEMS_SUBFORM priority_data) in
  let agilent_items :=
    PyDict.of_items code_of
      (filter (fun item => is_some (product_code item)) items) in
  match check_agilent_items priority_items agilent_items ([], []) with
  | None => None
  | Some (mismatches, missing_in_priority) =>
      let missing_in_agilent :=
        filter (fun partname => negb (PyDict.has partname agilent_items))
          (PyDict.keys priority_items) in
      let status :=
        if negb (is_empty incomplete_items) then INCOMPLETE_DATA
        else if negb (negb (is_empty mismatches)
                      || negb (is_empty missing_in_priority)
                      || negb (is_empty missing_in_agilent))
        then SAME
        else MISMATCH in
      Some {| status := status;
              mismatches := mismatches;
              missing_in_priority := missing_in_priority;
              missing_in_agilent := missing_in_agilent;
              incomplete_items := incomplete_items |}
  end.

End WithDecimal.

Arguments status {L} _.
Arguments mismatches {L} _.
Arguments missing_in_priority {L} _.
Arguments missing_in_agilent {L} _.
Arguments incomplete_items {L} _.

End OrderValidator.

(* ================================================================== *)
(** ** The price comparisons on binary64 numbers *)
(* ================================================================== *)

(** The comparisons of prices as the interpreter runs them, on IEEE 754
    binary64 numbers.  The text processing of the extractors is the one of
    the modules above, whose exact amount is the value of the numeral that
    reaches [float]; [float] rounds that value to the nearest double, ties to
    even, and the additions, subtractions, [abs] and comparisons are those of
    binary64. *)
Module Binary64.

Import PyStr PriorityAPIClient.

Definition prec : Z := 53.
Definition emax : Z := 1024.

Definition double : Type := spec_float.

(** The double nearest to a rational, ties to even: [float] on a numeral, on
    a number of the authoritative order, and a literal of the program.  The
    quotient is taken with 64 bits or more and a last bit that records an
    inexact division, then rounded once. *)
Definition of_Q (q : Q) : double :=
  let n := Qnum q in
  let d := Zpos (Qden q) in
  if (n =? 0)%Z then S754_zero false
  else
    let s := Z.max 0 (Z.log2 d - Z.log2 (Z.abs n) + 64) in
    let scaled := (Z.abs n * 2 ^ s)%Z in
    let m :=
      (2 * (scaled / d) + (if (scaled mod d =? 0)%Z then 0 else 1))%Z in
    binary_normalize prec emax (if (n <? 0)%Z then (- m)%Z else m)
      (- s - 1)%Z false.

Definition add : double -> double -> double := SFadd prec emax.
Definition sub : double -> double -> double := SFsub prec emax.
Definition abs : double -> double := SFabs.
Definition ltb : double -> double -> bool := SFltb.
Definition leb : double -> double -> bool := SFleb.


(** *** The client of the order system *)

(** [_extract_numeric_price] of [PriorityAPIClient]: [float(cleaned)], or
    [0.0]. *)
Definition _extract_numeric_price (price_str : string) : double :=
  of_Q (PriorityAPIClient._extract_numeric_price price_str).

(** [abs(float(priority) - ai_price_numeric)] and the test
    [price_difference < 0.01] of [get_order_data] and
    [validate_items_detail]. *)
Definition price_difference_of (priority : Q) (ai_price_numeric : double)
  : double :=
  abs (sub (of_Q priority) ai_price_numeric).

Definition within_one_cent (priority : Q) (ai_price_numeric : double) : bool :=
  ltb (price_difference_of priority ai_price_numeric) (of_Q 0.01).


(** [price_match] of [validate_items_detail] for an authoritative item and
    the extracted item of its part name. *)
Definition item_price_match (priority_item : priority_item)
  (ai_item : ai_item) : bool :=
  within_one_cent (VATPRICE priority_item)
    (_extract_numeric_price (get_default (item_total ai_item) EmptyString)).

(** *** Shipping reconciler: [validate_shipping_charges] *)

Record shipping_validation := {
  shipping_validation_passed : bool;
  sv_validation_case : validation_case;
  priority_shipping_items : list (string * Q);
  priority_shipping_total : double;
  sv_ai_shipping_info : option shipping_info;
  shipping_match : bool;
  sv_price_difference : double
}.

(** One turn of the loop over the authoritative items:
    [total_priority_shipping += float(vatprice)]. *)
Definition add_shipping_item (acc : list (string * Q) * double)
  (item : priority_item) : list (string * Q) * double :=
  if is_shipping_item item
  then (fst acc ++ [(PARTNAME item, VATPRICE item)],
        add (snd acc) (of_Q (VATPRICE item)))
  else acc.

Definition collect_priority_shipping (priority_items : list priority_item)
  : list (string * Q) * double :=
  fold_left add_shipping_item priority_items ([], S754_zero false).

Definition validate_shipping_charges (priority_items : list priority_item)
  (ai_items : list ai_item) (ai_shipping_info : option shipping_info)
  : shipping_validation :=
  let (priority_shipping_items, total_priority_shipping) :=
    collect_priority_shipping priority_items in
  let ai_shipping_extracted :=
    ai_shipping_extracted_of ai_items ai_shipping_info in
  let ai_shipping_price :=
    match ai_shipping_extracted with
    | Some d => of_Q (get_default (si_price_numeric d) 0%Q)
    | None => S754_zero false
    end in
  let has_priority_shipping :=
    (0 <? List.length priority_shipping_items)%nat in
  let has_ai_shipping := is_some ai_shipping_extracted in
  if has_priority_shipping && has_ai_shipping then
    let price_difference :=
      abs (sub total_priority_shipping ai_shipping_price) in
    let shipping_match := ltb price_difference (of_Q 0.01) in
    {| shipping_validation_passed := shipping_match;
       sv_validation_case := both_exist_compare_prices;
       priority_shipping_items := priority_shipping_items;
       priority_shipping_total := total_priority_shipping;
       sv_ai_shipping_info := ai_shipping_extracted;
       shipping_match := shipping_match;
       sv_price_difference := price_difference |}
  else if has_priority_shipping && negb has_ai_shipping then
    {| shipping_validation_passed := false;
       sv_validation_case := priority_has_ai_missing;
       priority_shipping_items := priority_shipping_items;
       priority_shipping_total := total_priority_shipping;
       sv_ai_shipping_info := ai_shipping_extracted;
       shipping_match := false;
       sv_price_difference := S754_zero false |}
  else if negb has_priority_shipping && has_ai_shipping then
    {| shipping_validation_passed := false;
       sv_validation_case := ai_has_priority_missing;
       priority_shipping_items := priority_shipping_items;
       priority_shipping_total := total_priority_shipping;
       sv_ai_shipping_info := ai_shipping_extracted;
       shipping_match := false;
       sv_price_difference := S754_zero false |}
  else
    {| shipping_validation_passed := true;
       sv_validation_case := neither_has_shipping;
       priority_shipping_items := priority_shipping_items;
       priority_shipping_total := total_priority_shipping;
       sv_ai_shipping_info := ai_shipping_extracted;
       shipping_match := true;
       sv_price_difference := S754_zero false |}.

(** *** The report generator *)

(** [_extract_numeric_price] of [ResponseHandler]. *)
Definition report_numeric_price (price_str : string) : double :=
  of_Q (ResponseHandler._extract_numeric_price price_str).

(** [abs(extracted_total - priority_total)] and the report's test
    [price_difference >= 0.005]. *)
Definition report_price_difference (extracted_total : double)
  (priority_total : Q) : double :=
  abs (sub extracted_total (of_Q priority_total)).

Definition price_flagged (extracted_total : double) (priority_total : Q)
  : bool :=
  leb (of_Q 0.005) (report_price_difference extracted_total priority_total).

Record report_price_mismatch := {
  rp_partname : string;
  rp_priority_total : Q;
  rp_extracted_total : string;
  rp_extracted_numeric : double;
  rp_difference : double
}.

(** One turn of the loop over [priority_partnames.items()], for the list
    [price_mismatches]. *)
Definition check_extracted_price
  (extracted_partnames : list (string * ai_item))
  (acc : list report_price_mismatch) (entry : string * priority_item)
  : list report_price_mismatch :=
  let (partname, priority_item) := entry in
  match PyDict.get partname extracted_partnames with
  | Some extracted_item =>
      let priority_total := VATPRICE priority_item in
      let extracted_total_str :=
        get_default (item_total extracted_item) EmptyString in
      let extracted_total := report_numeric_price extracted_total_str in
      let price_difference :=
        report_price_difference extracted_total priority_total in
      if leb (of_Q 0.005) price_difference
      then acc ++ [ {| rp_partname := partname;
                       rp_priority_total := priority_total;
                       rp_extracted_total := extracted_total_str;
                       rp_extracted_numeric := extracted_total;
                       rp_difference := price_difference |} ]
      else acc
  | None => acc
  end.

(** [price_mismatches] of [validate_extraction_results]. *)
Definition price_mismatches (extracted_items : list ai_item)
  (priority_items : list priority_item) : list report_price_mismatch :=
  let priority_partnames := PyDict.of_items PARTNAME priority_items in
  let extracted_partnames :=
    PyDict.of_items code_of
      (filter (fun item => truthy (code_of item)) extracted_items) in
  fold_left (check_extracted_price extracted_partnames) priority_partnames [].

End Binary64.

(* ================================================================== *)
(** ** [src/priority_api.py], continued: fetching and updating the order *)
(* ================================================================== *)

Module OrderUpdate.

Import PyStr PyDate PriorityAPIClient.

(** [s.isdigit()]: not empty and digits only. *)
Definition str_isdigit (s : list ascii) : bool :=
  negb (is_empty s) && forallb isdigit s.

(** The format check that opens [get_order_data]: the negation of
    [len(order_po) != 12 or not order_po.startswith('PO')
     or not order_po[2:].isdigit()]. *)
Definition po_format_ok (order_po : string) : bool :=
  negb (negb (String.length order_po =? 12)%nat
        || negb (startswith (chars "PO") (chars order_po))
        || negb (str_isdigit (skipn 2 (chars order_po)))).

(** A line of the order with the key [KLINE] of its later updates, which may
    be null, and the order as it is fetched. *)
Record priority_line := {
  line_item : priority_item;
  KLINE : option Z
}.

Record priority_order := {
  TOTPRICE : Q;
  SUPORDNUM : option string;
  SUPNAME : option string;
  order_lines : list priority_line
}.

(** What the [GET] on the order gives: the list under ['value'], or a
    [RequestException] (also raised by [raise_for_status]). *)
Inductive fetch_answer :=
| Fetched (value : list priority_order)
| FetchFailed (message : string).

(** The order data handed back on success: the first order, its lines
    without the shipping lines, and the lines before the filtering (the key
    [_original_items], set only when the order has lines). *)
Record order_data := {
  od_order : priority_order;
  od_items : list priority_line;
  od_original_items : option (list priority_line)
}.

Definition line_is_shipping (line : priority_line) : bool :=
  is_shipping_item (line_item line).

(** The outcome of [get_order_data]: the data and the total price validation
    on success, and the encoded order numbers that were requested. *)
Record fetch_outcome := {
  fo_result : option (order_data * price_validation);
  fo_requests : list string
}.

Definition get_order_data (order_po : string) (ai_total_price : option string)
  (answer : fetch_answer) : fetch_outcome :=
  if negb (po_format_ok order_po) then
    {| fo_result := None; fo_requests := [] |}
  else
    let encoded_po := quote order_po in
    match answer with
    | FetchFailed _ => {| fo_result := None; fo_requests := [encoded_po] |}
    | Fetched [] => {| fo_result := None; fo_requests := [encoded_po] |}
    | Fetched (order_info :: _) =>
        let price_validation :=
          total_price_validation (TOTPRICE order_info) ai_total_price in
        let order_items := order_lines order_info in
        let data :=
          if is_empty order_items then
            {| od_order := order_info; od_items := order_items;
               od_original_items := None |}
          else
            {| od_order := order_info;
               od_items :=
                 filter (fun item => negb (line_is_shipping item)) order_items;
               od_original_items := Some order_items |} in
        {| fo_result := Some (data, price_validation);
           fo_requests := [encoded_po] |}
    end.

(** [d.strftime("%Y-%m-%dT00:00:00+03:00")]. *)
Definition strftime_priority (d : date) : string :=
  text (pad_digits 4 (year d) [] ++ chars "-" ++ pad_digits 2 (month d) []
        ++ chars "-" ++ pad_digits 2 (day d) [] ++ chars "T00:00:00+03:00").

(** [convert_date_format]: [None] is the [ValueError] it raises. *)
Definition convert_date_format (date_str : string) : option string :=
  match strptime_dmy (chars date_str) with
  | Some date_obj => Some (strftime_priority date_obj)
  | None => None
  end.

(** *** [update_order_items] *)

Inductive update_status :=
| success
| failed
| date_error
| network_error
| skipped
| not_found.

Record update_result := {
  ur_product_code : string;
  ur_kline_id : option Z;
  ur_status : update_status;
  ur_message : string;
  ur_original_delivery_date : option string;
  ur_calculated_priority_date : option string;
  ur_sent_date : option string;
  ur_address_logic : option string
}.

(** A [PATCH] on a line of the order that sets its [REQDATE]. *)
Record line_request := {
  lr_url : string;
  lr_kline_id : Z;
  lr_REQDATE : string
}.

Record matched_item := {
  mi_product_code : string;
  mi_delivery_date : string;
  mi_kline_id : Z
}.

(** The dictionary [partname_to_kline]. *)
Definition partname_to_kline_of (order_items : list priority_line)
  : list (string * Z) :=
  fold_left
    (fun d item =>
       let partname := PARTNAME (line_item item) in
       match KLINE item with
       | Some kline => if truthy partname then PyDict.set partname kline d else d
       | None => d
       end)
    order_items [].

(** [item.get('delivery_date', '')]. *)
Definition date_of (item : ai_item) : string :=
  get_default (delivery_date item) EmptyString.

(** An item lacks what an update needs. *)
Definition lacks_required (item : ai_item) : bool :=
  negb (truthy (code_of item)) || negb (truthy (date_of item)).

(** The list [matched_items]. *)
Definition matched_items_of (partname_to_kline : list (string * Z))
  (items_data : list ai_item) : list matched_item :=
  flat_map
    (fun item =>
       if lacks_required item then []
       else match PyDict.get (code_of item) partname_to_kline with
            | Some kline =>
                [ {| mi_product_code := code_of item;
                     mi_delivery_date := date_of item;
                     mi_kline_id := kline |} ]
            | None => []
            end)
    items_data.

(** The label [address_logic] of a result. *)
Definition address_logic_of (delivery_address : string) : string :=
  if is_substring (chars "12 Bet") (chars delivery_address)
  then "Special address (12 Bet)"
  else "Default logic".

Definition line_url (base_url customer_po : string) (kline_id : Z) : string :=
  (base_url ++ "/odata/Priority/tabula.ini/eld0999/PORDERS(ORDNAME='"
   ++ quote customer_po ++ "')/PORDERITEMS_SUBFORM("
   ++ NilZero.string_of_int (Z.to_int kline_id) ++ ")")%string.

(** The state of the loop over the matched items: the results, the requests
    sent, the count of successes and the number of items seen. *)
Record update_state := {
  us_results : list update_result;
  us_requests : list line_request;
  us_success_count : nat;
  us_seen : nat
}.

(** One turn of the loop [for item in matched_items]; [answers i] is what
    the order system answers to the request for the item at position [i]. *)
Definition update_line (base_url customer_po delivery_address : string)
  (answers : nat -> http_answer) (st : update_state) (item : matched_item)
  : update_state :=
  let product_code := mi_product_code item in
  let delivery_date := mi_delivery_date item in
  let kline_id := mi_kline_id item in
  let priority_date_str :=
    returned (calculate_priority_date delivery_date delivery_address) in
  match convert_date_format priority_date_str with
  | None =>
      {| us_results :=
           us_results st
           ++ [ {| ur_product_code := product_code;
                   ur_kline_id := Some kline_id;
                   ur_status := date_error;
                   ur_message :=
                     ("Invalid date format. Expected DD/MM/YYYY, got: "
                      ++ priority_date_str)%string;
                   ur_original_delivery_date := None;
                   ur_calculated_priority_date := None;
                   ur_sent_date := None;
                   ur_address_logic := None |} ];
         us_requests := us_requests st;
         us_success_count := us_success_count st;
         us_seen := S (us_seen st) |}
  | Some converted_date =>
      let request :=
        {| lr_url := line_url base_url customer_po kline_id;
           lr_kline_id := kline_id;
           lr_REQDATE := converted_date |} in
      match answers (us_seen st) with
      | Response status_code body =>
          if (status_code =? 200)%Z || (status_code =? 204)%Z then
            {| us_results :=
                 us_results st
                 ++ [ {| ur_product_code := product_code;
                         ur_kline_id := Some kline_id;
                         ur_status := success;
                         ur_message := "Line item updated successfully";
                         ur_original_delivery_date := Some delivery_date;
                         ur_calculated_priority_date := Some priority_date_str;
                         ur_sent_date := Some converted_date;
                         ur_address_logic :=
                           Some (address_logic_of delivery_address) |} ];
               us_requests := us_requests st ++ [request];
               us_success_count := S (us_success_count st);
               us_seen := S (us_seen st) |}
          else
            {| us_results :=
                 us_results st
                 ++ [ {| ur_product_code := product_code;
                         ur_kline_id := Some kline_id;
                         ur_status := failed;
                         ur_message :=
                           ("Update failed with status "
                            ++ NilZero.string_of_int (Z.to_int status_code)
                            ++ ": " ++ body)%string;
                         ur_original_delivery_date := Some delivery_date;
                         ur_calculated_priority_date := Some priority_date_str;
                         ur_sent_date := Some converted_date;
                         ur_address_logic :=
                           Some (address_logic_of delivery_address) |} ];
               us_requests := us_requests st ++ [request];
               us_success_count := us_success_count st;
               us_seen := S (us_seen st) |}
      | RequestException message =>
          {| us_results :=
               us_results st
               ++ [ {| ur_product_code := product_code;
                       ur_kline_id := Some kline_id;
                       ur_status := network_error;
                       ur_message := ("Network error: " ++ message)%string;
                       ur_original_delivery_date := None;
                       ur_calculated_priority_date := None;
                       ur_sent_date := None;
                       ur_address_logic := None |} ];
             us_requests := us_requests st ++ [request];
             us_success_count := us_success_count st;
             us_seen := S (us_seen st) |}
      end
  end.

(** One turn of the loop that adds the items without a result. *)
Definition add_unmatched (update_results : list update_result)
  (item : ai_item) : list update_result :=
  let product_code := code_of item in
  if lacks_required item then
    update_results
    ++ [ {| ur_product_code := product_code;
            ur_kline_id := None;
            ur_status := skipped;
            ur_message := "Missing product_code or delivery_date";
            ur_original_delivery_date := None;
            ur_calculated_priority_date := None;
            ur_sent_date := None;
            ur_address_logic := None |} ]
  else if negb (existsb (fun result =>
                           String.eqb (ur_product_code result) product_code)
                  update_results)
  then
    update_results
    ++ [ {| ur_product_code := product_code;
            ur_kline_id := None;
            ur_status := not_found;
            ur_message := "Product code not found in Priority order";
            ur_original_delivery_date := None;
            ur_calculated_priority_date := None;
            ur_sent_date := None;
            ur_address_logic := None |} ]
  else update_results.

(** What a call of [update_order_items] gives and does: the tuple it
    returns and the requests it sends. *)
Record update_outcome := {
  uo_success : bool;
  uo_message : string;
  uo_results : list update_result;
  uo_price_validation : option price_validation;
  uo_fetches : list string;
  uo_line_requests : list line_request;
  uo_status_requests : list patch_request
}.

Definition update_order_items (base_url customer_po : string)
  (items_data : list ai_item) (delivery_address : string)
  (extracted_total_price : option string)
  (ai_shipping_info : option shipping_info)
  (full_items_data : option (list ai_item))
  (fetch : fetch_answer) (answers : nat -> http_answer)
  (status_answer : http_answer) : update_outcome :=
  let fetched := get_order_data customer_po extracted_total_price fetch in
  match fo_result fetched with
  | None =>
      {| uo_success := false;
         uo_message := "Could not retrieve order data from Priority";
         uo_results := []; uo_price_validation := None;
         uo_fetches := fo_requests fetched;
         uo_line_requests := []; uo_status_requests := [] |}
  | Some (order_data, price_validation) =>
      let order_items := od_items order_data in
      if is_empty order_items then
        {| uo_success := false;
           uo_message := "No order items found in Priority";
           uo_results := []; uo_price_validation := Some price_validation;
           uo_fetches := fo_requests fetched;
           uo_line_requests := []; uo_status_requests := [] |}
      else
        let original_order_items :=
          get_default (od_original_items order_data) order_items in
        let validation_items := get_default full_items_data items_data in
        let item_validation_results :=
          validate_items_detail (map line_item order_items) validation_items in
        let shipping_validation_results :=
          validate_shipping_charges (map line_item original_order_items)
            validation_items ai_shipping_info in
        let price_validation :=
          {| priority_totprice := priority_totprice price_validation;
             ai_total_price_raw := ai_total_price_raw price_validation;
             ai_total_price := ai_total_price price_validation;
             validation_attempted := validation_attempted price_validation;
             price_match := price_match price_validation;
             pv_price_difference := pv_price_difference price_validation;
             overall_validation_pass :=
               if get_default (validation_attempted price_validation) false
               then Some (get_default (price_match price_validation) false
                          && all_items_valid item_validation_results
                          && shipping_validation_passed
                               shipping_validation_results)
               else None;
             item_validation := Some item_validation_results;
             pv_shipping_validation := Some shipping_validation_results;
             final_status_update := None |} in
        let partname_to_kline := partname_to_kline_of order_items in
        let matched_items := matched_items_of partname_to_kline items_data in
        let st :=
          fold_left (update_line base_url customer_po delivery_address answers)
            matched_items
            {| us_results := []; us_requests := [];
               us_success_count := 0; us_seen := 0 |} in
        let update_results := fold_left add_unmatched items_data (us_results st) in
        let valid_items_count :=
          List.length (filter (fun item => negb (lacks_required item)) items_data) in
        let final :=
          update_final_status base_url customer_po price_validation
            status_answer in
        let success_count := us_success_count st in
        let of_matched :=
          (string_of_nat success_count ++ "/"
           ++ string_of_nat (List.length matched_items))%string in
        {| uo_success := negb (success_count =? 0)%nat;
           uo_message :=
             if (success_count =? 0)%nat then
               ("No items were updated successfully (0/"
                ++ string_of_nat valid_items_count ++ ")")%string
             else if (success_count <? List.length matched_items)%nat then
               ("Partially successful: " ++ of_matched
                ++ " matched items updated")%string
             else
               ("All " ++ of_matched
                ++ " matched items updated successfully")%string;
           uo_results := update_results;
           uo_price_validation := Some (so_price_validation final);
           uo_fetches := fo_requests fetched;
           uo_line_requests := us_requests st;
           uo_status_requests := so_requests final |}
  end.

(** *** [update_order_number] *)

(** A [PATCH] on the order that sets its number and its supplier name. *)
Record number_request := {
  nr_url : string;
  nr_SUPORDNUM : string;
  nr_SUPNAME : string
}.

Record number_outcome := {
  no_success : bool;
  no_message : string;
  no_fetches : list string;
  no_requests : list number_request
}.

Definition update_order_number (base_url customer_po : string)
  (order_number supplier_name : option string)
  (fetch : fetch_answer) (answer : http_answer) : number_outcome :=
  let needs_fetch := negb (is_some order_number) || negb (is_some supplier_name) in
  let fetched :=
    if needs_fetch then get_order_data customer_po None fetch
    else {| fo_result := None; fo_requests := [] |} in
  match needs_fetch, fo_result fetched with
  | true, None =>
      {| no_success := false;
         no_message := "Could not retrieve order data from Priority";
         no_fetches := fo_requests fetched; no_requests := [] |}
  | _, found =>
      let from_order (field : priority_order -> option string) : string :=
        match found with
        | Some (data, _) => get_default (field (od_order data)) EmptyString
        | None => EmptyString
        end in
      let order_number :=
        match order_number with Some n => n | None => from_order SUPORDNUM end in
      let supplier_name :=
        match supplier_name with Some n => n | None => from_order SUPNAME end in
      if negb (truthy order_number) then
        {| no_success := false;
           no_message :=
             "SUPORDNUM cannot be null or empty - order number is required";
           no_fetches := fo_requests fetched; no_requests := [] |}
      else if negb (truthy supplier_name) then
        {| no_success := false;
           no_message :=
             "SUPNAME cannot be null or empty - supplier name is required";
           no_fetches := fo_requests fetched; no_requests := [] |}
      else
        let url :=
          (base_url
           ++ "/odata/Priority/tabula.ini/eld0999/PORDERS?$filter=ORDNAME eq '"
           ++ quote customer_po ++ "'")%string in
        let request :=
          {| nr_url := url; nr_SUPORDNUM := order_number;
             nr_SUPNAME := supplier_name |} in
        match answer with
        | Response status_code body =>
            if (400 <=? status_code)%Z then
              {| no_success := false;
                 no_message :=
                   ("Order number update failed with status "
                    ++ NilZero.string_of_int (Z.to_int status_code)
                    ++ ": " ++ body)%string;
                 no_fetches := fo_requests fetched; no_requests := [request] |}
            else if (status_code =? 200)%Z || (status_code =? 204)%Z then
              {| no_success := true;
                 no_message :=
                   ("Order number updated successfully: SUPORDNUM="
                    ++ order_number ++ ", SUPNAME=" ++ supplier_name)%string;
                 no_fetches := fo_requests fetched; no_requests := [request] |}
            else
              {| no_success := false;
                 no_message :=
                   ("Unexpected response status: "
                    ++ NilZero.string_of_int (Z.to_int status_code))%string;
                 no_fetches := fo_requests fetched; no_requests := [request] |}
        | RequestException message =>
            {| no_success := false;
               no_message :=
                 ("Network error updating order number: " ++ message)%string;
               no_fetches := fo_requests fetched; no_requests := [request] |}
        end
  end.

End OrderUpdate.

(* ================================================================== *)
(** ** [src/main.py]: class [ClaudeOrderProcessor] and the order request *)
(* ================================================================== *)

Module ClaudeOrderProcessor.

Import PyStr PriorityAPIClient.

(** *** [validate_customer_po] *)

Definition validate_customer_po (customer_po : string) : bool * string :=
  if negb (truthy customer_po) then (false, "Customer PO is missing")
  else if negb (String.length customer_po =? 12)%nat then
    (false,
     ("Customer PO must be 12 characters long, got "
      ++ string_of_nat (String.length customer_po) ++ " characters: '"
      ++ customer_po ++ "'")%string)
  else if negb (startswith (chars "PO") (chars customer_po)) then
    (false,
     ("Customer PO must start with 'PO', got: '" ++ customer_po ++ "'")%string)
  else if negb (OrderUpdate.str_isdigit (skipn 2 (chars customer_po))) then
    (false,
     ("Customer PO must have 10 digits after 'PO', got: '"
      ++ customer_po ++ "'")%string)
  else (true, "Valid customer PO").

(** *** [_extract_po_from_response] *)

(** The class [[A-Z0-9]]. *)
Definition upper_or_digit (c : ascii) : bool :=
  isdigit c || ((65 <=? nat_of_ascii c)%nat && (nat_of_ascii c <=? 90)%nat).

Fixpoint take_while (f : ascii -> bool) (s : list ascii) : list ascii :=
  match s with
  | c :: r => if f c then c :: take_while f r else []
  | [] => []
  end.

(** The match of [Customer PO:\s*([A-Z0-9]+)] that starts at the head of
    [s]: its group. *)
Definition labelled_po_here (s : list ascii) : option (list ascii) :=
  if startswith (chars "Customer PO:") s then
    let group := take_while upper_or_digit (lstrip (skipn 12 s)) in
    if is_empty group then None else Some group
  else None.

(** [re.search(r'Customer PO:\s*([A-Z0-9]+)', text)]: the leftmost match. *)
Fixpoint search_labelled_po (s : list ascii) : option (list ascii) :=
  match labelled_po_here s with
  | Some group => Some group
  | None =>
      match s with
      | [] => None
      | _ :: r => search_labelled_po r
      end
  end.

(** The match of [PO\d{10}] that starts at the head of [s]. *)
Definition po_pattern_here (s : list ascii) : option (list ascii) :=
  if startswith (chars "PO") s
     && (10 <=? List.length (take_digits (skipn 2 s)))%nat
  then Some (firstn 12 s)
  else None.

(** [re.search(r'PO\d{10}', text)]. *)
Fixpoint search_po_pattern (s : list ascii) : option (list ascii) :=
  match po_pattern_here s with
  | Some po => Some po
  | None =>
      match s with
      | [] => None
      | _ :: r => search_po_pattern r
      end
  end.

Definition _extract_po_from_response (response_text : string) : string :=
  let fallback :=
    match search_po_pattern (chars response_text) with
    | Some po => text po
    | None => EmptyString
    end in
  match search_labelled_po (chars response_text) with
  | Some po =>
      if negb (String.eqb (text po) "NOT_FOUND")
         && (List.length po =? 12)%nat && startswith (chars "PO") po
      then text po
      else fallback
  | None => fallback
  end.

(** *** [_extract_shipping_from_order_info] *)

Definition shipping_fields : list string :=
  [ "shipping_cost"; "shipping_charge"; "shipping_price"; "shipping_total";
    "handling_cost"; "handling_charge"; "handling_price"; "handling_total";
    "freight_cost"; "freight_charge"; "freight_price"; "freight_total";
    "delivery_cost"; "delivery_charge"; "delivery_price"; "delivery_total" ].

(** The keys of [shipping_keywords_mapping], in their order. *)
Definition hint_keywords : list string :=
  [ "shipping & handling"; "expedited handling"; "shipping"; "handling";
    "freight"; "delivery charge" ].

(** [re.sub(r'[^\d\.]', '', value)]. *)
Definition keep_digits_periods (s : list ascii) : list ascii :=
  filter (fun c => isdigit c || Ascii.eqb c ".") s.

(** [float(price_cleaned) if price_cleaned else 0]; [None] is the
    [ValueError] of a text with no digit or with several periods. *)
Definition hint_amount (value : string) : option Q :=
  let price_cleaned := keep_digits_periods (chars value) in
  if is_empty price_cleaned then Some 0%Q else float price_cleaned.

(** What the search gives: a shipping record, nothing, or the [ValueError]
    that leaves the function. *)
Inductive hint_outcome :=
| HintFound (d : shipping_info)
| HintNone
| HintRaised.

(** The first step of a loop that returns or raises; [None] goes on. *)
Fixpoint first_outcome {A : Type} (step : A -> option hint_outcome)
  (l : list A) : option hint_outcome :=
  match l with
  | [] => None
  | x :: r =>
      match step x with
      | Some o => Some o
      | None => first_outcome step r
      end
  end.

(** The amount of a candidate: a record when it is positive, the error when
    it cannot be read, and the next candidate otherwise. *)
Definition hint_if_positive (value : string)
  (record : Q -> shipping_info) : option hint_outcome :=
  match hint_amount value with
  | None => Some HintRaised
  | Some price_numeric =>
      if Qlt_bool 0%Q price_numeric then Some (HintFound (record price_numeric))
      else None
  end.

(** The loop over the dedicated fields of [order_info]. *)
Definition hint_of_field (order_info : list (string * string))
  (field : string) : option hint_outcome :=
  match PyDict.get field order_info with
  | Some shipping_value =>
      if truthy shipping_value
         && negb (is_empty (strip (chars shipping_value)))
         && negb (String.eqb (text (strip (chars shipping_value))) "0")
      then
        hint_if_positive shipping_value
          (fun price_numeric =>
             {| si_source := Some ("order_info." ++ field)%string;
                si_found_keyword := None;
                si_raw_text := Some shipping_value;
                si_price_raw := Some shipping_value;
                si_price_numeric := Some price_numeric;
                si_ai_item := None |})
      else None
  | None => None
  end.

(** The loop over the values of [order_info] and, inside, the keywords. *)
Definition hint_of_value (entry : string * string) : option hint_outcome :=
  let (key, value) := entry in
  let value_str := lower (chars value) in
  first_outcome
    (fun keyword =>
       if is_substring (chars keyword) value_str then
         hint_if_positive value
           (fun price_numeric =>
              {| si_source := Some ("order_info." ++ key)%string;
                 si_found_keyword := Some keyword;
                 si_raw_text := Some value;
                 si_price_raw := Some value;
                 si_price_numeric := Some price_numeric;
                 si_ai_item := None |})
       else None)
    hint_keywords.

(** An item of the list handed to the search, with the field
    [extended_price] that only this function reads. *)
Record hint_item := {
  hi_item : ai_item;
  extended_price : option string
}.

Definition option_string_eqb (a b : option string) : bool :=
  match a, b with
  | Some x, Some y => String.eqb x y
  | None, None => true
  | _, _ => false
  end.

(** Equality of two items as dictionaries. *)
Definition hint_item_eqb (a b : hint_item) : bool :=
  option_string_eqb (product_code (hi_item a)) (product_code (hi_item b))
  && option_string_eqb (description (hi_item a)) (description (hi_item b))
  && option_string_eqb (item_description (hi_item a))
       (item_description (hi_item b))
  && option_string_eqb (name (hi_item a)) (name (hi_item b))
  && option_string_eqb (partname (hi_item a)) (partname (hi_item b))
  && option_string_eqb (quantity (hi_item a)) (quantity (hi_item b))
  && option_string_eqb (item_total (hi_item a)) (item_total (hi_item b))
  && option_string_eqb (price (hi_item a)) (price (hi_item b))
  && option_string_eqb (total_price (hi_item a)) (total_price (hi_item b))
  && option_string_eqb (delivery_date (hi_item a)) (delivery_date (hi_item b))
  && option_string_eqb (extended_price a) (extended_price b).

(** [items.index(item)] for an item of the list. *)
Fixpoint index_of (item : hint_item) (items : list hint_item) : nat :=
  match items with
  | [] => 0
  | x :: r => if hint_item_eqb x item then 0 else S (index_of item r)
  end.

(** The loop over the items and, inside, the keywords. *)
Definition hint_of_item (items : list hint_item) (item : hint_item)
  : option hint_outcome :=
  let item_desc :=
    lower (chars (get_default (description (hi_item item)) EmptyString)) in
  let item_code :=
    lower (chars (get_default (product_code (hi_item item)) EmptyString)) in
  first_outcome
    (fun keyword =>
       if is_substring (chars keyword) item_desc
          || is_substring (chars keyword) item_code
       then
         let item_total :=
           str_or (get_default (item_total (hi_item item)) EmptyString)
             (get_default (extended_price item) EmptyString) in
         if truthy item_total then
           hint_if_positive item_total
             (fun price_numeric =>
                {| si_source :=
                     Some ("items[" ++ string_of_nat (index_of item items)
                           ++ "]")%string;
                   si_found_keyword := Some keyword;
                   si_raw_text :=
                     Some (text item_desc ++ " - " ++ item_total)%string;
                   si_price_raw := Some item_total;
                   si_price_numeric := Some price_numeric;
                   si_ai_item := None |})
         else None
       else None)
    hint_keywords.

(** The keys [priority_mapping] and [extraction_type] of the record are
    written and never read; they are left out of [shipping_info]. *)
Definition _extract_shipping_from_order_info
  (order_info : list (string * string)) (items : list hint_item)
  : hint_outcome :=
  match first_outcome (hint_of_field order_info) shipping_fields with
  | Some o => o
  | None =>
      match first_outcome hint_of_value order_info with
      | Some o => o
      | None =>
          match first_outcome (hint_of_item items) items with
          | Some o => o
          | None => HintNone
          end
      end
  end.

(** *** The preparation of the update in [ProcessOrder.post] *)

(** The list [valid_items]: the code and the delivery date of the items that
    have both. *)
Definition valid_items_of (items_data : list ai_item) : list ai_item :=
  flat_map
    (fun item =>
       let product_code := get_default (product_code item) EmptyString in
       let delivery_date := get_default (delivery_date item) EmptyString in
       if truthy product_code && truthy delivery_date then
         [ {| product_code := Some product_code; description := None;
              item_description := None; name := None; partname := None;
              quantity := None; item_total := None; price := None;
              total_price := None; delivery_date := Some delivery_date |} ]
       else [])
    items_data.

(** [order_info.get("total_price", "") or order_info.get("order_total", "")
    or ""]. *)
Definition extracted_total_price_of (order_info : list (string * string))
  : string :=
  str_or (get_default (PyDict.get "total_price" order_info) EmptyString)
    (str_or (get_default (PyDict.get "order_total" order_info) EmptyString)
       EmptyString).

End ClaudeOrderProcessor.

(* ================================================================== *)
(** * Vocabulary of the properties *)
(* ================================================================== *)

Import PriorityAPIClient.

(** ** The approval decision *)




(** ** The shipping decision table *)

(** Shipping is present on the authoritative side when some line carries the
    shipping prefix; its normalized total is the sum of the prices of these
    lines. *)
Definition authoritative_shipping_present (priority_items : list priority_item)
  : bool :=
  existsb is_shipping_item priority_items.

Definition authoritative_shipping_total (priority_items : list priority_item)
  : Q :=
  fold_right Qplus 0%Q (map VATPRICE (filter is_shipping_item priority_items)).




(** The four rows of the table. *)
Definition sample_line (code desc total : string) : ai_item :=
  {| product_code := Some code; description := Some desc;
     item_description := None; name := None; partname := None;
     quantity := Some "1 EA"; item_total := Some total;
     price := None; total_price := None; delivery_date := None |}.

Definition sample_priority_with_shipping : list priority_item :=
  [ {| PARTNAME := "G1312-60067"; TQUANT := 1; VATPRICE := 383.04 |};
    {| PARTNAME := "SH-AGILENT"; TQUANT := 1; VATPRICE := 129 |} ].

(** The same line ordered twice. *)
Definition sample_line_of_two (code desc total : string) : ai_item :=
  {| product_code := Some code; description := Some desc;
     item_description := None; name := None; partname := None;
     quantity := Some "2 EA"; item_total := Some total;
     price := None; total_price := None; delivery_date := None |}.

Definition sample_priority_without_shipping : list priority_item :=
  [ {| PARTNAME := "G1312-60067"; TQUANT := 1; VATPRICE := 383.04 |} ].

Definition sample_lines_with_shipping : list ai_item :=
  [ sample_line "G1312-60067" "Pump head" "USD 383,04";
    sample_line "FREIGHT" "Shipping & Handling" "USD 129,00" ].

Definition sample_lines_without_shipping : list ai_item :=
  [ sample_line "G1312-60067" "Pump head" "USD 383,04" ].

(** ** The item matcher *)

(** The product codes of each side, in the order of the lines. *)
Definition authoritative_codes (priority_items : list priority_item)
  : list string :=
  map PARTNAME priority_items.

Definition extracted_codes (ai_items : list ai_item) : list string :=
  map code_of ai_items.

(** An authoritative item has a counterpart when its code is the code of
    some extracted line. *)
Definition has_counterpart (ai_items : list ai_item) (p : priority_item)
  : Prop :=
  In (PARTNAME p) (extracted_codes ai_items).

(** The result recorded for one authoritative item against the dictionary
    of the extracted lines. *)
Definition detail_of (ai_by_product_code : list (string * ai_item))
  (p : priority_item) : item_result :=
  match PyDict.get (PARTNAME p) ai_by_product_code with
  | Some item => compare_item p item
  | None => missing_item p
  end.

(** Both match flags of a recorded result. *)
Definition flags_true (d : item_result) : Prop :=
  ir_quantity_match d = true /\ ir_price_match d = true.

(** Fixtures: equal lengths with different content, and duplicate lines. *)
Definition sample_priority_two : list priority_item :=
  [ {| PARTNAME := "G1312-60067"; TQUANT := 1; VATPRICE := 383.04 |};
    {| PARTNAME := "5067-4728"; TQUANT := 2; VATPRICE := 31.14 |} ].

Definition sample_lines_other_code : list ai_item :=
  [ sample_line "G1312-60067" "Pump head" "USD 383,04";
    sample_line "5190-1501" "Vial" "USD 31,14" ].

Definition sample_lines_duplicate : list ai_item :=
  [ sample_line "G1312-60067" "Pump head" "USD 383,04";
    sample_line "G1312-60067" "Pump head" "USD 383,04" ].

(** ** The order validator *)

(** An extracted item is incomplete when it has a product code but its
    total is missing or empty. *)
Definition incomplete_item (item : ai_item) : Prop :=
  truthy (get_default (product_code item) EmptyString) = true
  /\ truthy (get_default (item_total item) EmptyString) = false.

Definition has_incomplete_item (a : OrderValidator.agilent_data) : Prop :=
  exists item,
    In item (get_default (OrderValidator.items a) []) /\ incomplete_item item.

(** The three lists that separate [SAME] from [MISMATCH]. *)
Definition nothing_differs {L : OrderValidator.decimal_library}
  (r : OrderValidator.order_results L) : Prop :=
  OrderValidator.mismatches r = []
  /\ OrderValidator.missing_in_priority r = []
  /\ OrderValidator.missing_in_agilent r = [].

(** ** The separator rule *)

Import PyStr.

(** What a separator of an amount stands for.  A decimal separator is read
    as the decimal point, a thousands separator is dropped. *)
Inductive separator_role := decimal_separator | thousands_separator.

(** The text of the amount once the comma and the period have a role. *)
Definition treat (roles : separator_role * separator_role) (s : list ascii)
  : list ascii :=
  let (comma, period) := roles in
  let s :=
    match period with
    | decimal_separator => s
    | thousands_separator => remove_char "." s
    end in
  match comma with
  | decimal_separator => replace_char "," "." s
  | thousands_separator => remove_char "," s
  end.

(** The number of occurrences of a separator, and the characters before and
    after its first occurrence. *)
Definition count_char (c : ascii) (s : list ascii) : nat :=
  List.length (filter (Ascii.eqb c) s).

Fixpoint before_first (c : ascii) (s : list ascii) : list ascii :=
  match s with
  | [] => []
  | x :: r => if Ascii.eqb x c then [] else x :: before_first c r
  end.

Fixpoint after_first (c : ascii) (s : list ascii) : list ascii :=
  match s with
  | [] => []
  | x :: r => if Ascii.eqb x c then r else after_first c r
  end.

(** The separator at the rightmost position. *)
Definition is_separator (c : ascii) : bool :=
  Ascii.eqb c "," || Ascii.eqb c ".".

Definition rightmost_separator (s : list ascii) : option ascii :=
  last (map Some (filter is_separator s)) None.

Definition comma_is_rightmost (s : list ascii) : bool :=
  match rightmost_separator s with
  | Some c => Ascii.eqb c ","
  | None => false
  end.

(** There is exactly one [c], and at most two digits follow it. *)
Definition one_followed_by_at_most_two (c : ascii) (s : list ascii) : bool :=
  (count_char c s =? 1)%nat && (List.length (after_first c s) <=? 2)%nat.

(** There is exactly one [c], exactly three digits follow it and more than
    three precede it. *)
Definition one_between_long_head_and_three (c : ascii) (s : list ascii)
  : bool :=
  (count_char c s =? 1)%nat && (List.length (after_first c s) =? 3)%nat
  && negb (List.length (before_first c s) <=? 3)%nat.

Definition role_if (b : bool) : separator_role :=
  if b then decimal_separator else thousands_separator.

(** The rule as the specification states it: with both separators, the
    rightmost one is the decimal separator and the other one separates
    thousands; a separator that occurs alone is the decimal separator
    exactly when it occurs once and at most two digits follow. *)
Definition stated_roles (s : list ascii) : separator_role * separator_role :=
  if contains "," s && contains "." s then
    if comma_is_rightmost s
    then (decimal_separator, thousands_separator)
    else (thousands_separator, decimal_separator)
  else if contains "," s then
    (role_if (one_followed_by_at_most_two "," s), decimal_separator)
  else
    (decimal_separator, role_if (one_followed_by_at_most_two "." s)).

(** The rule of [PriorityAPIClient._extract_numeric_price]: as stated,
    except that a comma that occurs without a period is always the decimal
    separator. *)
Definition priority_api_roles (s : list ascii)
  : separator_role * separator_role :=
  if contains "," s && contains "." s then
    if comma_is_rightmost s
    then (decimal_separator, thousands_separator)
    else (thousands_separator, decimal_separator)
  else if contains "," s then
    (decimal_separator, decimal_separator)
  else
    (decimal_separator, role_if (one_followed_by_at_most_two "." s)).

(** The rule of [ResponseHandler._extract_numeric_price]: as stated, except
    that a single comma followed by exactly three digits and preceded by
    more than three is the decimal separator too. *)
Definition response_handler_roles (s : list ascii)
  : separator_role * separator_role :=
  if contains "," s && contains "." s then
    if comma_is_rightmost s
    then (decimal_separator, thousands_separator)
    else (thousands_separator, decimal_separator)
  else if contains "," s then
    (role_if (one_followed_by_at_most_two "," s
              || one_between_long_head_and_three "," s),
     decimal_separator)
  else
    (decimal_separator, role_if (one_followed_by_at_most_two "." s)).

(** The rule of [OrderValidator.clean_number]: a comma is always the decimal
    separator; the period separates thousands when a comma occurs and is the
    decimal point otherwise. *)
Definition clean_number_roles (s : list ascii)
  : separator_role * separator_role :=
  if contains "," s
  then (decimal_separator, thousands_separator)
  else (decimal_separator, decimal_separator).

(** The amount that a rule gives to a raw string: currency markers and
    blanks are stripped, a string without numeric content is zero. *)
Definition normalize_with
  (roles : list ascii -> separator_role * separator_role) (raw : string) : Q :=
  if negb (truthy raw) then 0%Q
  else
    let cleaned := keep_numeric (chars raw) in
    if is_empty cleaned then 0%Q
    else to_amount (treat (roles cleaned) cleaned).

(** [normalize_amount] as the specification states it. *)
Definition normalize_amount_stated (raw : string) : Q :=
  normalize_with stated_roles raw.

(** ** The calendar *)

Import PyDate.

(** The month and the day of [_ord2ymd], from the day [n] of the year
    (counted from zero) and the leap year flag. *)
Definition month_day (n : Z) (leapyear : bool) : Z * Z :=
  let month := Z.shiftr (n + 50) 5 in
  let preceding :=
    (nth (Z.to_nat month) _DAYS_BEFORE_MONTH 0
     + (if (month >? 2) && leapyear then 1 else 0))%Z in
  if (preceding >? n)%Z then
    let month := (month - 1)%Z in
    let preceding :=
      (preceding
       - (nth (Z.to_nat month) _DAYS_IN_MONTH 0
          + (if (month =? 2) && leapyear then 1 else 0)))%Z in
    (month, (n - preceding + 1)%Z)
  else (month, (n - preceding + 1)%Z).

(** The month is in the year and the day falls back on [n]. *)
Definition month_day_ok (leapyear : bool) (n : Z) : bool :=
  let (m, d) := month_day n leapyear in
  (1 <=? m)%Z && (m <=? 12)%Z && (1 <=? d)%Z
  && (nth (Z.to_nat m) _DAYS_BEFORE_MONTH 0
      + (if (m >? 2) && leapyear then 1 else 0) + d =? n + 1)%Z.

(** A check on [count] consecutive numbers from [start]. *)
Fixpoint all_from (check : Z -> bool) (start : Z) (count : nat) : bool :=
  match count with
  | O => true
  | S k => if check start then all_from check (start + 1)%Z k else false
  end.

(** The days of the week of [weekday]. *)
Definition Thursday : Z := 3%Z.
Definition Friday : Z := 4%Z.
Definition Saturday : Z := 5%Z.

(** The Monday that starts the week of a date, as an ordinal. *)
Definition week_start (d : date) : Z := (toordinal d - weekday d)%Z.

(** The subtraction of six days stays in the calendar. *)
Definition six_days_before_exist (d : date) : Prop := (7 <= toordinal d)%Z.

(** Evaluation of the month tables and of the tests at a known month. *)
Ltac eval_month_tables :=
  repeat match goal with
    | H : context [nth (Z.to_nat ?m) ?l 0%Z] |- _ =>
        let v := eval vm_compute in (nth (Z.to_nat m) l 0%Z) in
        change (nth (Z.to_nat m) l 0%Z) with v in *
    | |- context [nth (Z.to_nat ?m) ?l 0%Z] =>
        let v := eval vm_compute in (nth (Z.to_nat m) l 0%Z) in
        change (nth (Z.to_nat m) l 0%Z) with v in *
    | H : context [(?a =? 2)%Z] |- _ =>
        let v := eval vm_compute in (a =? 2)%Z in
        change (a =? 2)%Z with v in *
    | |- context [(?a >? 2)%Z] =>
        let v := eval vm_compute in (a >? 2)%Z in
        change (a >? 2)%Z with v in *
    end;
  cbn [andb] in *.


(** ** Fixtures of the order validator *)

(** The decimal objects of the fixtures: a number, or the quiet NaN. *)
Inductive plain_dec :=
| Number (q : Q)
| NaN.

(** [Decimal] on plain numerals (an optional sign, digits, at most one
    period) and on the text [NaN], which [Decimal] accepts. *)
Definition plain_Decimal (s : list ascii) : option plain_dec :=
  if (text s =? "NaN")%string then Some NaN
  else
    match s with
    | "-"%char :: r => option_map (fun q => Number (Qopp q)) (float r)
    | "+"%char :: r => option_map Number (float r)
    | _ => option_map Number (float s)
    end.

(** [abs(a - b) > Decimal('0.01')]: the difference with a NaN is a NaN, and
    an order comparison with a NaN raises [InvalidOperation]. *)
Definition plain_differs (a b : plain_dec) : option bool :=
  match a, b with
  | Number x, Number y => Some (Qlt_bool 0.01%Q (Qabs (x - y)%Q))
  | _, _ => None
  end.

Definition plain_decimal : OrderValidator.decimal_library :=
  {| OrderValidator.dec := plain_dec;
     OrderValidator.Decimal := plain_Decimal;
     OrderValidator.Decimal_of_number := Number;
     OrderValidator.differs_by_more_than_a_cent := plain_differs |}.

(** The comparison of a decimal library never raises. *)
Definition comparison_never_raises (L : OrderValidator.decimal_library)
  : Prop :=
  forall a b : OrderValidator.dec L,
    OrderValidator.differs_by_more_than_a_cent L a b <> None.

Definition sample_agilent (lines : list ai_item) : OrderValidator.agilent_data :=
  {| OrderValidator.items := Some lines |}.

Definition sample_priority (lines : list priority_item)
  : OrderValidator.priority_data :=
  {| OrderValidator.PORDERITEMS_SUBFORM := lines |}.

(** A line with a product code and an empty total. *)
Definition sample_line_without_total : ai_item :=
  {| product_code := Some "5067-4728"; description := Some "Seal";
     item_description := None; name := None; partname := None;
     quantity := Some "3 EA"; item_total := Some EmptyString;
     price := None; total_price := None; delivery_date := None |}.

(** ** Fixtures of a whole validation *)

(** The shipping charge found by the caller in the order level fields. *)
Definition sample_hint : shipping_info :=
  {| si_source := Some "order_info.shipping_cost";
     si_found_keyword := None;
     si_raw_text := Some "USD 129.00";
     si_price_raw := Some "USD 129.00";
     si_price_numeric := Some 129;
     si_ai_item := None |}.

(** Total and items agree; the authoritative order carries a shipping line
    that the extraction confirms (with the hint) or not (without it). *)
Definition sample_run (hint : option shipping_info) : option price_validation :=
  order_validation 512.04 sample_priority_with_shipping (Some "USD 512,04")
    sample_lines_without_shipping hint.


(** ** Vocabulary of the comparisons on doubles *)







(** An authoritative line and an extracted line of one part. *)
Definition sample_priority_line (vatprice : Q) : priority_item :=
  {| PARTNAME := "G1312-60067"; TQUANT := 1; VATPRICE := vatprice |}.

Definition sample_shipping_line (vatprice : Q) : priority_item :=
  {| PARTNAME := "SH-FREIGHT"; TQUANT := 1; VATPRICE := vatprice |}.

(* ================================================================== *)
(** * Vocabulary of the further properties *)
(* ================================================================== *)

From Stdlib Require Import Lqa DecimalNat.

Import OrderUpdate ClaudeOrderProcessor.

(** A string has no digit. *)
Definition no_digit (s : string) : Prop :=
  existsb isdigit (chars s) = false.

(** The number of criteria of the approval that fail. *)
Definition failing_criteria (pv : price_validation) : nat :=
  (if criterion_price_match pv then 0 else 1)
  + (if criterion_all_items_valid pv then 0 else 1)
  + (if criterion_item_count_match pv then 0 else 1)
  + (if criterion_no_missing_items pv then 0 else 1)
  + (if criterion_shipping_valid pv then 0 else 1).

(** The last line of a list of extracted lines that is filed under a code. *)
Definition last_line_with (code : string) (items : list ai_item)
  : option ai_item :=
  find (fun item => String.eqb (code_of item) code) (rev items).

(** Fixtures. *)
Definition sample_credit_line : priority_item :=
  {| PARTNAME := "CREDIT-01"; TQUANT := 1; VATPRICE := -25 |}.

Definition sample_order : priority_order :=
  {| TOTPRICE := 512.04;
     SUPORDNUM := Some "4501234567";
     SUPNAME := Some "SUP-0042";
     order_lines :=
       [ {| line_item :=
              {| PARTNAME := "G1312-60067"; TQUANT := 1; VATPRICE := 383.04 |};
            KLINE := Some 1%Z |};
         {| line_item :=
              {| PARTNAME := "SH-AGILENT"; TQUANT := 1; VATPRICE := 129 |};
            KLINE := Some 2%Z |} ] |}.

Definition sample_extracted_items : list ai_item :=
  [ {| product_code := Some "G1312-60067"; description := Some "Pump head";
       item_description := None; name := None; partname := None;
       quantity := Some "1 EA"; item_total := Some "USD 383,04";
       price := None; total_price := None;
       delivery_date := Some "10.01.2025" |};
    {| product_code := Some "5190-1501"; description := Some "Vial";
       item_description := None; name := None; partname := None;
       quantity := Some "2 EA"; item_total := Some "USD 31,14";
       price := None; total_price := None;
       delivery_date := None |} ].

Definition always_ok (i : nat) : http_answer := Response 204 EmptyString.

Definition sample_update : update_outcome :=
  update_order_items "https://erp" "PO2410000285" sample_extracted_items
    "1 Main Street" (Some "USD 512,04") (Some sample_hint) None
    (Fetched [sample_order]) always_ok (Response 204 EmptyString).

(** The lines of a fetched order that are kept for the item matcher and for
    the updates: those whose part name does not start with SH. *)
Definition merchandise_lines (order : priority_order) : list priority_line :=
  filter (fun line => negb (line_is_shipping line)) (order_lines order).

(** The statuses of a line result that are recorded after a request was
    sent for the line, and the number of results whose status is of a
    kind. *)
Definition request_was_sent (st : update_status) : bool :=
  match st with
  | success | failed | network_error => true
  | date_error | skipped | not_found => false
  end.

Definition is_success (st : update_status) : bool :=
  match st with success => true | _ => false end.

Definition count_status (kind : update_status -> bool)
  (results : list update_result) : nat :=
  List.length (filter (fun r => kind (ur_status r)) results).

(** The date sent for an extracted item: the calculated date, converted. *)
Definition date_sent_for (item : ai_item) (delivery_address : string)
  : option string :=
  convert_date_format
    (returned (calculate_priority_date (date_of item) delivery_address)).

(** The day that [month_day] gives fits in its month. *)
Definition month_day_fits (leapyear : bool) (n : Z) : bool :=
  let (m, d) := month_day n leapyear in
  (d <=? (if (m =? 2)%Z && leapyear then 29
          else nth (Z.to_nat m) _DAYS_IN_MONTH 0))%Z.

(** A field of a date that is formatted and read back is unchanged. *)
Definition reads_back (width : nat) (read : list ascii -> option Z) (n : Z)
  : bool :=
  match read (pad_digits width n []) with
  | Some v => (v =? n)%Z
  | None => false
  end.

Definition sample_line_request : line_request :=
  {| lr_url := line_url "https://erp" "PO2410000285" 1;
     lr_kline_id := 1%Z;
     lr_REQDATE := "2025-01-03T00:00:00+03:00" |}.

(** The items that the request handler hands to the search for an order
    level shipping amount: the code and the delivery date of the items that
    have both. *)
Definition lines_for_hint (items_data : list ai_item) : list hint_item :=
  map (fun item => {| hi_item := item; extended_price := None |})
    (valid_items_of items_data).

(** A string of decimal digits, and a string without any character that a
    price extractor keeps (digit, period, comma). *)
Definition all_digits (s : string) : Prop := forallb isdigit (chars s) = true.

Definition no_amount_char (s : string) : Prop := keep_numeric (chars s) = [].

(* ================================================================== *)
(** * Properties *)
(* ================================================================== *)

(** ** Comparisons of amounts *)

Lemma Qlt_bool_iff (a b : Q) : Qlt_bool a b = true <-> (a < b)%Q.
Proof.
  unfold Qlt_bool. rewrite negb_true_iff.
  split.
  - intro H. apply Qnot_le_lt. intro Hle.
    apply Qle_bool_iff in Hle. congruence.
  - intro H. destruct (Qle_bool b a) eqn:E; [|reflexivity].
    apply Qle_bool_iff in E. exfalso. exact (Qlt_not_le _ _ H E).
Qed.

Lemma Qlt_bool_false_iff (a b : Q) : Qlt_bool a b = false <-> (b <= a)%Q.
Proof.
  unfold Qlt_bool. rewrite negb_false_iff. apply Qle_bool_iff.
Qed.

Lemma Qle_bool_false_iff (a b : Q) : Qle_bool a b = false <-> (b < a)%Q.
Proof.
  rewrite <- Qlt_bool_iff. unfold Qlt_bool.
  destruct (Qle_bool a b); simpl; intuition congruence.
Qed.

(** ** The approval decision *)










(** The aggregation on a whole validation: with the total and all items
    matching, an unconfirmed shipping charge sends the order back with a
    reason that names the shipping; once the charge is confirmed the order
    is approved. *)
Lemma approval_aggregation_examples :
  option_map
    (fun pv =>
       (map req_STATDES
          (so_requests (update_final_status "https://erp" "PO2410000285" pv
                          (Response 204 EmptyString))),
        option_map fsu_reason
          (final_status_update
             (so_price_validation
                (update_final_status "https://erp" "PO2410000285" pv
                   (Response 204 EmptyString))))))
    (sample_run None)
  = Some ([STATDES_of SentToSupplier],
          Some "Validation failed: shipping validation failed")
  /\ option_map
       (fun pv =>
          map req_STATDES
            (so_requests (update_final_status "https://erp" "PO2410000285" pv
                            (Response 204 EmptyString))))
       (sample_run (Some sample_hint))
     = Some [STATDES_of SupplierApproval].
Proof. split; vm_compute; reflexivity. Qed.

(** The exit of [update_final_status] without a decision. *)
Lemma update_final_status_not_attempted (base_url customer_po : string)
  (pv : price_validation) (answer : http_answer) :
  get_default (validation_attempted pv) false = false ->
  update_final_status base_url customer_po pv answer
  = {| so_returned := true; so_price_validation := pv; so_requests := [] |}.
Proof.
  intro H. unfold update_final_status. rewrite H. reflexivity.
Qed.

(** Without an extracted total, [get_order_data] attempts no comparison, and
    the validation that [update_order_items] builds from it keeps that. *)
Lemma no_extracted_total_not_attempted (priority_totprice : Q)
  (original_items : list priority_item) (validation_items : list ai_item)
  (hint : option shipping_info) (pv : price_validation) :
  order_validation priority_totprice original_items None validation_items hint
  = Some pv ->
  get_default (validation_attempted pv) false = false.
Proof.
  unfold order_validation.
  destruct (PyStr.is_empty _); [discriminate|].
  intros [= <-]. reflexivity.
Qed.

(** C7.  When no total price comparison was attempted, [update_final_status]
    makes no transition: it sends no request to the order system, so the
    status held there is untouched and neither terminal status is written;
    the validation dictionary is left as it was and the call reports
    success. *)
Theorem C7_no_comparison_leaves_status_untouched
  (base_url customer_po : string) (pv : price_validation)
  (answer : http_answer) :
  get_default (validation_attempted pv) false = false ->
  so_requests (update_final_status base_url customer_po pv answer) = []
  /\ so_price_validation (update_final_status base_url customer_po pv answer)
     = pv
  /\ so_returned (update_final_status base_url customer_po pv answer) = true
  /\ (forall st : order_status,
        ~ In (STATDES_of st)
             (map req_STATDES
                (so_requests
                   (update_final_status base_url customer_po pv answer)))).
Proof.
  intro H. rewrite (update_final_status_not_attempted _ _ _ _ H). simpl.
  repeat split; auto.
Qed.

Lemma C7_no_comparison_witness :
  get_default
    (validation_attempted (total_price_validation 383.04 None)) false = false
  /\ so_requests
       (update_final_status "https://erp" "PO2410000285"
          (total_price_validation 383.04 None) (Response 200 "ok")) = []
  /\ so_price_validation
       (update_final_status "https://erp" "PO2410000285"
          (total_price_validation 383.04 None) (Response 200 "ok"))
     = total_price_validation 383.04 None
  /\ so_returned
       (update_final_status "https://erp" "PO2410000285"
          (total_price_validation 383.04 None) (Response 200 "ok")) = true
  /\ (forall st : order_status,
        ~ In (STATDES_of st)
             (map req_STATDES
                (so_requests
                   (update_final_status "https://erp" "PO2410000285"
                      (total_price_validation 383.04 None)
                      (Response 200 "ok"))))).
Proof.
  split; [reflexivity|].
  apply (C7_no_comparison_leaves_status_untouched "https://erp" "PO2410000285"
           (total_price_validation 383.04 None) (Response 200 "ok")).
  reflexivity.
Defined.

(** A run of the engine without an extracted total never writes a status. *)
Lemma run_without_total_sends_nothing (base_url customer_po : string)
  (priority_totprice : Q) (original_items : list priority_item)
  (validation_items : list ai_item) (hint : option shipping_info)
  (pv : price_validation) (answer : http_answer) :
  order_validation priority_totprice original_items None validation_items hint
  = Some pv ->
  update_final_status base_url customer_po pv answer
  = {| so_returned := true; so_price_validation := pv; so_requests := [] |}.
Proof.
  intro H. apply update_final_status_not_attempted.
  exact (no_extracted_total_not_attempted _ _ _ _ _ H).
Qed.


(** ** The shipping reconciler *)

Lemma collect_items_from (items : list priority_item)
  (acc : list (string * Q) * Q) :
  fst (fold_left add_shipping_item items acc)
  = fst acc
    ++ map (fun item => (PARTNAME item, VATPRICE item))
         (filter is_shipping_item items).
Proof.
  revert acc. induction items as [|item items IH]; intro acc; simpl.
  - now rewrite app_nil_r.
  - rewrite IH. unfold add_shipping_item.
    destruct (is_shipping_item item); simpl; [|reflexivity].
    now rewrite <- app_assoc.
Qed.

Lemma collect_total_from (items : list priority_item)
  (acc : list (string * Q) * Q) :
  (snd (fold_left add_shipping_item items acc)
   == snd acc + authoritative_shipping_total items)%Q.
Proof.
  revert acc. unfold authoritative_shipping_total.
  induction items as [|item items IH]; intro acc; simpl.
  - ring.
  - rewrite IH. unfold add_shipping_item.
    destruct (is_shipping_item item); simpl; ring.
Qed.

Lemma collect_priority_shipping_items (items : list priority_item) :
  fst (collect_priority_shipping items)
  = map (fun item => (PARTNAME item, VATPRICE item))
      (filter is_shipping_item items).
Proof. unfold collect_priority_shipping. apply collect_items_from. Qed.

Lemma collect_priority_shipping_total (items : list priority_item) :
  (snd (collect_priority_shipping items)
   == authoritative_shipping_total items)%Q.
Proof.
  unfold collect_priority_shipping.
  rewrite (collect_total_from items ([], 0%Q)). simpl. ring.
Qed.

Lemma has_priority_shipping_iff (items : list priority_item) :
  (0 <? List.length (fst (collect_priority_shipping items)))%nat
  = authoritative_shipping_present items.
Proof.
  rewrite collect_priority_shipping_items.
  unfold authoritative_shipping_present.
  induction items as [|item items IH]; simpl; [reflexivity|].
  destruct (is_shipping_item item); simpl; [reflexivity|exact IH].
Qed.



(** One fixture for each row of the table. *)
Lemma shipping_four_rows :
  (let sv := validate_shipping_charges sample_priority_with_shipping
               sample_lines_with_shipping None in
   sv_validation_case sv = both_exist_compare_prices
   /\ shipping_validation_passed sv = true)
  /\ (let sv := validate_shipping_charges sample_priority_with_shipping
                  sample_lines_without_shipping None in
      sv_validation_case sv = priority_has_ai_missing
      /\ shipping_validation_passed sv = false)
  /\ (let sv := validate_shipping_charges sample_priority_without_shipping
                  sample_lines_with_shipping None in
      sv_validation_case sv = ai_has_priority_missing
      /\ shipping_validation_passed sv = false)
  /\ (let sv := validate_shipping_charges sample_priority_without_shipping
                  sample_lines_without_shipping None in
      sv_validation_case sv = neither_has_shipping
      /\ shipping_validation_passed sv = true).
Proof. vm_compute. repeat split. Qed.

(** ** Dictionaries of items *)

Lemma dict_get_set {V : Type} (k k' : string) (v : V)
  (d : list (string * V)) :
  PyDict.get k (PyDict.set k' v d)
  = if String.eqb k' k then Some v else PyDict.get k d.
Proof.
  induction d as [|[k0 v0] d IH]; simpl.
  - reflexivity.
  - destruct (String.eqb k0 k') eqn:E0; simpl.
    + apply String.eqb_eq in E0. subst k0.
      destruct (String.eqb k' k); reflexivity.
    + rewrite IH. destruct (String.eqb k0 k) eqn:E1; [|reflexivity].
      apply String.eqb_eq in E1. subst k0. now rewrite String.eqb_sym, E0.
Qed.

Lemma dict_has_fold {A : Type} (key : A -> string) (k : string)
  (items : list A) (d : list (string * A)) :
  PyDict.has k (fold_left (fun d item => PyDict.set (key item) item d) items d)
  = PyDict.has k d || existsb (fun item => String.eqb (key item) k) items.
Proof.
  revert d. induction items as [|item items IH]; intro d; simpl.
  - now rewrite orb_false_r.
  - rewrite IH. unfold PyDict.has at 1. rewrite dict_get_set.
    fold (PyDict.has k d).
    destruct (String.eqb (key item) k); simpl.
    + now rewrite orb_true_r.
    + reflexivity.
Qed.

Lemma dict_has_of_items {A : Type} (key : A -> string) (k : string)
  (items : list A) :
  PyDict.has k (PyDict.of_items key items) = true <-> In k (map key items).
Proof.
  unfold PyDict.of_items. rewrite dict_has_fold. simpl.
  rewrite existsb_exists, in_map_iff.
  split; intros [item [H1 H2]]; exists item.
  - apply String.eqb_eq in H2. auto.
  - split; [exact H2|]. now apply String.eqb_eq.
Qed.

Lemma dict_has_get {V : Type} (k : string) (d : list (string * V)) :
  PyDict.has k d = true <-> exists v, PyDict.get k d = Some v.
Proof.
  unfold PyDict.has. destruct (PyDict.get k d) as [v|]; split.
  - eauto.
  - reflexivity.
  - discriminate.
  - intros [v H]. discriminate.
Qed.

(** ** The item matcher *)

Section ItemLoops.

Variable ai_by_product_code : list (string * ai_item).
Variable priority_by_partname : list (string * priority_item).

(** What one turn of the first loop does to each field of the result. *)
Lemma check_priority_item_fields (vr : validation_results) (p : priority_item) :
  let vr' := check_priority_item ai_by_product_code vr p in
  item_details vr' = item_details vr ++ [detail_of ai_by_product_code p]
  /\ missing_in_ai (vr_mismatches vr')
     = missing_in_ai (vr_mismatches vr)
       ++ (if PyDict.has (PARTNAME p) ai_by_product_code
           then [] else [PARTNAME p])
  /\ missing_in_priority (vr_mismatches vr')
     = missing_in_priority (vr_mismatches vr)
  /\ all_items_valid vr'
     = all_items_valid vr
       && (ir_quantity_match (detail_of ai_by_product_code p)
           && ir_price_match (detail_of ai_by_product_code p))
  /\ item_count_match vr' = item_count_match vr.
Proof.
  unfold check_priority_item, detail_of, PyDict.has.
  destruct (PyDict.get (PARTNAME p) ai_by_product_code) as [item|].
  - set (r := compare_item p item).
    assert (Hpass : ir_validation_passed r
                    = ir_quantity_match r && ir_price_match r)
      by reflexivity.
    rewrite Hpass.
    destruct (ir_quantity_match r), (ir_price_match r); simpl;
      rewrite ?app_nil_r, ?andb_true_r, ?andb_false_r; auto.
  - simpl. rewrite andb_false_r. auto.
Qed.

Lemma first_loop_fields (ps : list priority_item) (vr : validation_results) :
  let vr' := fold_left (check_priority_item ai_by_product_code) ps vr in
  item_details vr' = item_details vr ++ map (detail_of ai_by_product_code) ps
  /\ missing_in_ai (vr_mismatches vr')
     = missing_in_ai (vr_mismatches vr)
       ++ filter (fun k => negb (PyDict.has k ai_by_product_code))
            (map PARTNAME ps)
  /\ missing_in_priority (vr_mismatches vr')
     = missing_in_priority (vr_mismatches vr)
  /\ all_items_valid vr'
     = all_items_valid vr
       && forallb (fun p =>
                     ir_quantity_match (detail_of ai_by_product_code p)
                     && ir_price_match (detail_of ai_by_product_code p)) ps
  /\ item_count_match vr' = item_count_match vr.
Proof.
  revert vr. induction ps as [|p ps IH]; intro vr; cbn [fold_left map filter forallb].
  - rewrite !app_nil_r, andb_true_r. auto.
  - destruct (IH (check_priority_item ai_by_product_code vr p))
      as (H1 & H2 & H3 & H4 & H5).
    destruct (check_priority_item_fields vr p) as (K1 & K2 & K3 & K4 & K5).
    cbv zeta. rewrite H1, H2, H3, H4, H5, K1, K2, K3, K4, K5.
    rewrite <- !app_assoc.
    destruct (PyDict.has (PARTNAME p) ai_by_product_code); simpl;
      rewrite <- ?andb_assoc; auto.
Qed.

Lemma check_ai_item_fields (vr : validation_results) (item : ai_item) :
  let vr' := check_ai_item priority_by_partname vr item in
  item_details vr' = item_details vr
  /\ missing_in_ai (vr_mismatches vr') = missing_in_ai (vr_mismatches vr)
  /\ missing_in_priority (vr_mismatches vr')
     = missing_in_priority (vr_mismatches vr)
       ++ (if PyDict.has (code_of item) priority_by_partname
           then [] else [code_of item])
  /\ all_items_valid vr'
     = all_items_valid vr && PyDict.has (code_of item) priority_by_partname
  /\ item_count_match vr' = item_count_match vr.
Proof.
  unfold check_ai_item.
  destruct (PyDict.has (code_of item) priority_by_partname); simpl.
  - rewrite app_nil_r, andb_true_r. auto.
  - rewrite andb_false_r. auto.
Qed.

Lemma second_loop_fields (items : list ai_item) (vr : validation_results) :
  let vr' := fold_left (check_ai_item priority_by_partname) items vr in
  item_details vr' = item_details vr
  /\ missing_in_ai (vr_mismatches vr') = missing_in_ai (vr_mismatches vr)
  /\ missing_in_priority (vr_mismatches vr')
     = missing_in_priority (vr_mismatches vr)
       ++ filter (fun k => negb (PyDict.has k priority_by_partname))
            (map code_of items)
  /\ all_items_valid vr'
     = all_items_valid vr
       && forallb (fun item =>
                     PyDict.has (code_of item) priority_by_partname) items
  /\ item_count_match vr' = item_count_match vr.
Proof.
  revert vr. induction items as [|item items IH]; intro vr;
    cbn [fold_left map filter forallb].
  - rewrite !app_nil_r, andb_true_r. auto.
  - destruct (IH (check_ai_item priority_by_partname vr item))
      as (H1 & H2 & H3 & H4 & H5).
    destruct (check_ai_item_fields vr item) as (K1 & K2 & K3 & K4 & K5).
    cbv zeta. rewrite H1, H2, H3, H4, H5, K1, K2, K3, K4, K5.
    rewrite <- !app_assoc.
    destruct (PyDict.has (code_of item) priority_by_partname); simpl;
      rewrite <- ?andb_assoc; auto.
Qed.

End ItemLoops.

(** The result of the matcher, field by field. *)
Lemma validate_items_detail_fields (ps : list priority_item)
  (items : list ai_item) :
  let r := validate_items_detail ps items in
  let ai_dict := PyDict.of_items code_of items in
  let p_dict := PyDict.of_items PARTNAME ps in
  item_details r = map (detail_of ai_dict) ps
  /\ missing_in_ai (vr_mismatches r)
     = filter (fun k => negb (PyDict.has k ai_dict)) (map PARTNAME ps)
  /\ missing_in_priority (vr_mismatches r)
     = filter (fun k => negb (PyDict.has k p_dict)) (map code_of items)
  /\ all_items_valid r
     = forallb (fun p => ir_quantity_match (detail_of ai_dict p)
                         && ir_price_match (detail_of ai_dict p)) ps
       && forallb (fun item => PyDict.has (code_of item) p_dict) items
  /\ item_count_match r = (List.length ps =? List.length items)%nat.
Proof.
  unfold validate_items_detail. cbv zeta.
  match goal with
  | |- context [fold_left (check_ai_item ?pd) items (fold_left (check_priority_item ?ad) ps ?vr0)] =>
      destruct (second_loop_fields pd items (fold_left (check_priority_item ad) ps vr0))
        as (H1 & H2 & H3 & H4 & H5);
      destruct (first_loop_fields ad ps vr0) as (K1 & K2 & K3 & K4 & K5)
  end.
  cbv zeta in *.
  rewrite H1, H2, H3, H4, H5, K1, K2, K3, K4, K5. simpl. auto.
Qed.

Lemma filter_empty_iff {A : Type} (f : A -> bool) (l : list A) :
  filter f l = [] <-> forall x, In x l -> f x = false.
Proof.
  induction l as [|a l IH]; simpl.
  - split; [intros _ x []|reflexivity].
  - destruct (f a) eqn:E; split.
    + discriminate.
    + intro H. specialize (H a (or_introl eq_refl)). congruence.
    + intros H x [<-|Hx]; [exact E|]. now apply IH.
    + intro H. apply IH. intros x Hx. apply H. now right.
Qed.

Lemma detail_flags_counterpart (ai_dict : list (string * ai_item))
  (p : priority_item) :
  ir_quantity_match (detail_of ai_dict p) = true ->
  PyDict.has (PARTNAME p) ai_dict = true.
Proof.
  unfold detail_of, PyDict.has.
  destruct (PyDict.get (PARTNAME p) ai_dict); [reflexivity|discriminate].
Qed.

(** C5.  The result of the item matcher: a product code that occurs on one
    side only is reported, in [missing_in_ai] when it is authoritative and
    in [missing_in_priority] (missing in the authoritative order) when it is
    extracted, and these lists hold nothing else; [all_items_valid] is true
    exactly when every authoritative item has a counterpart, every quantity
    and price match flag is true and both missing lists are empty;
    [item_count_match] is true exactly when the two sequences have the same
    length, whatever their codes. *)
Theorem C5_item_matcher_result (ps : list priority_item)
  (items : list ai_item) :
  let r := validate_items_detail ps items in
  (forall code,
      In code (missing_in_ai (vr_mismatches r))
      <-> In code (authoritative_codes ps)
          /\ ~ In code (extracted_codes items))
  /\ (forall code,
        In code (missing_in_priority (vr_mismatches r))
        <-> In code (extracted_codes items)
            /\ ~ In code (authoritative_codes ps))
  /\ (all_items_valid r = true
      <-> (forall p, In p ps -> has_counterpart items p)
          /\ (forall d, In d (item_details r) -> flags_true d)
          /\ missing_in_ai (vr_mismatches r) = []
          /\ missing_in_priority (vr_mismatches r) = [])
  /\ (item_count_match r = true <-> List.length ps = List.length items).
Proof.
  destruct (validate_items_detail_fields ps items) as (D & MA & MP & V & C).
  cbv zeta in *. rewrite D, MA, MP, V, C.
  unfold authoritative_codes, extracted_codes, has_counterpart, flags_true.
  split; [|split; [|split]].
  - intro code. rewrite filter_In, negb_true_iff.
    rewrite <- (dict_has_of_items code_of code items).
    destruct (PyDict.has code (PyDict.of_items code_of items));
      intuition congruence.
  - intro code. rewrite filter_In, negb_true_iff.
    rewrite <- (dict_has_of_items PARTNAME code ps).
    destruct (PyDict.has code (PyDict.of_items PARTNAME ps));
      intuition congruence.
  - rewrite andb_true_iff, !forallb_forall, !filter_empty_iff.
    split.
    + intros [HF HG]. repeat split.
      * intros p Hp. apply (dict_has_of_items code_of).
        apply detail_flags_counterpart.
        specialize (HF p Hp). now apply andb_true_iff in HF.
      * apply in_map_iff in H as [p [<- Hp]].
        specialize (HF p Hp). now apply andb_true_iff in HF.
      * apply in_map_iff in H as [p [<- Hp]].
        specialize (HF p Hp). now apply andb_true_iff in HF.
      * intros k Hk. apply in_map_iff in Hk as [p [<- Hp]].
        apply negb_false_iff, detail_flags_counterpart.
        specialize (HF p Hp). now apply andb_true_iff in HF.
      * intros k Hk. apply in_map_iff in Hk as [item [<- Hi]].
        apply negb_false_iff. now apply HG.
    + intros (_ & Hflags & _ & Hmp). split.
      * intros p Hp. apply andb_true_iff.
        apply (Hflags (detail_of (PyDict.of_items code_of items) p)).
        apply in_map. exact Hp.
      * intros item Hi. apply negb_false_iff. apply Hmp.
        apply in_map. exact Hi.
  - apply Nat.eqb_eq.
Qed.

(** The count check is independent of the content: equal lengths with a
    code on each side that the other lacks, and all compared items agreeing
    while a duplicate line makes the lengths differ. *)
Lemma item_count_independent_of_codes :
  (item_count_match
     (validate_items_detail sample_priority_two sample_lines_other_code)
   = true
   /\ all_items_valid
        (validate_items_detail sample_priority_two sample_lines_other_code)
      = false)
  /\ (item_count_match
        (validate_items_detail sample_priority_without_shipping
           sample_lines_duplicate) = false
      /\ all_items_valid
           (validate_items_detail sample_priority_without_shipping
              sample_lines_duplicate) = true).
Proof. vm_compute. repeat split. Qed.

(** ** The order validator *)

Lemma is_empty_true_iff {A : Type} (l : list A) :
  PyStr.is_empty l = true <-> l = [].
Proof. destruct l; simpl; split; congruence. Qed.

Lemma is_empty_false_iff {A : Type} (l : list A) :
  PyStr.is_empty l = false <-> l <> [].
Proof. destruct l; simpl; split; congruence. Qed.

Lemma incomplete_of_nonempty (items : list ai_item) :
  OrderValidator.incomplete_of items <> []
  <-> exists item, In item items /\ incomplete_item item.
Proof.
  unfold OrderValidator.incomplete_of, incomplete_item.
  induction items as [|item items IH]; simpl.
  - split; [congruence|intros [? [[] _]]].
  - destruct (truthy (get_default (product_code item) EmptyString)) eqn:E1,
      (truthy (get_default (item_total item) EmptyString)) eqn:E2; simpl.
    + rewrite IH. split.
      * intros [i [Hi Hc]]. exists i. auto.
      * intros [i [[<-|Hi] [Hc1 Hc2]]]; [congruence|]. exists i. auto.
    + split; [|discriminate]. intros _. exists item. auto.
    + rewrite IH. split.
      * intros [i [Hi Hc]]. exists i. auto.
      * intros [i [[<-|Hi] [Hc1 Hc2]]]; [congruence|]. exists i. auto.
    + rewrite IH. split.
      * intros [i [Hi Hc]]. exists i. auto.
      * intros [i [[<-|Hi] [Hc1 Hc2]]]; [congruence|]. exists i. auto.
Qed.

Lemma check_agilent_items_total (L : OrderValidator.decimal_library)
  (priority_items : list (string * priority_item))
  (entries : list (string * ai_item))
  (acc : list (OrderValidator.order_mismatch L) * list string) :
  comparison_never_raises L ->
  OrderValidator.check_agilent_items L priority_items entries acc <> None.
Proof.
  intros Hcmp. revert acc.
  induction entries as [|[code item] rest IH]; intros acc;
    cbn [OrderValidator.check_agilent_items]; [discriminate|].
  unfold OrderValidator.check_agilent_item.
  destruct (PyDict.get code priority_items) as [line|]; [|apply IH].
  destruct (quantity item); [|apply IH].
  destruct (item_total item) as [total|]; [|apply IH].
  destruct (negb _); [apply IH|].
  destruct (OrderValidator.differs_by_more_than_a_cent L _ _) as [[|]|] eqn:E;
    [apply IH|apply IH|].
  exfalso. exact (Hcmp _ _ E).
Qed.

Lemma validate_orders_returns (L : OrderValidator.decimal_library)
  (a : OrderValidator.agilent_data) (p : OrderValidator.priority_data) :
  comparison_never_raises L ->
  exists r, OrderValidator.validate_orders L a p = Some r.
Proof.
  intros Hcmp. unfold OrderValidator.validate_orders. cbv zeta.
  pose proof (check_agilent_items_total L
                (PyDict.of_items PARTNAME
                   (OrderValidator.PORDERITEMS_SUBFORM p))
                (PyDict.of_items code_of
                   (filter (fun item => is_some (product_code item))
                      (get_default (OrderValidator.items a) [])))
                ([], []) Hcmp) as Hloop.
  destruct (OrderValidator.check_agilent_items _ _ _ _) as [[mism missing_p]|];
    [eexists; reflexivity|congruence].
Qed.

(** The status that [validate_orders] computes from the four lists. *)
Lemma status_of_validate_orders (L : OrderValidator.decimal_library)
  (a : OrderValidator.agilent_data) (p : OrderValidator.priority_data)
  (r : OrderValidator.order_results L) :
  OrderValidator.validate_orders L a p = Some r ->
  OrderValidator.incomplete_items r
  = OrderValidator.incomplete_of (get_default (OrderValidator.items a) [])
  /\ OrderValidator.status r
     = if negb (PyStr.is_empty (OrderValidator.incomplete_items r))
       then OrderValidator.INCOMPLETE_DATA
       else if negb (negb (PyStr.is_empty (OrderValidator.mismatches r))
                     || negb (PyStr.is_empty
                                (OrderValidator.missing_in_priority r))
                     || negb (PyStr.is_empty
                                (OrderValidator.missing_in_agilent r)))
            then OrderValidator.SAME
            else OrderValidator.MISMATCH.
Proof.
  unfold OrderValidator.validate_orders. cbv zeta.
  destruct (OrderValidator.check_agilent_items _ _ _ _)
    as [[mism missing_p]|]; [|discriminate].
  intros [= <-]. split; reflexivity.
Qed.

(** C10.  An extracted item whose total reads [NaN], with the quantity of
    the authoritative line, makes the comparison of the totals raise an
    arithmetic error that [validate_orders] does not catch: no status is
    returned.  With another quantity the totals are not compared and the
    status is [MISMATCH].  As long as the comparison of the totals does not
    raise, [validate_orders] returns; and whenever it returns, the status is
    one of [INCOMPLETE_DATA], [SAME] and [MISMATCH]: [INCOMPLETE_DATA] as
    soon as an extracted item has a product code but a missing or empty
    total, whatever the mismatches and missing codes; otherwise [SAME]
    exactly when the lists of mismatches, of codes missing in the
    authoritative order and of codes missing in the extraction are all
    empty, and [MISMATCH] exactly when one of them is not. *)
Theorem C10_validate_orders_status :
  option_map OrderValidator.status
    (OrderValidator.validate_orders plain_decimal
       (sample_agilent [ sample_line "G1312-60067" "Pump head" "NaN" ])
       (sample_priority sample_priority_without_shipping))
  = None
  /\ option_map OrderValidator.status
       (OrderValidator.validate_orders plain_decimal
          (sample_agilent [ sample_line_of_two "G1312-60067" "Pump head" "NaN" ])
          (sample_priority sample_priority_without_shipping))
     = Some OrderValidator.MISMATCH
  /\ (forall (L : OrderValidator.decimal_library)
        (a : OrderValidator.agilent_data) (p : OrderValidator.priority_data),
         comparison_never_raises L ->
         exists r, OrderValidator.validate_orders L a p = Some r)
  /\ (forall (L : OrderValidator.decimal_library)
        (a : OrderValidator.agilent_data) (p : OrderValidator.priority_data)
        (r : OrderValidator.order_results L),
         OrderValidator.validate_orders L a p = Some r ->
         (OrderValidator.status r = OrderValidator.INCOMPLETE_DATA
          \/ OrderValidator.status r = OrderValidator.SAME
          \/ OrderValidator.status r = OrderValidator.MISMATCH)
         /\ (has_incomplete_item a ->
             OrderValidator.status r = OrderValidator.INCOMPLETE_DATA)
         /\ (~ has_incomplete_item a ->
             (OrderValidator.status r = OrderValidator.SAME
              <-> nothing_differs r)
             /\ (OrderValidator.status r = OrderValidator.MISMATCH
                 <-> ~ nothing_differs r))).
Proof.
  split; [vm_compute; reflexivity|].
  split; [vm_compute; reflexivity|].
  split; [exact validate_orders_returns|].
  intros L a p r Hr.
  destruct (status_of_validate_orders L a p r Hr) as [Hinc ->].
  unfold has_incomplete_item, nothing_differs.
  rewrite <- incomplete_of_nonempty, <- is_empty_false_iff, <- Hinc.
  rewrite <- !is_empty_true_iff.
  destruct (PyStr.is_empty (OrderValidator.incomplete_items r)),
    (PyStr.is_empty (OrderValidator.mismatches r)),
    (PyStr.is_empty (OrderValidator.missing_in_priority r)),
    (PyStr.is_empty (OrderValidator.missing_in_agilent r)); simpl;
    intuition (auto; congruence).
Qed.

(** The precedence on fixtures: an incomplete line wins over a mismatch and
    a missing code; without it, equal orders are [SAME] and a line missing
    on one side is a [MISMATCH]. *)
Lemma validate_orders_examples :
  (let r := OrderValidator.validate_orders plain_decimal
              (sample_agilent [ sample_line "G1312-60067" "Pump head" "USD 999,00";
                                sample_line_without_total ])
              (sample_priority sample_priority_two) in
   option_map OrderValidator.status r = Some OrderValidator.INCOMPLETE_DATA
   /\ option_map (fun r => PyStr.is_empty (OrderValidator.mismatches r)) r
      = Some false)
  /\ option_map OrderValidator.status
       (OrderValidator.validate_orders plain_decimal
          (sample_agilent sample_lines_without_shipping)
          (sample_priority sample_priority_without_shipping))
     = Some OrderValidator.SAME
  /\ option_map OrderValidator.status
       (OrderValidator.validate_orders plain_decimal
          (sample_agilent sample_lines_without_shipping)
          (sample_priority sample_priority_two))
     = Some OrderValidator.MISMATCH.
Proof. vm_compute. repeat split; reflexivity. Qed.

(** ** The separator rule *)

Import PyStr.

Lemma remove_char_absent (c : ascii) (s : list ascii) :
  contains c s = false -> remove_char c s = s.
Proof.
  unfold contains, remove_char.
  induction s as [|x s IH]; simpl; [reflexivity|].
  rewrite orb_false_iff. intros [Hx Hs].
  rewrite Ascii.eqb_sym, Hx. simpl. now rewrite IH.
Qed.

Lemma replace_char_absent (c d : ascii) (s : list ascii) :
  contains c s = false -> replace_char c d s = s.
Proof.
  unfold contains, replace_char.
  induction s as [|x s IH]; simpl; [reflexivity|].
  rewrite orb_false_iff. intros [Hx Hs].
  rewrite Ascii.eqb_sym, Hx. now rewrite IH.
Qed.

Lemma contains_remove_other (c c' : ascii) (s : list ascii) :
  Ascii.eqb c c' = false ->
  contains c (remove_char c' s) = contains c s.
Proof.
  intro Hne. unfold contains, remove_char.
  induction s as [|x s IH]; simpl; [reflexivity|].
  destruct (Ascii.eqb x c') eqn:E; simpl.
  - apply Ascii.eqb_eq in E. subst x. now rewrite Hne.
  - now rewrite IH.
Qed.

Lemma count_char_zero (c : ascii) (s : list ascii) :
  count_char c s = 0%nat <-> contains c s = false.
Proof.
  unfold count_char, contains.
  induction s as [|x s IH]; simpl; [tauto|].
  destruct (Ascii.eqb c x); simpl; [split; discriminate|exact IH].
Qed.

Lemma split_on_absent (c : ascii) (s : list ascii) :
  contains c s = false -> split_on c s = [s].
Proof.
  unfold contains.
  induction s as [|x s IH]; simpl; [reflexivity|].
  rewrite orb_false_iff. intros [Hx Hs].
  rewrite Ascii.eqb_sym, Hx, (IH Hs). reflexivity.
Qed.

Lemma split_on_length (c : ascii) (s : list ascii) :
  List.length (split_on c s) = S (count_char c s).
Proof.
  unfold count_char.
  induction s as [|x s IH]; simpl; [reflexivity|].
  rewrite (Ascii.eqb_sym c x).
  destruct (Ascii.eqb x c); simpl.
  - now rewrite IH.
  - destruct (split_on c s); simpl in *; congruence.
Qed.

Lemma split_on_single (c : ascii) (s : list ascii) :
  count_char c s = 1%nat ->
  split_on c s = [before_first c s; after_first c s].
Proof.
  unfold count_char.
  induction s as [|x s IH]; simpl; [discriminate|].
  rewrite (Ascii.eqb_sym c x).
  destruct (Ascii.eqb x c); simpl.
  - intros [= H]. apply count_char_zero in H.
    now rewrite (split_on_absent _ _ H).
  - intro H. now rewrite (IH H).
Qed.

(** The test of the code on the pieces of [split] is the test of the rule. *)
Lemma split_test_single (c : ascii) (s : list ascii) :
  (List.length (split_on c s) =? 2)%nat
  && (List.length (nth 1 (split_on c s) []) <=? 2)%nat
  = one_followed_by_at_most_two c s.
Proof.
  unfold one_followed_by_at_most_two.
  rewrite split_on_length.
  destruct (Nat.eqb_spec (count_char c s) 1) as [H|H].
  - rewrite (split_on_single _ _ H), H. reflexivity.
  - destruct (Nat.eqb_spec (S (count_char c s)) 2); [lia|reflexivity].
Qed.

Lemma split_test_three (c : ascii) (s : list ascii) :
  (List.length (split_on c s) =? 2)%nat
  && (List.length (nth 1 (split_on c s) []) =? 3)%nat
  && negb (List.length (nth 0 (split_on c s) []) <=? 3)%nat
  = one_between_long_head_and_three c s.
Proof.
  unfold one_between_long_head_and_three.
  rewrite split_on_length.
  destruct (Nat.eqb_spec (count_char c s) 1) as [H|H].
  - rewrite (split_on_single _ _ H), H. reflexivity.
  - destruct (Nat.eqb_spec (S (count_char c s)) 2); [lia|reflexivity].
Qed.

(** [rfind] and the rightmost separator. *)
Lemma rfind_from_snoc (c x : ascii) (s : list ascii) (i last : Z) :
  rfind_from c (s ++ [x]) i last
  = if Ascii.eqb x c then (i + Z.of_nat (List.length s))%Z
    else rfind_from c s i last.
Proof.
  revert i last. induction s as [|y s IH]; intros i last; simpl.
  - destruct (Ascii.eqb x c); [f_equal; lia|reflexivity].
  - rewrite IH. destruct (Ascii.eqb x c); [lia|reflexivity].
Qed.

Lemma rfind_from_bound (c : ascii) (s : list ascii) (i last : Z) :
  rfind_from c s i last = last
  \/ (i <= rfind_from c s i last < i + Z.of_nat (List.length s))%Z.
Proof.
  revert i last. induction s as [|y s IH]; intros i last; simpl.
  - now left.
  - destruct (IH (i + 1)%Z (if Ascii.eqb y c then i else last)) as [H|H].
    + rewrite H. destruct (Ascii.eqb y c); [right; lia|now left].
    + right. lia.
Qed.

Lemma rfind_bound (c : ascii) (s : list ascii) :
  (-1 <= rfind c s < Z.of_nat (List.length s))%Z.
Proof.
  unfold rfind. destruct (rfind_from_bound c s 0 (-1)) as [H|H]; lia.
Qed.

Lemma rfind_snoc (c x : ascii) (s : list ascii) :
  rfind c (s ++ [x])
  = if Ascii.eqb x c then Z.of_nat (List.length s) else rfind c s.
Proof. unfold rfind. now rewrite rfind_from_snoc. Qed.

Lemma rightmost_separator_snoc (x : ascii) (s : list ascii) :
  rightmost_separator (s ++ [x])
  = if is_separator x then Some x else rightmost_separator s.
Proof.
  unfold rightmost_separator. rewrite filter_app. simpl.
  destruct (is_separator x).
  - rewrite map_app. simpl. apply last_last.
  - now rewrite app_nil_r.
Qed.

Lemma rfind_rightmost (s : list ascii) :
  match rightmost_separator s with
  | Some c =>
      if Ascii.eqb c ","
      then (rfind "," s > rfind "." s)%Z
      else (rfind "," s < rfind "." s)%Z
  | None => rfind "," s = (-1)%Z /\ rfind "." s = (-1)%Z
  end.
Proof.
  induction s as [|x s IH] using rev_ind.
  - simpl. auto.
  - rewrite rightmost_separator_snoc, !rfind_snoc.
    pose proof (rfind_bound "," s). pose proof (rfind_bound "." s).
    unfold is_separator.
    destruct (Ascii.eqb_spec x ",") as [->|Hc]; simpl.
    + lia.
    + destruct (Ascii.eqb_spec x ".") as [->|Hp]; simpl.
      * lia.
      * exact IH.
Qed.

Lemma rfind_test (s : list ascii) :
  (rfind "," s >? rfind "." s)%Z = comma_is_rightmost s.
Proof.
  unfold comma_is_rightmost. pose proof (rfind_rightmost s) as H.
  destruct (rightmost_separator s) as [c|].
  - destruct (Ascii.eqb c ","); lia.
  - lia.
Qed.

(** The block of each extractor is the treatment of the separators under
    its rule. *)
Lemma priority_api_resolve (cleaned : list ascii) :
  PriorityAPIClient.resolve_separators cleaned
  = treat (priority_api_roles cleaned) cleaned.
Proof.
  unfold PriorityAPIClient.resolve_separators, priority_api_roles, treat.
  cbv zeta. rewrite rfind_test, split_test_single.
  destruct (contains "," cleaned) eqn:Hc, (contains "." cleaned) eqn:Hp; simpl.
  - destruct (comma_is_rightmost cleaned); reflexivity.
  - reflexivity.
  - unfold role_if.
    destruct (one_followed_by_at_most_two "." cleaned).
    + now rewrite replace_char_absent.
    + rewrite replace_char_absent; [reflexivity|].
      now rewrite contains_remove_other.
  - unfold role_if.
    destruct (one_followed_by_at_most_two "." cleaned);
      rewrite ?remove_char_absent by assumption;
      now rewrite replace_char_absent.
Qed.

Lemma response_handler_comma_branch (cleaned : list ascii) :
  (let parts := split_on "," cleaned in
   if (List.length parts =? 2)%nat && (List.length (nth 1 parts []) <=? 2)%nat
   then replace_char "," "." cleaned
   else if (List.length parts =? 2)%nat
           && (List.length (nth 1 parts []) =? 3)%nat
   then
     if (List.length (nth 0 parts []) <=? 3)%nat
     then remove_char "," cleaned
     else replace_char "," "." cleaned
   else remove_char "," cleaned)
  = match role_if (one_followed_by_at_most_two "," cleaned
                   || one_between_long_head_and_three "," cleaned) with
    | decimal_separator => replace_char "," "." cleaned
    | thousands_separator => remove_char "," cleaned
    end.
Proof.
  cbv zeta.
  unfold one_followed_by_at_most_two, one_between_long_head_and_three.
  destruct (Nat.eqb_spec (count_char "," cleaned) 1) as [H|H].
  - rewrite (split_on_single _ _ H). simpl.
    destruct (List.length (after_first "," cleaned) <=? 2)%nat; simpl;
      [reflexivity|].
    destruct (List.length (after_first "," cleaned) =? 3)%nat; simpl;
      [|reflexivity].
    destruct (List.length (before_first "," cleaned) <=? 3)%nat; reflexivity.
  - rewrite split_on_length.
    destruct (Nat.eqb_spec (S (count_char "," cleaned)) 2); [lia|reflexivity].
Qed.

Lemma response_handler_resolve (cleaned : list ascii) :
  ResponseHandler.resolve_separators cleaned
  = treat (response_handler_roles cleaned) cleaned.
Proof.
  unfold ResponseHandler.resolve_separators, response_handler_roles, treat.
  pose proof (response_handler_comma_branch cleaned) as Hcomma.
  cbv zeta in *. rewrite Hcomma. clear Hcomma.
  rewrite rfind_test, split_test_single.
  destruct (contains "," cleaned) eqn:Hc, (contains "." cleaned) eqn:Hp; simpl.
  - destruct (comma_is_rightmost cleaned); reflexivity.
  - reflexivity.
  - unfold role_if.
    destruct (one_followed_by_at_most_two "." cleaned).
    + now rewrite replace_char_absent.
    + rewrite replace_char_absent; [reflexivity|].
      now rewrite contains_remove_other.
  - unfold role_if.
    destruct (one_followed_by_at_most_two "." cleaned);
      rewrite ?remove_char_absent by assumption;
      now rewrite replace_char_absent.
Qed.

Lemma priority_api_normalize (raw : string) :
  PriorityAPIClient._extract_numeric_price raw
  = normalize_with priority_api_roles raw.
Proof.
  unfold PriorityAPIClient._extract_numeric_price, normalize_with.
  cbv zeta. now rewrite priority_api_resolve.
Qed.

Lemma response_handler_normalize (raw : string) :
  ResponseHandler._extract_numeric_price raw
  = normalize_with response_handler_roles raw.
Proof.
  unfold ResponseHandler._extract_numeric_price, normalize_with.
  unfold ResponseHandler.keep_numeric.
  cbv zeta. now rewrite response_handler_resolve.
Qed.

Lemma clean_number_treat (cleaned : list ascii) :
  (if contains "," cleaned
   then replace_char "," "." (remove_char "." cleaned)
   else cleaned)
  = treat (clean_number_roles cleaned) cleaned.
Proof.
  unfold clean_number_roles, treat.
  destruct (contains "," cleaned) eqn:E; [reflexivity|].
  now rewrite replace_char_absent.
Qed.

(** The report generator reads [1234,567] as 1234.567, by its branch for a
    first part that is too long, where the stated rule gives 1234567; the
    extractor of the order client reads [1,234] as 1.234. *)
Lemma lone_comma_examples :
  (PriorityAPIClient._extract_numeric_price "1,234" == 1.234)%Q
  /\ (normalize_amount_stated "1,234" == 1234)%Q
  /\ ~ (PriorityAPIClient._extract_numeric_price "1,234"
        == normalize_amount_stated "1,234")%Q
  /\ (ResponseHandler._extract_numeric_price "1234,567" == 1234.567)%Q
  /\ (normalize_amount_stated "1234,567" == 1234567)%Q
  /\ ~ (ResponseHandler._extract_numeric_price "1234,567"
        == normalize_amount_stated "1234,567")%Q.
Proof.
  repeat split; try (vm_compute; reflexivity);
    vm_compute; intro H; discriminate H.
Qed.

(** The rule that each extractor follows on every input.  With both
    separators, the rightmost one is the decimal separator and the other
    one separates thousands.  A period that occurs alone is the decimal
    separator exactly when it occurs once and at most two digits follow.  A
    comma that occurs alone is always the decimal separator for the
    extractor of the order client; for the extractor of the report it is
    the decimal separator exactly when it occurs once and is followed by at
    most two digits, or by exactly three digits with more than three before
    it.  [clean_number] takes every comma as the decimal separator and,
    when a comma occurs, every period as a thousands separator. *)
Lemma separator_resolution_by_roles (raw : string) :
  PriorityAPIClient._extract_numeric_price raw
  = normalize_with priority_api_roles raw
  /\ ResponseHandler._extract_numeric_price raw
     = normalize_with response_handler_roles raw
  /\ (forall cleaned,
        priority_api_roles cleaned
        = if contains "," cleaned && negb (contains "." cleaned)
          then (decimal_separator, decimal_separator)
          else stated_roles cleaned)
  /\ (forall cleaned,
        response_handler_roles cleaned
        = if contains "," cleaned && negb (contains "." cleaned)
             && one_between_long_head_and_three "," cleaned
          then (decimal_separator, decimal_separator)
          else stated_roles cleaned)
  /\ OrderValidator.clean_number_text raw
     = (let cleaned := strip (OrderValidator.remove_USD (chars raw)) in
        let resolved := treat (clean_number_roles cleaned) cleaned in
        if endswith_char "-" resolved
        then "-"%char :: OrderValidator.drop_last resolved
        else resolved)
  /\ ((PriorityAPIClient._extract_numeric_price "USD 7.157,16" == 7157.16)%Q
      /\ (PriorityAPIClient._extract_numeric_price "USD 1,234.56" == 1234.56)%Q
      /\ (PriorityAPIClient._extract_numeric_price "USD 129,00" == 129.00)%Q)
  /\ ((ResponseHandler._extract_numeric_price "USD 7.157,16" == 7157.16)%Q
      /\ (ResponseHandler._extract_numeric_price "USD 1,234.56" == 1234.56)%Q
      /\ (ResponseHandler._extract_numeric_price "USD 129,00" == 129.00)%Q).
Proof.
  split; [apply priority_api_normalize|].
  split; [apply response_handler_normalize|].
  split; [|split; [|split; [|split]]].
  - intro cleaned. unfold priority_api_roles, stated_roles.
    destruct (contains "," cleaned), (contains "." cleaned); reflexivity.
  - intro cleaned. unfold response_handler_roles, stated_roles.
    destruct (contains "," cleaned), (contains "." cleaned); simpl;
      try reflexivity.
    unfold one_between_long_head_and_three, one_followed_by_at_most_two.
    destruct (count_char "," cleaned =? 1)%nat; simpl; [|reflexivity].
    destruct (Nat.leb_spec (List.length (after_first "," cleaned)) 2);
      destruct (Nat.eqb_spec (List.length (after_first "," cleaned)) 3);
      simpl; try reflexivity; try lia.
    destruct (List.length (before_first "," cleaned) <=? 3)%nat; reflexivity.
  - unfold OrderValidator.clean_number_text. cbv zeta.
    now rewrite clean_number_treat.
  - repeat split; vm_compute; reflexivity.
  - repeat split; vm_compute; reflexivity.
Qed.

(** C4 (what the code does).  The extractor of the order client does not
    follow the stated rule on a comma that occurs alone: it reads [1,234],
    one comma followed by three digits, as 1.234, where the stated rule and
    the extractor of the report, its sibling, read 1234.  [clean_number]
    reads a comma as the decimal separator even when a period follows it:
    it hands [1.23456] to [Decimal] for [USD 1,234.56], which the stated
    rule and both extractors read as 1234.56.  The three amounts of the
    examples are read as stated by both extractors. *)
Theorem C4_lone_comma_divergence :
  ((PriorityAPIClient._extract_numeric_price "1,234" == 1.234)%Q
   /\ (ResponseHandler._extract_numeric_price "1,234" == 1234)%Q
   /\ (normalize_amount_stated "1,234" == 1234)%Q
   /\ ~ (PriorityAPIClient._extract_numeric_price "1,234"
         == normalize_amount_stated "1,234")%Q)
  /\ (text (OrderValidator.clean_number_text "USD 1,234.56") = "1.23456"
      /\ (normalize_amount_stated "USD 1,234.56" == 1234.56)%Q)
  /\ ((PriorityAPIClient._extract_numeric_price "USD 7.157,16" == 7157.16)%Q
      /\ (PriorityAPIClient._extract_numeric_price "USD 1,234.56" == 1234.56)%Q
      /\ (PriorityAPIClient._extract_numeric_price "USD 129,00" == 129.00)%Q)
  /\ ((ResponseHandler._extract_numeric_price "USD 7.157,16" == 7157.16)%Q
      /\ (ResponseHandler._extract_numeric_price "USD 1,234.56" == 1234.56)%Q
      /\ (ResponseHandler._extract_numeric_price "USD 129,00" == 129.00)%Q).
Proof.
  repeat split; try (vm_compute; reflexivity);
    vm_compute; intro H; discriminate H.
Qed.

(** ** The trailing dash *)

Lemma chars_app (s t : string) :
  chars (s ++ t)%string = chars s ++ chars t.
Proof.
  unfold chars. induction s as [|c s IH]; simpl; [reflexivity|].
  now rewrite IH.
Qed.

Lemma keep_numeric_dash (s : string) :
  keep_numeric (chars (s ++ "-")%string) = keep_numeric (chars s).
Proof.
  unfold keep_numeric. rewrite chars_app, filter_app. simpl.
  now rewrite app_nil_r.
Qed.

Lemma keep_numeric_dash_only : keep_numeric (chars "-") = [].
Proof. reflexivity. Qed.

Lemma truthy_app_dash (s : string) : truthy (s ++ "-")%string = true.
Proof. destruct s; reflexivity. Qed.

Lemma keep_numeric_of_empty (s : string) :
  truthy s = false -> keep_numeric (chars s) = [].
Proof. destruct s; [reflexivity|discriminate]. Qed.

(** C9 (what the code does).  Both price extractors drop a trailing dash:
    the amount read from a string that ends in ['-'] is the amount read
    from the string without it, not its negation; [USD 25,00-] is read as
    25, while [clean_number] hands [-25.00] to [Decimal]. *)
Theorem C9_trailing_dash_dropped (s : string) :
  PriorityAPIClient._extract_numeric_price (s ++ "-")%string
  = PriorityAPIClient._extract_numeric_price s
  /\ ResponseHandler._extract_numeric_price (s ++ "-")%string
     = ResponseHandler._extract_numeric_price s
  /\ (PriorityAPIClient._extract_numeric_price "USD 25,00-" == 25)%Q
  /\ ~ (PriorityAPIClient._extract_numeric_price "USD 25,00-"
        == - PriorityAPIClient._extract_numeric_price "USD 25,00")%Q
  /\ text (OrderValidator.clean_number_text "USD 25,00-") = "-25.00".
Proof.
  split; [|split; [|split; [|split]]].
  - unfold PriorityAPIClient._extract_numeric_price.
    rewrite truthy_app_dash, keep_numeric_dash. simpl.
    destruct (truthy s) eqn:E; simpl; [reflexivity|].
    now rewrite (keep_numeric_of_empty _ E).
  - unfold ResponseHandler._extract_numeric_price, ResponseHandler.keep_numeric.
    rewrite truthy_app_dash, keep_numeric_dash. simpl.
    destruct (truthy s) eqn:E; simpl; [reflexivity|].
    now rewrite (keep_numeric_of_empty _ E).
  - vm_compute. reflexivity.
  - vm_compute. intro H. discriminate H.
  - vm_compute. reflexivity.
Qed.

(** ** The calendar *)

Import PyDate.

Local Open Scope Z_scope.

Lemma all_from_spec (check : Z -> bool) (count : nat) (start : Z) :
  all_from check start count = true ->
  forall n, start <= n < start + Z.of_nat count -> check n = true.
Proof.
  revert start. induction count as [|k IH]; intros start H n Hn.
  - simpl in Hn. lia.
  - simpl in H. destruct (check start) eqn:E; [|discriminate].
    destruct (Z.eq_dec n start) as [->|Hne]; [exact E|].
    apply (IH (start + 1) H). lia.
Qed.

Lemma month_day_checked :
  all_from (month_day_ok true) 0 365 = true
  /\ all_from (month_day_ok false) 0 365 = true.
Proof. split; vm_compute; reflexivity. Qed.

Lemma month_day_spec (leapyear : bool) (n : Z) :
  0 <= n < 365 ->
  1 <= fst (month_day n leapyear) <= 12
  /\ 1 <= snd (month_day n leapyear)
  /\ nth (Z.to_nat (fst (month_day n leapyear))) _DAYS_BEFORE_MONTH 0
     + (if (fst (month_day n leapyear) >? 2) && leapyear then 1 else 0)
     + snd (month_day n leapyear) = n + 1.
Proof.
  intro Hn.
  assert (H : month_day_ok leapyear n = true).
  { destruct month_day_checked as [Ht Hf].
    destruct leapyear; [apply (all_from_spec _ 365 0 Ht)
                       |apply (all_from_spec _ 365 0 Hf)]; lia. }
  unfold month_day_ok in H.
  destruct (month_day n leapyear) as [m d]. cbn [fst snd].
  rewrite !andb_true_iff in H. destruct H as [[[H1 H2] H3] H4].
  apply Z.leb_le in H1, H2, H3. apply Z.eqb_eq in H4. lia.
Qed.

(** [_ord2ymd], with its quotients and remainders named. *)
Lemma _ord2ymd_unfold (n : Z) :
  _ord2ymd n
  = let n0 := n - 1 in
    let a := n0 / 146097 in
    let r := n0 mod 146097 in
    let b := r / 36524 in
    let r1 := r mod 36524 in
    let c := r1 / 1461 in
    let r2 := r1 mod 1461 in
    let e := r2 / 365 in
    let r3 := r2 mod 365 in
    let y := a * 400 + 1 + b * 100 + c * 4 + e in
    if (e =? 4) || (b =? 4) then {| year := y - 1; month := 12; day := 31 |}
    else
      let leapyear := (e =? 3) && (negb (c =? 24) || (b =? 3)) in
      {| year := y;
         month := fst (month_day r3 leapyear);
         day := snd (month_day r3 leapyear) |}.
Proof.
  unfold _ord2ymd, month_day. cbv zeta.
  destruct (_ || _); [reflexivity|].
  destruct (_ >? _); reflexivity.
Qed.

Lemma is_leap_of_parts (a b c e : Z) :
  0 <= b <= 3 -> 0 <= c <= 24 -> 0 <= e <= 3 ->
  _is_leap (a * 400 + 1 + b * 100 + c * 4 + e)
  = (e =? 3) && (negb (c =? 24) || (b =? 3)).
Proof.
  intros Hb Hc He. unfold _is_leap.
  destruct (Z.eqb_spec e 3), (Z.eqb_spec c 24), (Z.eqb_spec b 3);
    destruct (Z.eqb_spec ((a * 400 + 1 + b * 100 + c * 4 + e) mod 4) 0);
    destruct (Z.eqb_spec ((a * 400 + 1 + b * 100 + c * 4 + e) mod 100) 0);
    destruct (Z.eqb_spec ((a * 400 + 1 + b * 100 + c * 4 + e) mod 400) 0);
    simpl; try reflexivity; exfalso; Z.div_mod_to_equations; lia.
Qed.

Lemma days_before_year_of_parts (a b c e : Z) :
  0 <= b <= 3 -> 0 <= c <= 24 -> 0 <= e <= 3 ->
  _days_before_year (a * 400 + 1 + b * 100 + c * 4 + e)
  = 146097 * a + 36524 * b + 1461 * c + 365 * e.
Proof.
  intros Hb Hc He. unfold _days_before_year. cbv zeta.
  Z.div_mod_to_equations. lia.
Qed.

(** The ordinal of the date of an ordinal is that ordinal. *)
Lemma toordinal_ord2ymd (n : Z) : toordinal (_ord2ymd n) = n.
Proof.
  rewrite _ord2ymd_unfold. cbv zeta.
  set (n0 := n - 1).
  set (a := n0 / 146097). set (r := n0 mod 146097).
  set (b := r / 36524). set (r1 := r mod 36524).
  set (c := r1 / 1461). set (r2 := r1 mod 1461).
  set (e := r2 / 365). set (r3 := r2 mod 365).
  assert (Hparts :
    n0 = 146097 * a + r /\ 0 <= r < 146097
    /\ r = 36524 * b + r1 /\ 0 <= r1 < 36524
    /\ r1 = 1461 * c + r2 /\ 0 <= r2 < 1461
    /\ r2 = 365 * e + r3 /\ 0 <= r3 < 365).
  { subst a r b r1 c r2 e r3. Z.div_mod_to_equations. lia. }
  clearbody a r b r1 c r2 e r3.
  destruct Hparts as (Hn0 & Hr & Hr' & Hr1 & Hr1' & Hr2 & Hr2' & Hr3).
  assert (Hn : n = n0 + 1) by (unfold n0; lia). clearbody n0.
  unfold toordinal, _ymd2ord, _days_before_month.
  destruct (Z.eqb_spec e 4) as [He|He]; cbn [orb year month day].
  - (* the last day of a leap year that ends a group of four years *)
    replace (a * 400 + 1 + b * 100 + c * 4 + e - 1)
      with (a * 400 + 1 + b * 100 + c * 4 + 3) by lia.
    assert (Hb : 0 <= b <= 3) by lia.
    assert (Hc : 0 <= c <= 23) by lia.
    rewrite is_leap_of_parts, days_before_year_of_parts by lia.
    change (nth (Z.to_nat 12) _DAYS_BEFORE_MONTH 0) with 334.
    change (12 >? 2) with true. change (3 =? 3) with true.
    destruct (Z.eqb_spec c 24); [lia|]. cbn [andb orb negb]. lia.
  - destruct (Z.eqb_spec b 4) as [Hb|Hb]; cbn [orb year month day].
    + (* the last day of a cycle of four hundred years *)
      replace (a * 400 + 1 + b * 100 + c * 4 + e - 1)
        with (a * 400 + 1 + 3 * 100 + 24 * 4 + 3) by lia.
      rewrite is_leap_of_parts, days_before_year_of_parts by lia.
      change (nth (Z.to_nat 12) _DAYS_BEFORE_MONTH 0) with 334.
      change (12 >? 2) with true. change (3 =? 3) with true.
      change (24 =? 24) with true. cbn [andb orb negb]. lia.
    + assert (Hb' : 0 <= b <= 3) by lia.
      assert (Hc : 0 <= c <= 24) by lia.
      assert (He' : 0 <= e <= 3) by lia.
      rewrite is_leap_of_parts, days_before_year_of_parts by lia.
      pose proof (month_day_spec
                    ((e =? 3) && (negb (c =? 24) || (b =? 3))) r3 Hr3)
        as (_ & _ & Hday).
      lia.
Qed.

Lemma weekday_ord2ymd (n : Z) : weekday (_ord2ymd n) = (n + 6) mod 7.
Proof. unfold weekday. now rewrite toordinal_ord2ymd. Qed.

Lemma add_days_ordinal (d r : date) (k : Z) :
  add_days d k = Some r -> toordinal r = toordinal d + k.
Proof.
  unfold add_days. destruct (_ && _); [|discriminate].
  intros [= <-]. apply toordinal_ord2ymd.
Qed.

Lemma add_days_in_range (d : date) (k : Z) :
  1 <= toordinal d + k <= MAXORDINAL ->
  add_days d k = Some (_ord2ymd (toordinal d + k)).
Proof.
  intro H. unfold add_days.
  destruct (Z.leb_spec 1 (toordinal d + k)); [|lia].
  destruct (Z.leb_spec (toordinal d + k) MAXORDINAL); [|lia].
  reflexivity.
Qed.

Lemma add_days_ord2ymd (n k : Z) :
  1 <= n + k <= MAXORDINAL ->
  add_days (_ord2ymd n) k = Some (_ord2ymd (n + k)).
Proof.
  intro H. rewrite <- (toordinal_ord2ymd n) in H.
  rewrite (add_days_in_range _ _ H). now rewrite toordinal_ord2ymd.
Qed.

Local Close Scope Z_scope.

(** ** The delivery date calculator *)

Import PyDate.

Local Open Scope Z_scope.

Lemma datetime_fields (y m d : Z) (r : date) :
  datetime y m d = Some r ->
  r = {| year := y; month := m; day := d |}
  /\ 1 <= y <= 9999 /\ 1 <= m <= 12 /\ 1 <= d <= _days_in_month y m.
Proof.
  unfold datetime.
  destruct (Z.leb_spec 1 y); [|discriminate].
  destruct (Z.leb_spec y 9999); [|discriminate].
  destruct (Z.leb_spec 1 m); [|discriminate].
  destruct (Z.leb_spec m 12); [|discriminate].
  destruct (Z.leb_spec 1 d); [|discriminate].
  destruct (Z.leb_spec d (_days_in_month y m)); [|discriminate].
  simpl. intros [= <-]. repeat split; assumption.
Qed.

Lemma days_before_year_bound (y : Z) :
  1 <= y <= 9999 ->
  0 <= _days_before_year y
  /\ (y <= 9998 -> _days_before_year y <= 3651694 - 365).
Proof.
  intro Hy. unfold _days_before_year. cbv zeta.
  Z.div_mod_to_equations. lia.
Qed.

Lemma is_leap_9999 : _is_leap 9999 = false.
Proof. reflexivity. Qed.

Lemma day_of_year_bound (y m d : Z) :
  1 <= m <= 12 -> 1 <= d <= _days_in_month y m ->
  1 <= _days_before_month y m + d <= 365 + (if _is_leap y then 1 else 0).
Proof.
  intros Hm Hd. unfold _days_in_month, _days_before_month in *.
  assert (Hcases : m = 1 \/ m = 2 \/ m = 3 \/ m = 4 \/ m = 5 \/ m = 6
                   \/ m = 7 \/ m = 8 \/ m = 9 \/ m = 10 \/ m = 11 \/ m = 12)
    by lia.
  destruct (_is_leap y);
    destruct Hcases
      as [->|[->|[->|[->|[->|[->|[->|[->|[->|[->|[->| ->]]]]]]]]]]];
    eval_month_tables; lia.
Qed.

(** A date of the calendar has its ordinal in the range of [datetime]. *)
Lemma datetime_ordinal_range (y m d : Z) (r : date) :
  datetime y m d = Some r -> 1 <= toordinal r <= MAXORDINAL.
Proof.
  intro H. apply datetime_fields in H as (-> & Hy & Hm & Hd).
  unfold toordinal, _ymd2ord, MAXORDINAL. cbn [year month day].
  pose proof (days_before_year_bound y Hy) as [Hlow Hhigh].
  pose proof (day_of_year_bound y m d Hm Hd) as Hdoy.
  destruct (Z.eq_dec y 9999) as [->|Hne].
  - rewrite is_leap_9999 in Hdoy.
    change (_days_before_year 9999) with 3651694. lia.
  - assert (Hy' : y <= 9998) by lia. specialize (Hhigh Hy').
    destruct (_is_leap y); lia.
Qed.

Lemma strptime_dmy_datetime (s : list ascii) (r : date) :
  strptime_dmy s = Some r -> exists y m d, datetime y m d = Some r.
Proof.
  unfold strptime_dmy.
  destruct (PyStr.split_on "/" s) as [|p0 [|p1 [|p2 [|]]]]; try discriminate.
  destruct (strptime_d p0) as [d|]; [|discriminate].
  destruct (strptime_m p1) as [m|]; [|discriminate].
  destruct (strptime_Y p2) as [y|]; [|discriminate].
  eauto.
Qed.

Lemma parse_delivery_date_range (s : string) (r : date) :
  parse_delivery_date s = Some r -> 1 <= toordinal r <= MAXORDINAL.
Proof.
  unfold parse_delivery_date. cbv zeta.
  destruct (PyStr.contains "." (PyStr.chars s)).
  - destruct (PyStr.split_on "." (PyStr.chars s))
      as [|p0 [|p1 [|p2 [|]]]]; try discriminate.
    destruct (int p2) as [y|]; [|discriminate].
    destruct (int p1) as [m|]; [|discriminate].
    destruct (int p0) as [d|]; [|discriminate].
    apply datetime_ordinal_range.
  - intro H. apply strptime_dmy_datetime in H as (y & m & d & H).
    exact (datetime_ordinal_range _ _ _ _ H).
Qed.

(** The first six days of the calendar: the date parses, but the date six
    days before it does not exist for [datetime]; the subtraction raises,
    the [except] branch reports the error and hands the input date back, so
    no date six days earlier is returned. *)
Lemma C6_first_days_counterexample :
  parse_delivery_date "03.01.0001"
  = Some {| year := 1; month := 1; day := 3 |}
  /\ ~ (exists calculated : date,
          add_days {| year := 1; month := 1; day := 3 |} (-6)
          = Some calculated)
  /\ calculate_priority_date "03.01.0001" "1 Main Street"
     = {| returned := "03/01/0001"; error_reported := true |}
  /\ calculate_priority_date "03.01.0001" "12 Bet St., Town"
     = {| returned := "03/01/0001"; error_reported := true |}.
Proof.
  split; [vm_compute; reflexivity|].
  split; [intros [calculated H]; vm_compute in H; discriminate H|].
  split; vm_compute; reflexivity.
Qed.

(** C6 (amended).  For a delivery date that parses to a date of the
    calendar with six days before it (any date from 07.01.0001 on), and any
    address, [calculate_priority_date] first subtracts six days; with the
    special address (both markers occur) the result is the Thursday of the
    week, Monday to Sunday, of the subtracted date, and the subtracted date
    itself when that is a Thursday; otherwise a subtracted date that is a
    Saturday gives the Friday before it and any other day of the week is
    kept.  The result is returned as DD/MM/YYYY and no error is reported. *)
Theorem C6_target_date_rule (delivery_date_str delivery_address : string)
  (d : date) :
  parse_delivery_date delivery_date_str = Some d ->
  six_days_before_exist d ->
  exists calculated priority : date,
    add_days d (-6) = Some calculated
    /\ toordinal calculated = toordinal d - 6
    /\ calculate_priority_date delivery_date_str delivery_address
       = {| returned := strftime_dmy priority; error_reported := false |}
    /\ (special_address delivery_address = true ->
        weekday priority = Thursday
        /\ week_start priority = week_start calculated
        /\ (weekday calculated = Thursday -> priority = calculated))
    /\ (special_address delivery_address = false ->
        (weekday calculated = Saturday ->
         toordinal priority = toordinal calculated - 1
         /\ weekday priority = Friday)
        /\ (weekday calculated <> Saturday -> priority = calculated)).
Proof.
  intros Hparse Hsix. unfold six_days_before_exist in Hsix.
  pose proof (parse_delivery_date_range _ _ Hparse) as Hrange.
  unfold MAXORDINAL in Hrange.
  assert (Hcalc : add_days d (-6) = Some (_ord2ymd (toordinal d + -6))).
  { apply add_days_in_range. unfold MAXORDINAL. lia. }
  remember (toordinal d + -6) as c eqn:Hc.
  assert (Hc' : 1 <= c <= 3652053) by lia.
  exists (_ord2ymd c).
  unfold calculate_priority_date, priority_date_of.
  rewrite Hparse, Hcalc.
  unfold week_start, Thursday, Friday, Saturday.
  rewrite !weekday_ord2ymd, !toordinal_ord2ymd.
  destruct (special_address delivery_address).
  - remember (3 - (c + 6) mod 7) as k eqn:Hk.
    assert (Hk' : 1 <= c + k <= MAXORDINAL)
      by (unfold MAXORDINAL; subst k; Z.div_mod_to_equations; lia).
    exists (_ord2ymd (c + k)). rewrite (add_days_ord2ymd _ _ Hk').
    rewrite !weekday_ord2ymd, !toordinal_ord2ymd.
    split; [reflexivity|]. split; [lia|]. split; [reflexivity|].
    split; [|discriminate].
    intros _. split; [|split].
    + subst k. Z.div_mod_to_equations. lia.
    + subst k. Z.div_mod_to_equations. lia.
    + intro Hthu. f_equal. lia.
  - destruct (Z.eqb_spec ((c + 6) mod 7) 5) as [Hsat|Hsat].
    + assert (Hk' : 1 <= c + -1 <= MAXORDINAL)
        by (unfold MAXORDINAL; Z.div_mod_to_equations; lia).
      exists (_ord2ymd (c + -1)). rewrite (add_days_ord2ymd _ _ Hk').
      rewrite !weekday_ord2ymd, !toordinal_ord2ymd.
      split; [reflexivity|]. split; [lia|]. split; [reflexivity|].
      split; [discriminate|].
      intros _. split.
      * intros _. split; [lia|]. Z.div_mod_to_equations. lia.
      * intro H. contradiction.
    + exists (_ord2ymd c).
      split; [reflexivity|]. split; [lia|]. split; [reflexivity|].
      split; [discriminate|].
      intros _. split.
      * intro H. contradiction.
      * reflexivity.
Qed.

Lemma C6_target_date_witness :
  parse_delivery_date "10.01.2025"
  = Some {| year := 2025; month := 1; day := 10 |}
  /\ six_days_before_exist {| year := 2025; month := 1; day := 10 |}
  /\ exists calculated priority : date,
    add_days {| year := 2025; month := 1; day := 10 |} (-6) = Some calculated
    /\ toordinal calculated
       = toordinal {| year := 2025; month := 1; day := 10 |} - 6
    /\ calculate_priority_date "10.01.2025" "12 Bet St., Town"
       = {| returned := strftime_dmy priority; error_reported := false |}
    /\ (special_address "12 Bet St., Town" = true ->
        weekday priority = Thursday
        /\ week_start priority = week_start calculated
        /\ (weekday calculated = Thursday -> priority = calculated))
    /\ (special_address "12 Bet St., Town" = false ->
        (weekday calculated = Saturday ->
         toordinal priority = toordinal calculated - 1
         /\ weekday priority = Friday)
        /\ (weekday calculated <> Saturday -> priority = calculated)).
Proof.
  split; [reflexivity|]. split; [vm_compute; discriminate|].
  apply (C6_target_date_rule "10.01.2025" "12 Bet St., Town"
           {| year := 2025; month := 1; day := 10 |}).
  - reflexivity.
  - vm_compute. discriminate.
Defined.

(** The dates of the specification: Friday 10.01.2025 gives Friday
    03.01.2025, and Thursday 02.01.2025 with the special address. *)
Lemma date_rule_examples :
  calculate_priority_date "10.01.2025" "1 Main Street"
  = {| returned := "03/01/2025"; error_reported := false |}
  /\ calculate_priority_date "10.01.2025" "12 Bet St., Town"
     = {| returned := "02/01/2025"; error_reported := false |}
  /\ calculate_priority_date "10/01/2025" "1 Main Street"
     = {| returned := "03/01/2025"; error_reported := false |}.
Proof. repeat split; vm_compute; reflexivity. Qed.

Local Close Scope Z_scope.

Lemma text_chars (s : string) : PyStr.text (PyStr.chars s) = s.
Proof. apply string_of_list_ascii_of_string. Qed.

Lemma calculate_priority_date_malformed (s addr : string) :
  parse_delivery_date s = None ->
  calculate_priority_date s addr = date_fallback s.
Proof. intro H. unfold calculate_priority_date. now rewrite H. Qed.

(** On a malformed date with a period, the fallback is not the input. *)
Lemma C8_fallback_counterexample :
  parse_delivery_date "31.02.2025" = None
  /\ returned (calculate_priority_date "31.02.2025" "1 Main Street")
     = "31/02/2025"
  /\ returned (calculate_priority_date "31.02.2025" "1 Main Street")
     <> "31.02.2025".
Proof.
  split; [vm_compute; reflexivity|].
  split; [vm_compute; reflexivity|].
  vm_compute. discriminate.
Qed.

(** C8 (amended).  On a date string that does not parse to a date of the
    calendar, [calculate_priority_date] raises nothing: it reports the
    calculation error and returns the input string with every period
    replaced by a slash, which is the input string itself when it holds no
    period. *)
Theorem C8_malformed_date_fallback (delivery_date_str delivery_address : string) :
  parse_delivery_date delivery_date_str = None ->
  calculate_priority_date delivery_date_str delivery_address
  = {| returned :=
         PyStr.text (PyStr.replace_char "." "/" (PyStr.chars delivery_date_str));
       error_reported := true |}
  /\ (PyStr.contains "." (PyStr.chars delivery_date_str) = false ->
      returned (calculate_priority_date delivery_date_str delivery_address)
      = delivery_date_str).
Proof.
  intro H. rewrite (calculate_priority_date_malformed _ _ H).
  unfold date_fallback.
  destruct (PyStr.contains "." (PyStr.chars delivery_date_str)) eqn:E.
  - split; [reflexivity|discriminate].
  - rewrite (replace_char_absent _ _ _ E), text_chars.
    split; reflexivity.
Qed.

Lemma C8_malformed_date_witness :
  parse_delivery_date "31.02.2025" = None
  /\ calculate_priority_date "31.02.2025" "1 Main Street"
     = {| returned :=
            PyStr.text (PyStr.replace_char "." "/" (PyStr.chars "31.02.2025"));
          error_reported := true |}
  /\ (PyStr.contains "." (PyStr.chars "31.02.2025") = false ->
      returned (calculate_priority_date "31.02.2025" "1 Main Street")
      = "31.02.2025").
Proof.
  split; [reflexivity|].
  apply (C8_malformed_date_fallback "31.02.2025" "1 Main Street").
  reflexivity.
Defined.


(* ================================================================== *)
(** * Further properties *)
(* ================================================================== *)

Import OrderUpdate ClaudeOrderProcessor.

(** ** The price extractors *)

Lemma digit_val_range (c : ascii) :
  isdigit c = true -> (0 <= digit_val c <= 9)%Z.
Proof.
  unfold isdigit, digit_val. rewrite andb_true_iff.
  intros [H1 H2]. apply Nat.leb_le in H1, H2. lia.
Qed.

Lemma digits_val_nonneg (s : list ascii) (acc : Z) :
  forallb isdigit s = true -> (0 <= acc)%Z -> (0 <= digits_val acc s)%Z.
Proof.
  revert acc. induction s as [|c s IH]; intros acc Hs Hacc;
    cbn [digits_val forallb] in *.
  - exact Hacc.
  - apply andb_true_iff in Hs as [Hc Hs].
    apply IH; [exact Hs|]. pose proof (digit_val_range c Hc). lia.
Qed.

Lemma float_nonneg (s : list ascii) (q : Q) :
  float s = Some q -> (0 <= q)%Q.
Proof.
  unfold float.
  destruct (split_on "." s) as [|ip [|fp [|]]]; try discriminate.
  - destruct (forallb isdigit ip) eqn:Hip; simpl; [|discriminate].
    destruct (negb (is_empty ip)); [|discriminate].
    intros [= <-]. unfold Qle. simpl.
    pose proof (digits_val_nonneg ip 0 Hip). lia.
  - destruct (forallb isdigit ip) eqn:Hip; simpl; [|discriminate].
    destruct (forallb isdigit fp) eqn:Hfp; simpl; [|discriminate].
    destruct (negb (is_empty (ip ++ fp))); [|discriminate].
    intros [= <-]. unfold Qle. simpl.
    assert (H : forallb isdigit (ip ++ fp) = true)
      by (rewrite forallb_app, Hip, Hfp; reflexivity).
    pose proof (digits_val_nonneg (ip ++ fp) 0 H). lia.
Qed.

Lemma to_amount_nonneg (cleaned : list ascii) : (0 <= to_amount cleaned)%Q.
Proof.
  unfold to_amount. destruct (is_empty cleaned); [discriminate|].
  destruct (float cleaned) as [q|] eqn:E; [|discriminate].
  exact (float_nonneg _ _ E).
Qed.

(** X1.  Neither price extractor ever returns a negative amount, whatever
    the string is. *)
Theorem X1_extracted_price_never_negative (price_str : string) :
  (0 <= PriorityAPIClient._extract_numeric_price price_str)%Q
  /\ (0 <= ResponseHandler._extract_numeric_price price_str)%Q.
Proof.
  unfold PriorityAPIClient._extract_numeric_price,
    ResponseHandler._extract_numeric_price.
  split.
  - destruct (negb (truthy price_str)); [discriminate|].
    cbv zeta. destruct (is_empty _); [discriminate|].
    apply to_amount_nonneg.
  - destruct (negb (truthy price_str)); [discriminate|].
    cbv zeta. destruct (is_empty _); [discriminate|].
    apply to_amount_nonneg.
Qed.

Lemma extracted_price_nonneg (price_str : string) :
  (0 <= PriorityAPIClient._extract_numeric_price price_str)%Q.
Proof.
  unfold PriorityAPIClient._extract_numeric_price.
  destruct (negb (truthy price_str)); [discriminate|].
  cbv zeta. destruct (is_empty _); [discriminate|].
  apply to_amount_nonneg.
Qed.

Lemma negative_never_within_one_cent (v a : Q) :
  (v <= -0.01)%Q -> (0 <= a)%Q -> Qlt_bool (Qabs (v - a)) 0.01 = false.
Proof.
  intros Hv Ha. apply Qlt_bool_false_iff.
  assert (Hneg : (v - a <= 0)%Q) by lra.
  rewrite (Qabs_neg _ Hneg). lra.
Qed.

(** X2.  An authoritative amount that is a credit of one cent or more never
    passes a price check: a line with that price fails the item matcher's
    price check and its overall check, and an order with that total fails
    the total check, whatever the extraction is. *)
Theorem X2_credit_never_matches (partname : string) (tquant v : Q)
  (item : ai_item) (raw : string) :
  (v <= -0.01)%Q ->
  let p := {| PARTNAME := partname; TQUANT := tquant; VATPRICE := v |} in
  ir_price_match (compare_item p item) = false
  /\ ir_validation_passed (compare_item p item) = false
  /\ price_match (total_price_validation v (Some raw)) = Some false.
Proof.
  intros Hv p.
  assert (H : ir_price_match (compare_item p item) = false).
  { unfold compare_item, price_difference_of. cbn [ir_price_match].
    apply negative_never_within_one_cent;
      [exact Hv|apply extracted_price_nonneg]. }
  split; [exact H|]. split.
  - unfold compare_item in *. cbn [ir_price_match ir_validation_passed] in *.
    rewrite H. apply andb_false_r.
  - unfold total_price_validation, price_difference_of.
    cbn [price_match]. f_equal.
    apply negative_never_within_one_cent;
      [exact Hv|apply extracted_price_nonneg].
Qed.

Lemma X2_credit_witness :
  (-25 <= -0.01)%Q
  /\ ir_price_match
       (compare_item sample_credit_line
          (sample_line "CREDIT-01" "Credit note" "USD 25,00-")) = false.
Proof.
  split; [vm_compute; discriminate|].
  apply (X2_credit_never_matches "CREDIT-01" 1 (-25)
           (sample_line "CREDIT-01" "Credit note" "USD 25,00-") "USD 25,00-").
  vm_compute; discriminate.
Defined.

(** ** Texts without a digit *)

Lemma existsb_isdigit_split (s : list ascii) :
  existsb (existsb isdigit) (split_on "." s) = existsb isdigit s.
Proof.
  induction s as [|x r IH]; [reflexivity|].
  cbn [split_on]. destruct (Ascii.eqb x ".") eqn:E.
  - apply Ascii.eqb_eq in E. subst x. cbn [existsb]. rewrite IH. reflexivity.
  - destruct (split_on "." r) as [|p ps]; cbn [existsb] in *.
    + rewrite <- IH. rewrite !orb_false_r. reflexivity.
    + rewrite <- IH. rewrite orb_assoc. reflexivity.
Qed.

Lemma forallb_existsb {A : Type} (f : A -> bool) (l : list A) :
  forallb f l = true -> is_empty l = false -> existsb f l = true.
Proof.
  destruct l as [|x r]; [discriminate|]. cbn [forallb existsb].
  intros H _. apply andb_true_iff in H as [-> _]. reflexivity.
Qed.

Lemma float_has_digit (s : list ascii) (q : Q) :
  float s = Some q -> existsb isdigit s = true.
Proof.
  unfold float. rewrite <- existsb_isdigit_split.
  destruct (split_on "." s) as [|ip [|fp [|]]]; try discriminate.
  - destruct (forallb isdigit ip) eqn:Hip; [|discriminate].
    destruct (is_empty ip) eqn:Hne; [discriminate|]. intros _.
    cbn [existsb]. rewrite (forallb_existsb _ _ Hip Hne). reflexivity.
  - destruct (forallb isdigit ip) eqn:Hip; [|discriminate].
    destruct (forallb isdigit fp) eqn:Hfp; [|discriminate].
    destruct (is_empty (ip ++ fp)) eqn:Hne; [discriminate|]. intros _.
    cbn [existsb]. rewrite orb_false_r, <- existsb_app.
    apply forallb_existsb; [|exact Hne].
    rewrite forallb_app, Hip, Hfp. reflexivity.
Qed.

Lemma existsb_isdigit_remove (c : ascii) (s : list ascii) :
  isdigit c = false ->
  existsb isdigit (remove_char c s) = existsb isdigit s.
Proof.
  intros Hc. induction s as [|x r IH]; [reflexivity|].
  cbn [remove_char filter existsb]. fold (remove_char c r).
  destruct (Ascii.eqb x c) eqn:E; cbn [negb existsb].
  - apply Ascii.eqb_eq in E. subst x. rewrite Hc, IH. reflexivity.
  - rewrite IH. reflexivity.
Qed.

Lemma existsb_isdigit_replace (c d : ascii) (s : list ascii) :
  isdigit c = false -> isdigit d = false ->
  existsb isdigit (replace_char c d s) = existsb isdigit s.
Proof.
  intros Hc Hd. induction s as [|x r IH]; [reflexivity|].
  cbn [replace_char map existsb]. fold (replace_char c d r).
  destruct (Ascii.eqb x c) eqn:E.
  - apply Ascii.eqb_eq in E. subst x. rewrite Hc, Hd, IH. reflexivity.
  - rewrite IH. reflexivity.
Qed.

Lemma existsb_isdigit_keep_numeric (s : list ascii) :
  existsb isdigit (keep_numeric s) = existsb isdigit s.
Proof.
  induction s as [|x r IH]; [reflexivity|].
  cbn [keep_numeric filter existsb]. fold (keep_numeric r).
  destruct (isdigit x) eqn:Hx; cbn [orb existsb].
  - rewrite Hx. reflexivity.
  - destruct (Ascii.eqb x "." || Ascii.eqb x ","); cbn [existsb];
      rewrite ?Hx, IH; reflexivity.
Qed.

Ltac digits_unchanged :=
  rewrite ?existsb_isdigit_replace, ?existsb_isdigit_remove by reflexivity;
  reflexivity.

Lemma existsb_isdigit_priority_api (s : list ascii) :
  existsb isdigit (PriorityAPIClient.resolve_separators s) = existsb isdigit s.
Proof.
  unfold PriorityAPIClient.resolve_separators.
  repeat match goal with
         | |- context [if ?b then _ else _] => destruct b
         end; digits_unchanged.
Qed.

Lemma existsb_isdigit_response_handler (s : list ascii) :
  existsb isdigit (ResponseHandler.resolve_separators s) = existsb isdigit s.
Proof.
  unfold ResponseHandler.resolve_separators.
  repeat match goal with
         | |- context [if ?b then _ else _] => destruct b
         end; digits_unchanged.
Qed.

Lemma to_amount_no_digit (s : list ascii) :
  existsb isdigit s = false -> to_amount s = 0%Q.
Proof.
  intros H. unfold to_amount. destruct (is_empty s); [reflexivity|].
  destruct (float s) as [q|] eqn:E; [|reflexivity].
  apply float_has_digit in E. congruence.
Qed.

Lemma no_digit_price_zero (raw : string) :
  no_digit raw ->
  PriorityAPIClient._extract_numeric_price raw = 0%Q
  /\ ResponseHandler._extract_numeric_price raw = 0%Q.
Proof.
  unfold no_digit. intros H.
  unfold PriorityAPIClient._extract_numeric_price,
    ResponseHandler._extract_numeric_price, ResponseHandler.keep_numeric.
  destruct (negb (truthy raw)); [split; reflexivity|]. cbv zeta.
  destruct (is_empty (keep_numeric (chars raw))); [split; reflexivity|].
  split; apply to_amount_no_digit.
  - rewrite existsb_isdigit_priority_api, existsb_isdigit_keep_numeric.
    exact H.
  - rewrite existsb_isdigit_response_handler, existsb_isdigit_keep_numeric.
    exact H.
Qed.

(** X3.  An extracted total without any digit (an empty string, a
    placeholder such as N/A) is read as zero by both extractors; the total
    check is still attempted, and it passes exactly when the authoritative
    total is itself less than one cent away from zero. *)
Theorem X3_total_without_digit_is_zero (totprice : Q) (raw : string) :
  no_digit raw ->
  PriorityAPIClient._extract_numeric_price raw = 0%Q
  /\ ResponseHandler._extract_numeric_price raw = 0%Q
  /\ validation_attempted (total_price_validation totprice (Some raw))
     = Some true
  /\ (price_match (total_price_validation totprice (Some raw)) = Some true
      <-> (Qabs totprice < 0.01)%Q).
Proof.
  intros H. destruct (no_digit_price_zero raw H) as [Hp Hr].
  split; [exact Hp|]. split; [exact Hr|]. split; [reflexivity|].
  unfold total_price_validation, price_difference_of. cbn [price_match].
  rewrite Hp.
  assert (E : (Qabs (totprice - 0) == Qabs totprice)%Q)
    by (apply Qabs_wd; ring).
  split.
  - intros [= Hm]. apply Qlt_bool_iff in Hm. rewrite <- E. exact Hm.
  - intros Hm. f_equal. apply Qlt_bool_iff. rewrite E. exact Hm.
Qed.

Lemma X3_total_without_digit_witness :
  no_digit "N/A"
  /\ PriorityAPIClient._extract_numeric_price "N/A" = 0%Q
  /\ ResponseHandler._extract_numeric_price "N/A" = 0%Q
  /\ validation_attempted (total_price_validation 512.04 (Some "N/A"))
     = Some true
  /\ (price_match (total_price_validation 512.04 (Some "N/A")) = Some true
      <-> (Qabs 512.04 < 0.01)%Q).
Proof.
  split; [reflexivity|].
  apply (X3_total_without_digit_is_zero 512.04 "N/A"). reflexivity.
Defined.

(** ** The quantity extractors *)

Lemma digits_val_uint (u : Decimal.uint) (acc : nat) :
  digits_val (Z.of_nat acc) (chars (NilEmpty.string_of_uint u))
  = Z.of_nat (Nat.of_uint_acc u acc).
Proof.
  revert acc. induction u as [|u IH|u IH|u IH|u IH|u IH|u IH|u IH|u IH|u IH|u IH];
    intros acc; [reflexivity|..];
    cbn [NilEmpty.string_of_uint chars list_ascii_of_string digits_val
         Nat.of_uint_acc];
    fold (chars (NilEmpty.string_of_uint u));
    rewrite <- IH; f_equal; rewrite Nat.tail_mul_spec;
    unfold digit_val; cbn [nat_of_ascii]; vm_compute (Z.of_nat (nat_of_ascii _));
    lia.
Qed.

Lemma digits_val_string_of_nat (n : nat) :
  digits_val 0%Z (chars (string_of_nat n)) = Z.of_nat n.
Proof.
  unfold string_of_nat. change 0%Z with (Z.of_nat 0).
  rewrite (digits_val_uint (Nat.to_uint n) 0).
  f_equal. apply Unsigned.of_to.
Qed.

Lemma string_of_uint_digits (u : Decimal.uint) :
  forallb isdigit (chars (NilEmpty.string_of_uint u)) = true.
Proof.
  induction u; [reflexivity|..];
    cbn [NilEmpty.string_of_uint chars list_ascii_of_string forallb];
    fold (chars (NilEmpty.string_of_uint u)); rewrite IHu; reflexivity.
Qed.

Lemma string_of_nat_digits (n : nat) :
  forallb isdigit (chars (string_of_nat n)) = true.
Proof. apply string_of_uint_digits. Qed.

Lemma take_digits_no_digit (s : list ascii) :
  existsb isdigit s = false -> take_digits s = [].
Proof.
  destruct s as [|c r]; [reflexivity|]. cbn [existsb take_digits].
  intros H. apply orb_false_iff in H as [-> _]. reflexivity.
Qed.

Lemma take_digits_app (ds rest : list ascii) :
  forallb isdigit ds = true -> existsb isdigit rest = false ->
  take_digits (ds ++ rest) = ds.
Proof.
  intros Hds Hrest. induction ds as [|c r IH].
  - apply take_digits_no_digit. exact Hrest.
  - cbn [forallb] in Hds. apply andb_true_iff in Hds as [Hc Hr].
    cbn [app take_digits]. rewrite Hc, (IH Hr). reflexivity.
Qed.

Lemma first_digit_run_no_digit (s : list ascii) :
  existsb isdigit s = false -> first_digit_run s = None.
Proof.
  induction s as [|c r IH]; [reflexivity|]. cbn [existsb first_digit_run].
  intros H. apply orb_false_iff in H as [-> Hr]. exact (IH Hr).
Qed.

Lemma first_digit_run_skip (label s : list ascii) :
  existsb isdigit label = false ->
  first_digit_run (label ++ s) = first_digit_run s.
Proof.
  induction label as [|c r IH]; [reflexivity|]. cbn [existsb app].
  intros H. apply orb_false_iff in H as [Hc Hr].
  cbn [first_digit_run]. rewrite Hc. exact (IH Hr).
Qed.

Lemma first_number_skip (label s : list ascii) :
  existsb isdigit label = false ->
  ResponseHandler.first_number (label ++ s) = ResponseHandler.first_number s.
Proof.
  induction label as [|c r IH]; [reflexivity|]. cbn [existsb app].
  intros H. apply orb_false_iff in H as [Hc Hr].
  cbn [ResponseHandler.first_number]. rewrite Hc. exact (IH Hr).
Qed.

Lemma first_number_no_digit (s : list ascii) :
  existsb isdigit s = false -> ResponseHandler.first_number s = None.
Proof.
  induction s as [|c r IH]; [reflexivity|].
  cbn [existsb ResponseHandler.first_number].
  intros H. apply orb_false_iff in H as [-> Hr]. exact (IH Hr).
Qed.

Lemma skipn_length_app {A : Type} (l r : list A) :
  skipn (List.length l) (l ++ r) = r.
Proof. induction l as [|x l IH]; [reflexivity|exact IH]. Qed.

Lemma digit_is_no_period (ds : list ascii) :
  forallb isdigit ds = true -> contains "." ds = false.
Proof.
  induction ds as [|c r IH]; [reflexivity|]. cbn [forallb contains existsb].
  intros H. apply andb_true_iff in H as [Hc Hr].
  fold (contains "." r). rewrite (IH Hr), orb_false_r.
  destruct (Ascii.eqb "." c) eqn:E; [|reflexivity].
  apply Ascii.eqb_eq in E. subst c. discriminate.
Qed.

Lemma float_digits (ds : list ascii) :
  forallb isdigit ds = true -> is_empty ds = false ->
  float ds = Some (inject_Z (digits_val 0%Z ds)).
Proof.
  intros Hds Hne. unfold float.
  rewrite (split_on_absent "." ds (digit_is_no_period ds Hds)), Hds, Hne.
  reflexivity.
Qed.

Lemma digit_is_no_space (c : ascii) : isdigit c = true -> isspace c = false.
Proof.
  unfold isdigit, isspace. intros H. apply andb_true_iff in H as [H1 H2].
  apply Nat.leb_le in H1, H2. cbv zeta.
  repeat match goal with
         | |- context [(?a <=? ?b)%nat] => destruct (Nat.leb_spec a b)
         end; cbn; try reflexivity; lia.
Qed.

Lemma lstrip_no_digit (s : list ascii) :
  existsb isdigit s = false -> existsb isdigit (lstrip s) = false.
Proof.
  induction s as [|c r IH]; [reflexivity|]. intros H.
  cbn [lstrip]. destruct (isspace c); [|exact H].
  cbn [existsb] in H. apply orb_false_iff in H as [_ Hr]. exact (IH Hr).
Qed.

Lemma take_token_no_digit (s : list ascii) :
  existsb isdigit s = false ->
  filter isdigit (OrderValidator.take_token s) = [].
Proof.
  induction s as [|c r IH]; [reflexivity|]. cbn [existsb]. intros H.
  apply orb_false_iff in H as [Hc Hr].
  cbn [OrderValidator.take_token]. destruct (isspace c); [reflexivity|].
  cbn [filter]. rewrite Hc. exact (IH Hr).
Qed.

Lemma take_token_digits (ds rest : list ascii) :
  forallb isdigit ds = true ->
  OrderValidator.take_token (ds ++ rest)
  = ds ++ OrderValidator.take_token rest.
Proof.
  induction ds as [|c r IH]; [reflexivity|]. cbn [forallb]. intros H.
  apply andb_true_iff in H as [Hc Hr].
  cbn [app OrderValidator.take_token].
  rewrite (digit_is_no_space c Hc), (IH Hr). reflexivity.
Qed.

Lemma filter_all {A : Type} (f : A -> bool) (l : list A) :
  forallb f l = true -> filter f l = l.
Proof.
  induction l as [|x r IH]; [reflexivity|]. cbn [forallb filter]. intros H.
  apply andb_true_iff in H as [-> Hr]. rewrite (IH Hr). reflexivity.
Qed.

Lemma clean_quantity_no_digit (s : list ascii) :
  existsb isdigit s = false ->
  match OrderValidator.first_token s with
  | Some token => filter isdigit token = []
  | None => True
  end.
Proof.
  intros H. unfold OrderValidator.first_token.
  pose proof (lstrip_no_digit s H) as Hl.
  destruct (lstrip s) as [|c r]; [exact I|].
  apply take_token_no_digit. exact Hl.
Qed.

(** X4.  A quantity below two to the power 53, written as the decimal
    numeral of [n] between a label and a unit that hold no digit, is read as
    [n] by the item matcher and by the report; the order validator reads
    [n] when the numeral comes first.  (Up to that bound the number that the
    report reads with [float] is the numeral's own value.) *)
Theorem X4_quantity_round_trip (n : nat) (label unit : string) :
  (Z.of_nat n < 2 ^ 53)%Z ->
  no_digit label -> no_digit unit ->
  PriorityAPIClient._extract_numeric_quantity
    (label ++ string_of_nat n ++ unit)%string = Z.of_nat n
  /\ ResponseHandler._extract_numeric_quantity
       (label ++ string_of_nat n ++ unit)%string = inject_Z (Z.of_nat n)
  /\ OrderValidator.clean_quantity (string_of_nat n ++ unit)%string
     = Z.of_nat n.
Proof.
  unfold no_digit. intros _ Hlabel Hunit.
  pose proof (digits_val_string_of_nat n) as Hval.
  pose proof (string_of_nat_digits n) as Hds.
  unfold PriorityAPIClient._extract_numeric_quantity,
    ResponseHandler._extract_numeric_quantity, OrderValidator.clean_quantity.
  rewrite !chars_app.
  rewrite (first_digit_run_skip _ _ Hlabel), (first_number_skip _ _ Hlabel).
  destruct (chars (string_of_nat n)) as [|c ds] eqn:E.
  - cbn [app digits_val] in *.
    rewrite (first_digit_run_no_digit _ Hunit),
      (first_number_no_digit _ Hunit), <- Hval.
    split; [reflexivity|]. split; [reflexivity|].
    pose proof (clean_quantity_no_digit _ Hunit) as Ht.
    destruct (OrderValidator.first_token (chars unit)); [|reflexivity].
    rewrite Ht. reflexivity.
  - assert (Hc : isdigit c = true)
      by (cbn [forallb] in Hds; apply andb_true_iff in Hds; tauto).
    split; [|split].
    + change ((c :: ds) ++ chars unit) with (c :: (ds ++ chars unit)).
      cbn [first_digit_run]. rewrite Hc.
      change (c :: (ds ++ chars unit)) with ((c :: ds) ++ chars unit).
      rewrite (take_digits_app _ _ Hds Hunit). exact Hval.
    + change ((c :: ds) ++ chars unit) with (c :: (ds ++ chars unit)).
      cbn [ResponseHandler.first_number]. rewrite Hc. cbv zeta.
      change (c :: (ds ++ chars unit)) with ((c :: ds) ++ chars unit).
      rewrite (take_digits_app _ _ Hds Hunit), skipn_length_app.
      assert (Hf : float (c :: ds) = Some (inject_Z (Z.of_nat n)))
        by (rewrite (float_digits _ Hds eq_refl), Hval; reflexivity).
      destruct (chars unit) as [|dot after] eqn:Eu.
      * rewrite Hf. reflexivity.
      * cbn [existsb] in Hunit. apply orb_false_iff in Hunit as [_ Hafter].
        rewrite (take_digits_no_digit _ Hafter), andb_false_r, Hf.
        reflexivity.
    + unfold OrderValidator.first_token.
      change ((c :: ds) ++ chars unit) with (c :: (ds ++ chars unit)).
      cbn [lstrip]. rewrite (digit_is_no_space c Hc).
      change (c :: (ds ++ chars unit)) with ((c :: ds) ++ chars unit).
      rewrite (take_token_digits _ _ Hds), filter_app,
        (filter_all _ _ Hds), (take_token_no_digit _ Hunit), app_nil_r.
      exact Hval.
Qed.

Lemma X4_quantity_witness :
  (Z.of_nat 12 < 2 ^ 53)%Z /\ no_digit "Qty: " /\ no_digit " EA"
  /\ PriorityAPIClient._extract_numeric_quantity
       ("Qty: " ++ string_of_nat 12 ++ " EA")%string = Z.of_nat 12
  /\ ResponseHandler._extract_numeric_quantity
       ("Qty: " ++ string_of_nat 12 ++ " EA")%string = inject_Z (Z.of_nat 12)
  /\ OrderValidator.clean_quantity (string_of_nat 12 ++ " EA")%string
     = Z.of_nat 12.
Proof.
  split; [reflexivity|]. split; [reflexivity|]. split; [reflexivity|].
  apply (X4_quantity_round_trip 12 "Qty: " " EA"); reflexivity.
Defined.

(** ** The reasons of a rejection *)

(** X5.  The decision and its reasons agree: the order is approved exactly
    when the list of issues is empty, the list holds one issue for each
    failing criterion, and the reason written with a rejection is the
    joined non-empty list of issues. *)
Theorem X5_rejection_reasons (pv : price_validation) :
  (fst (decide_status pv) = SupplierApproval <-> issues_of pv = [])
  /\ List.length (issues_of pv) = failing_criteria pv
  /\ (fst (decide_status pv) = SentToSupplier <-> issues_of pv <> [])
  /\ (issues_of pv <> [] ->
      snd (decide_status pv)
      = ("Validation failed: " ++ join ", " (issues_of pv))%string).
Proof.
  unfold decide_status, issues_of, failing_criteria.
  destruct (criterion_price_match pv), (criterion_all_items_valid pv),
    (criterion_item_count_match pv), (criterion_shipping_valid pv),
    (criterion_no_missing_items pv); cbn [negb andb fst snd app List.length];
    (split; [split; [try discriminate; reflexivity
                    |try discriminate; reflexivity]|]);
    (split; [reflexivity|]);
    (split; [split; [try discriminate; intros _; discriminate
                    |try reflexivity; intros H; now elim H]|]);
    try reflexivity; intros H; now elim H.
Qed.

Lemma merchandise_order_lines (order : priority_order) :
  is_empty (merchandise_lines order) = false ->
  is_empty (order_lines order) = false.
Proof.
  unfold merchandise_lines. destruct (order_lines order); [discriminate|reflexivity].
Qed.





(** ** The order number and the requests that carry it *)

(** X7.  The check of the order number in the request handler and the
    check that opens [get_order_data] accept the same order numbers. *)
Theorem X7_po_gates_agree (customer_po : string) :
  fst (validate_customer_po customer_po) = po_format_ok customer_po.
Proof.
  unfold validate_customer_po, po_format_ok.
  destruct customer_po as [|c s]; [reflexivity|]. cbn [truthy negb].
  destruct (String.length (String c s) =? 12)%nat; [|reflexivity].
  destruct (startswith (chars "PO") (chars (String c s))); [|reflexivity].
  destruct (str_isdigit (skipn 2 (chars (String c s)))); reflexivity.
Qed.

Lemma quote_digits (ds : list ascii) :
  forallb isdigit ds = true -> flat_map quote_char ds = ds.
Proof.
  induction ds as [|c r IH]; [reflexivity|]. cbn [forallb flat_map].
  intros H. apply andb_true_iff in H as [Hc Hr]. rewrite (IH Hr).
  unfold quote_char. rewrite Hc. reflexivity.
Qed.

Lemma po_format_ok_parts (order_po : string) :
  po_format_ok order_po = true ->
  String.length order_po = 12%nat
  /\ exists ds, chars order_po = "P"%char :: "O"%char :: ds
                /\ forallb isdigit ds = true.
Proof.
  unfold po_format_ok, str_isdigit. intros H.
  apply negb_true_iff in H.
  apply orb_false_iff in H as [H Hd].
  apply orb_false_iff in H as [Hl Hs].
  apply negb_false_iff in Hl, Hs, Hd.
  apply Nat.eqb_eq in Hl. split; [exact Hl|].
  apply andb_true_iff in Hd as [_ Hd].
  destruct (chars order_po) as [|a [|b ds]];
    cbn [chars list_ascii_of_string startswith] in Hs;
    rewrite ?andb_false_r in Hs; try discriminate.
  apply andb_true_iff in Hs as [Ha Hs].
  apply andb_true_iff in Hs as [Hb _].
  apply Ascii.eqb_eq in Ha, Hb. subst a b.
  exists ds. split; [reflexivity|exact Hd].
Qed.

Lemma quote_valid_po (order_po : string) :
  po_format_ok order_po = true -> quote order_po = order_po.
Proof.
  intros H. destruct (po_format_ok_parts order_po H) as (_ & ds & E & Hd).
  unfold quote. rewrite E.
  change (flat_map quote_char ("P"%char :: "O"%char :: ds))
    with ("P"%char :: "O"%char :: flat_map quote_char ds).
  rewrite (quote_digits ds Hd), <- E. apply text_chars.
Qed.

(** X8.  [get_order_data] sends one request, which carries the order number
    unchanged, exactly when the order number is well formed, whatever the
    order system answers; [update_order_items] fetches the order in the
    same way. *)
Theorem X8_fetch_carries_order_number (base_url customer_po : string)
  (items_data : list ai_item) (delivery_address : string)
  (extracted_total_price : option string)
  (ai_shipping_info : option shipping_info)
  (full_items_data : option (list ai_item))
  (fetch : fetch_answer) (answers : nat -> http_answer)
  (status_answer : http_answer) :
  fo_requests (get_order_data customer_po extracted_total_price fetch)
  = (if po_format_ok customer_po then [customer_po] else [])
  /\ uo_fetches
       (update_order_items base_url customer_po items_data delivery_address
          extracted_total_price ai_shipping_info full_items_data fetch
          answers status_answer)
     = (if po_format_ok customer_po then [customer_po] else []).
Proof.
  assert (H : fo_requests
                (get_order_data customer_po extracted_total_price fetch)
              = (if po_format_ok customer_po then [customer_po] else [])).
  { unfold get_order_data.
    destruct (po_format_ok customer_po) eqn:Hpo; [|reflexivity].
    cbn [negb]. rewrite (quote_valid_po _ Hpo).
    destruct fetch as [[|order_info rest]|message]; reflexivity. }
  split; [exact H|]. rewrite <- H. unfold update_order_items.
  destruct (fo_result (get_order_data customer_po extracted_total_price fetch))
    as [[data pv]|]; [|reflexivity].
  destruct (is_empty (od_items data)); reflexivity.
Qed.

(** X9.  For an order number that is not well formed [update_order_items]
    sends nothing at all: no fetch, no line update and no status update; it
    reports the failure and hands back no result and no validation. *)
Theorem X9_malformed_po_sends_nothing (base_url customer_po : string)
  (items_data : list ai_item) (delivery_address : string)
  (extracted_total_price : option string)
  (ai_shipping_info : option shipping_info)
  (full_items_data : option (list ai_item))
  (fetch : fetch_answer) (answers : nat -> http_answer)
  (answer : http_answer) :
  po_format_ok customer_po = false ->
  let fetched := get_order_data customer_po extracted_total_price fetch in
  let updated :=
    update_order_items base_url customer_po items_data delivery_address
      extracted_total_price ai_shipping_info full_items_data fetch answers
      answer in
  fo_result fetched = None /\ fo_requests fetched = []
  /\ uo_success updated = false /\ uo_results updated = []
  /\ uo_price_validation updated = None
  /\ uo_fetches updated = [] /\ uo_line_requests updated = []
  /\ uo_status_requests updated = [].
Proof.
  intros Hpo. cbv zeta.
  unfold update_order_items, get_order_data.
  rewrite Hpo. cbn [negb fo_result fo_requests]. repeat split.
Qed.

Lemma X9_malformed_po_witness :
  po_format_ok "PO24-0000285" = false
  /\ uo_status_requests
       (update_order_items "https://erp" "PO24-0000285" sample_extracted_items
          "1 Main Street" (Some "USD 512,04") None None
          (Fetched [sample_order]) always_ok (Response 204 EmptyString))
     = [].
Proof.
  split; [reflexivity|].
  apply (X9_malformed_po_sends_nothing "https://erp" "PO24-0000285"
           sample_extracted_items "1 Main Street" (Some "USD 512,04")
           None None (Fetched [sample_order]) always_ok
           (Response 204 EmptyString)).
  reflexivity.
Defined.

(** ** [update_order_number] *)

(** X10.  [update_order_number] never sends an empty order number or an
    empty supplier name, sends at most one request, fetches the order only
    when one of the two values is not given, sends a given value as it is,
    and reports success only after a request that was answered with 200 or
    204. *)
Theorem X10_order_number_update (base_url customer_po : string)
  (order_number supplier_name : option string)
  (fetch : fetch_answer) (answer : http_answer) :
  let o :=
    update_order_number base_url customer_po order_number supplier_name
      fetch answer in
  (forall r, In r (no_requests o) ->
     truthy (nr_SUPORDNUM r) = true /\ truthy (nr_SUPNAME r) = true
     /\ (forall n, order_number = Some n -> nr_SUPORDNUM r = n)
     /\ (forall n, supplier_name = Some n -> nr_SUPNAME r = n))
  /\ (List.length (no_requests o) <= 1)%nat
  /\ (is_some order_number && is_some supplier_name = true ->
      no_fetches o = [])
  /\ (no_success o = true ->
      List.length (no_requests o) = 1%nat
      /\ exists body, answer = Response 200 body \/ answer = Response 204 body).
Proof.
  cbv zeta. unfold update_order_number.
  set (needs_fetch := negb (is_some order_number)
                      || negb (is_some supplier_name)).
  set (fetched := if needs_fetch then get_order_data customer_po None fetch
                  else {| fo_result := None; fo_requests := [] |}).
  assert (Hfetch : is_some order_number && is_some supplier_name = true ->
                   fo_requests fetched = []).
  { intros H. unfold fetched, needs_fetch.
    destruct order_number, supplier_name; try discriminate. reflexivity. }
  destruct needs_fetch eqn:Hn, (fo_result fetched) as [[data pv]|] eqn:Hf;
    cbv zeta;
    repeat match goal with
      | |- context [if negb (truthy ?s) then _ else _] =>
          destruct (truthy s) eqn:?; cbn [negb]
      | |- context [match answer with _ => _ end] =>
          destruct answer as [status_code body|message]
      | |- context [if (400 <=? ?c)%Z then _ else _] =>
          destruct (400 <=? c)%Z eqn:?
      | |- context [if (?c =? 200)%Z || (?c =? 204)%Z then _ else _] =>
          destruct (c =? 200)%Z eqn:?; [|destruct (c =? 204)%Z eqn:?];
          cbn [orb]
      end.
  all: cbn [no_requests no_success no_fetches List.length In].
  all: (split; [|split; [lia|split; [exact Hfetch|]]]).
  all: try (intros r [<-|[]]; cbn [nr_SUPORDNUM nr_SUPNAME];
            split; [assumption|split; [assumption|]];
            split; intros n E; rewrite E; reflexivity).
  all: try (intros r Hr; contradiction).
  all: try discriminate.
  all: intros _; (split; [reflexivity|]); exists body;
    match goal with
    | H : (_ =? 200)%Z = true |- _ => apply Z.eqb_eq in H; subst; now left
    | H : (_ =? 204)%Z = true |- _ => apply Z.eqb_eq in H; subst; now right
    end.
Qed.

(** ** The line updates of [update_order_items] *)

Lemma partname_to_kline_from (lines : list priority_line)
  (d : list (string * Z)) (k : string) (v : Z) :
  PyDict.get k
    (fold_left
       (fun d item =>
          let partname := PARTNAME (line_item item) in
          match KLINE item with
          | Some kline =>
              if truthy partname then PyDict.set partname kline d else d
          | None => d
          end) lines d) = Some v ->
  PyDict.get k d = Some v
  \/ exists line, In line lines /\ PARTNAME (line_item line) = k
                  /\ KLINE line = Some v.
Proof.
  revert d. induction lines as [|line lines IH]; intros d H; [now left|].
  cbn [fold_left] in H. apply IH in H as [H|(l & Hl & Hk & Hv)].
  - cbv zeta in H. destruct (KLINE line) as [kline|] eqn:Ek; [|now left].
    destruct (truthy (PARTNAME (line_item line))); [|now left].
    rewrite dict_get_set in H.
    destruct (String.eqb (PARTNAME (line_item line)) k) eqn:E; [|now left].
    apply String.eqb_eq in E. injection H as <-. right.
    exists line. repeat split; [now left|exact E|exact Ek].
  - right. exists l. repeat split; [now right|exact Hk|exact Hv].
Qed.

Lemma partname_to_kline_get (lines : list priority_line) (k : string) (v : Z) :
  PyDict.get k (partname_to_kline_of lines) = Some v ->
  exists line, In line lines /\ PARTNAME (line_item line) = k
               /\ KLINE line = Some v.
Proof.
  intros H. apply partname_to_kline_from in H as [H|H]; [discriminate|exact H].
Qed.

Lemma matched_items_of_In (d : list (string * Z)) (items_data : list ai_item)
  (m : matched_item) :
  In m (matched_items_of d items_data) ->
  exists item, In item items_data /\ lacks_required item = false
               /\ mi_product_code m = code_of item
               /\ mi_delivery_date m = date_of item
               /\ PyDict.get (code_of item) d = Some (mi_kline_id m).
Proof.
  unfold matched_items_of. intros H.
  apply in_flat_map in H as (item & Hi & Hm). exists item.
  destruct (lacks_required item); [destruct Hm|].
  destruct (PyDict.get (code_of item) d) as [kline|]; [|destruct Hm].
  destruct Hm as [<-|[]]. repeat split. exact Hi.
Qed.

Section LineLoop.

Variables base_url customer_po delivery_address : string.
Variable answers : nat -> http_answer.

Let step := update_line base_url customer_po delivery_address answers.

(** What one turn of the loop adds: one result for the item, and a request
    exactly when the calculated date could be converted. *)
Lemma update_line_adds (st : update_state) (m : matched_item) :
  exists r,
    us_results (step st m) = us_results st ++ [r]
    /\ ur_product_code r = mi_product_code m
    /\ us_success_count (step st m)
       = (us_success_count st + (if is_success (ur_status r) then 1 else 0))%nat
    /\ us_requests (step st m)
       = us_requests st
         ++ (if request_was_sent (ur_status r)
             then [ {| lr_url :=
                         line_url base_url customer_po (mi_kline_id m);
                       lr_kline_id := mi_kline_id m;
                       lr_REQDATE :=
                         get_default
                           (convert_date_format
                              (returned
                                 (calculate_priority_date (mi_delivery_date m)
                                    delivery_address))) EmptyString |} ]
             else [])
    /\ (request_was_sent (ur_status r) = true ->
        convert_date_format
          (returned
             (calculate_priority_date (mi_delivery_date m) delivery_address))
        <> None).
Proof.
  unfold step, update_line. cbv zeta.
  destruct (convert_date_format _) as [converted_date|].
  - destruct (answers (us_seen st)) as [status_code body|message].
    + destruct ((status_code =? 200)%Z || (status_code =? 204)%Z);
        eexists; cbn [us_results us_success_count us_requests];
        (split; [reflexivity|]);
        cbn [ur_product_code ur_status is_success request_was_sent
             get_default];
        repeat split; try discriminate; try lia; rewrite ?Nat.add_0_r;
        reflexivity.
    + eexists; cbn [us_results us_success_count us_requests];
        (split; [reflexivity|]);
        cbn [ur_product_code ur_status is_success request_was_sent
             get_default];
        repeat split; try discriminate; rewrite ?Nat.add_0_r; reflexivity.
  - eexists; cbn [us_results us_success_count us_requests];
      (split; [reflexivity|]);
      cbn [ur_product_code ur_status is_success request_was_sent];
      repeat split; try discriminate;
      rewrite ?Nat.add_0_r, ?app_nil_r; reflexivity.
Qed.

End LineLoop.

Lemma count_status_app (kind : update_status -> bool)
  (a b : list update_result) :
  count_status kind (a ++ b) = (count_status kind a + count_status kind b)%nat.
Proof. unfold count_status. rewrite filter_app, length_app. reflexivity. Qed.

Section LineLoopFold.

Variables base_url customer_po delivery_address : string.
Variable answers : nat -> http_answer.

Let step := update_line base_url customer_po delivery_address answers.

Let request_of (m : matched_item) : line_request :=
  {| lr_url := line_url base_url customer_po (mi_kline_id m);
     lr_kline_id := mi_kline_id m;
     lr_REQDATE :=
       get_default
         (convert_date_format
            (returned
               (calculate_priority_date (mi_delivery_date m)
                  delivery_address))) EmptyString |}.

Lemma update_loop_spec (ms : list matched_item) (st : update_state) :
  exists rs,
    us_results (fold_left step ms st) = us_results st ++ rs
    /\ map ur_product_code rs = map mi_product_code ms
    /\ us_success_count (fold_left step ms st)
       = (us_success_count st + count_status is_success rs)%nat
    /\ List.length (us_requests (fold_left step ms st))
       = (List.length (us_requests st) + count_status request_was_sent rs)%nat
    /\ (forall r, In r (us_requests (fold_left step ms st)) ->
          In r (us_requests st)
          \/ exists m, In m ms /\ r = request_of m
                       /\ convert_date_format
                            (returned
                               (calculate_priority_date (mi_delivery_date m)
                                  delivery_address)) <> None).
Proof.
  revert st. induction ms as [|m ms IH]; intros st.
  - exists []. cbn [fold_left map]. rewrite app_nil_r.
    unfold count_status. cbn. rewrite !Nat.add_0_r. repeat split; auto.
  - cbn [fold_left]. fold (step st m).
    destruct (update_line_adds base_url customer_po delivery_address answers
                st m) as (r & R1 & R2 & R3 & R4 & R5).
    fold step in R1, R3, R4.
    destruct (IH (step st m)) as (rs & H1 & H2 & H3 & H4 & H5).
    assert (Hcount : forall kind,
              count_status kind (r :: rs)
              = ((if kind (ur_status r) then 1 else 0)
                 + count_status kind rs)%nat).
    { intros kind. unfold count_status. cbn [filter].
      destruct (kind (ur_status r)); reflexivity. }
    exists (r :: rs).
    split; [rewrite H1, R1, <- app_assoc; reflexivity|].
    split; [cbn [map]; rewrite R2, H2; reflexivity|].
    split; [rewrite H3, R3, Hcount; lia|].
    split.
    { rewrite H4, R4, length_app, Hcount.
      destruct (request_was_sent (ur_status r)); cbn [List.length]; lia. }
    intros q Hq. apply H5 in Hq as [Hq|(m' & Hm' & E & C)].
    + rewrite R4 in Hq. apply in_app_or in Hq as [Hq|Hq]; [now left|].
      right. exists m. destruct (request_was_sent (ur_status r)) eqn:Es;
        [|destruct Hq].
      destruct Hq as [<-|[]]. split; [now left|]. split; [reflexivity|].
      apply R5. reflexivity.
    + right. exists m'. split; [now right|]. split; assumption.
Qed.

End LineLoopFold.

Lemma add_unmatched_spec (rs : list update_result) (item : ai_item) :
  (exists extra,
     add_unmatched rs item = rs ++ extra
     /\ forall r, In r extra ->
          request_was_sent (ur_status r) = false)
  /\ exists r, In r (add_unmatched rs item)
               /\ ur_product_code r = code_of item.
Proof.
  unfold add_unmatched. cbv zeta.
  destruct (lacks_required item).
  - split.
    + eexists. split; [reflexivity|]. intros r [<-|[]]. reflexivity.
    + eexists. split; [apply in_or_app; right; now left|reflexivity].
  - destruct (existsb _ rs) eqn:E; cbn [negb].
    + split.
      * exists []. rewrite app_nil_r. split; [reflexivity|intros r []].
      * apply existsb_exists in E as (r & Hr & Hc).
        exists r. split; [exact Hr|]. now apply String.eqb_eq.
    + split.
      * eexists. split; [reflexivity|]. intros r [<-|[]]. reflexivity.
      * eexists. split; [apply in_or_app; right; now left|reflexivity].
Qed.

Lemma add_unmatched_loop (items : list ai_item) (rs : list update_result) :
  (exists extra,
     fold_left add_unmatched items rs = rs ++ extra
     /\ forall r, In r extra -> request_was_sent (ur_status r) = false)
  /\ forall item, In item items ->
       exists r, In r (fold_left add_unmatched items rs)
                 /\ ur_product_code r = code_of item.
Proof.
  revert rs. induction items as [|item items IH]; intros rs.
  - split; [|intros item []].
    exists []. rewrite app_nil_r. split; [reflexivity|intros r []].
  - cbn [fold_left].
    destruct (IH (add_unmatched rs item)) as ((extra & E & Hs) & Hall).
    destruct (add_unmatched_spec rs item) as ((extra0 & E0 & Hs0) & r0 & Hr0 & Hc0).
    split.
    + exists (extra0 ++ extra). rewrite E, E0, app_assoc.
      split; [reflexivity|]. intros r Hr.
      apply in_app_or in Hr as [Hr|Hr]; [now apply Hs0|now apply Hs].
    + intros it [<-|Hit]; [|now apply Hall].
      exists r0. split; [|exact Hc0]. rewrite E. apply in_or_app. now left.
Qed.

Lemma count_status_none (kind : update_status -> bool)
  (rs : list update_result) :
  (forall r, In r rs -> kind (ur_status r) = false) ->
  count_status kind rs = 0%nat.
Proof.
  intros H. unfold count_status.
  replace (filter (fun r => kind (ur_status r)) rs) with (@nil update_result);
    [reflexivity|].
  symmetry. apply filter_empty_iff. exact H.
Qed.

Lemma count_status_positive (kind : update_status -> bool)
  (rs : list update_result) :
  count_status kind rs <> 0%nat
  <-> exists r, In r rs /\ kind (ur_status r) = true.
Proof.
  unfold count_status. split.
  - intros H. destruct (filter _ rs) as [|r l] eqn:E; [now elim H|].
    assert (Hr : In r (filter (fun r => kind (ur_status r)) rs))
      by (rewrite E; now left).
    apply filter_In in Hr. exists r. exact Hr.
  - intros (r & Hr & Hk) H.
    assert (Hf : In r (filter (fun r => kind (ur_status r)) rs))
      by (apply filter_In; split; assumption).
    destruct (filter _ rs); [destruct Hf|discriminate].
Qed.

(** X11.  Every line update that [update_order_items] sends targets the
    [KLINE] of a line of the fetched order that is no shipping line and
    whose part name is the product code of one of the items handed over,
    and it carries the converted calculated date of that item. *)
Theorem X11_line_updates_target_order_lines (base_url customer_po : string)
  (items_data : list ai_item) (delivery_address : string)
  (extracted_total_price : option string)
  (ai_shipping_info : option shipping_info)
  (full_items_data : option (list ai_item))
  (order : priority_order) (rest : list priority_order)
  (answers : nat -> http_answer) (status_answer : http_answer) :
  let o :=
    update_order_items base_url customer_po items_data delivery_address
      extracted_total_price ai_shipping_info full_items_data
      (Fetched (order :: rest)) answers status_answer in
  forall r, In r (uo_line_requests o) ->
    exists line item,
      In line (order_lines order) /\ line_is_shipping line = false
      /\ KLINE line = Some (lr_kline_id r)
      /\ In item items_data /\ code_of item = PARTNAME (line_item line)
      /\ lr_url r = line_url base_url customer_po (lr_kline_id r)
      /\ date_sent_for item delivery_address = Some (lr_REQDATE r).
Proof.
  cbv zeta. unfold update_order_items, get_order_data.
  destruct (po_format_ok customer_po); cbn [negb fo_result fo_requests];
    [|intros r []].
  destruct (is_empty (order_lines order)) eqn:Hl;
    cbn [od_items od_original_items od_order get_default];
    [rewrite Hl; intros r []|].
  fold (merchandise_lines order).
  destruct (is_empty (merchandise_lines order)); [intros r []|].
  cbv zeta. cbn [uo_line_requests]. intros r Hr.
  destruct (update_loop_spec base_url customer_po delivery_address answers
              (matched_items_of (partname_to_kline_of (merchandise_lines order))
                 items_data)
              {| us_results := []; us_requests := [];
                 us_success_count := 0; us_seen := 0 |})
    as (_ & _ & _ & _ & _ & H).
  apply H in Hr as [[]|(m & Hm & -> & Hc)].
  apply matched_items_of_In in Hm as (item & Hi & _ & _ & Hd & Hg).
  apply partname_to_kline_get in Hg as (line & Hline & Hp & Hk).
  apply filter_In in Hline as [Hline Hs]. apply negb_true_iff in Hs.
  exists line, item. cbn [lr_kline_id lr_url lr_REQDATE].
  repeat split; try assumption; [now symmetry|].
  unfold date_sent_for. rewrite <- Hd.
  destruct (convert_date_format _); [reflexivity|now elim Hc].
Qed.

Lemma X11_line_updates_witness :
  In sample_line_request (uo_line_requests sample_update)
  /\ exists line item,
       In line (order_lines sample_order) /\ line_is_shipping line = false
       /\ KLINE line = Some (lr_kline_id sample_line_request)
       /\ In item sample_extracted_items
       /\ code_of item = PARTNAME (line_item line)
       /\ lr_url sample_line_request
          = line_url "https://erp" "PO2410000285"
              (lr_kline_id sample_line_request)
       /\ date_sent_for item "1 Main Street"
          = Some (lr_REQDATE sample_line_request).
Proof.
  split; [vm_compute; left; reflexivity|].
  apply (X11_line_updates_target_order_lines "https://erp" "PO2410000285"
           sample_extracted_items "1 Main Street" (Some "USD 512,04")
           (Some sample_hint) None sample_order [] always_ok
           (Response 204 EmptyString) sample_line_request).
  vm_compute; left; reflexivity.
Defined.

(** X12.  Once the order is fetched with a line that is no shipping line,
    [update_order_items] accounts for every item handed over: each has a
    result with its product code.  It reports success exactly when some
    result has the status success, and it has sent as many line updates as
    there are results with the status success, failed or network error. *)
Theorem X12_update_results_account (base_url customer_po : string)
  (items_data : list ai_item) (delivery_address : string)
  (extracted_total_price : option string)
  (ai_shipping_info : option shipping_info)
  (full_items_data : option (list ai_item))
  (order : priority_order) (rest : list priority_order)
  (answers : nat -> http_answer) (status_answer : http_answer) :
  po_format_ok customer_po = true ->
  is_empty (merchandise_lines order) = false ->
  let o :=
    update_order_items base_url customer_po items_data delivery_address
      extracted_total_price ai_shipping_info full_items_data
      (Fetched (order :: rest)) answers status_answer in
  (forall item, In item items_data ->
     exists r, In r (uo_results o) /\ ur_product_code r = code_of item)
  /\ (uo_success o = true
      <-> exists r, In r (uo_results o) /\ ur_status r = success)
  /\ List.length (uo_line_requests o)
     = count_status request_was_sent (uo_results o).
Proof.
  intros Hpo Hm. pose proof (merchandise_order_lines order Hm) as Hl.
  unfold update_order_items, get_order_data. rewrite Hpo.
  cbn [negb fo_result fo_requests]. rewrite Hl.
  cbn [od_items od_original_items od_order get_default].
  fold (merchandise_lines order). rewrite Hm.
  cbv zeta. cbn [uo_results uo_success uo_line_requests].
  destruct (update_loop_spec base_url customer_po delivery_address answers
              (matched_items_of (partname_to_kline_of (merchandise_lines order))
                 items_data)
              {| us_results := []; us_requests := [];
                 us_success_count := 0; us_seen := 0 |})
    as (rs & H1 & _ & H3 & H4 & _).
  cbn [us_results us_requests us_success_count app List.length Nat.add]
    in H1, H3, H4.
  rewrite H1, H3, H4.
  destruct (add_unmatched_loop items_data rs) as ((extra & E & Hs) & Hall).
  split; [exact Hall|]. rewrite E. split.
  - rewrite negb_true_iff, Nat.eqb_neq, count_status_positive. split.
    + intros (r & Hr & Hk). exists r. split; [apply in_or_app; now left|].
      destruct (ur_status r); try discriminate. reflexivity.
    + intros (r & Hr & Hk). exists r.
      apply in_app_or in Hr as [Hr|Hr].
      * split; [exact Hr|]. rewrite Hk. reflexivity.
      * apply Hs in Hr. rewrite Hk in Hr. discriminate.
  - rewrite count_status_app, (count_status_none _ extra Hs). lia.
Qed.

Lemma X12_update_results_witness :
  po_format_ok "PO2410000285" = true
  /\ is_empty (merchandise_lines sample_order) = false
  /\ (forall item, In item sample_extracted_items ->
        exists r, In r (uo_results sample_update)
                  /\ ur_product_code r = code_of item)
  /\ (uo_success sample_update = true
      <-> exists r, In r (uo_results sample_update) /\ ur_status r = success)
  /\ List.length (uo_line_requests sample_update)
     = count_status request_was_sent (uo_results sample_update).
Proof.
  split; [reflexivity|]. split; [reflexivity|].
  exact (X12_update_results_account "https://erp" "PO2410000285"
           sample_extracted_items "1 Main Street" (Some "USD 512,04")
           (Some sample_hint) None sample_order [] always_ok
           (Response 204 EmptyString) eq_refl eq_refl).
Defined.

(** ** The calculated date and its conversion *)

Local Open Scope Z_scope.

Lemma month_day_fits_checked :
  all_from (month_day_fits true) 0 365 = true
  /\ all_from (month_day_fits false) 0 365 = true.
Proof. split; vm_compute; reflexivity. Qed.

Lemma fields_read_back_checked :
  all_from (reads_back 2 strptime_d) 1 31 = true
  /\ all_from (reads_back 2 strptime_m) 1 12 = true.
Proof. split; vm_compute; reflexivity. Qed.

Lemma reads_back_spec (width : nat) (read : list ascii -> option Z) (n : Z) :
  reads_back width read n = true -> read (pad_digits width n []) = Some n.
Proof.
  unfold reads_back. destruct (read _) as [v|]; [|discriminate].
  intros H. apply Z.eqb_eq in H. now subst.
Qed.

Lemma days_in_month_december (y : Z) : _days_in_month y 12 = 31.
Proof. reflexivity. Qed.

Lemma datetime_in_range (y m d : Z) :
  1 <= y <= 9999 -> 1 <= m <= 12 -> 1 <= d <= _days_in_month y m ->
  datetime y m d = Some {| year := y; month := m; day := d |}.
Proof.
  intros Hy Hm Hd. unfold datetime.
  destruct (Z.leb_spec 1 y); [|lia]. destruct (Z.leb_spec y 9999); [|lia].
  destruct (Z.leb_spec 1 m); [|lia]. destruct (Z.leb_spec m 12); [|lia].
  destruct (Z.leb_spec 1 d); [|lia].
  destruct (Z.leb_spec d (_days_in_month y m)); [|lia]. reflexivity.
Qed.

(** The date of an ordinal of the calendar is a date that [datetime]
    accepts. *)
Lemma ord2ymd_valid (n : Z) :
  1 <= n <= MAXORDINAL ->
  datetime (year (_ord2ymd n)) (month (_ord2ymd n)) (day (_ord2ymd n))
  = Some (_ord2ymd n).
Proof.
  intros Hrange. unfold MAXORDINAL in Hrange.
  rewrite _ord2ymd_unfold. cbv zeta.
  set (n0 := n - 1).
  set (a := n0 / 146097). set (r := n0 mod 146097).
  set (b := r / 36524). set (r1 := r mod 36524).
  set (c := r1 / 1461). set (r2 := r1 mod 1461).
  set (e := r2 / 365). set (r3 := r2 mod 365).
  assert (Hparts :
    n0 = 146097 * a + r /\ 0 <= r < 146097
    /\ r = 36524 * b + r1 /\ 0 <= r1 < 36524
    /\ r1 = 1461 * c + r2 /\ 0 <= r2 < 1461
    /\ r2 = 365 * e + r3 /\ 0 <= r3 < 365).
  { subst a r b r1 c r2 e r3. Z.div_mod_to_equations. lia. }
  clearbody a r b r1 c r2 e r3.
  destruct Hparts as (Hn0 & Hr & Hr' & Hr1 & Hr1' & Hr2 & Hr2' & Hr3).
  assert (Hn : n = n0 + 1) by (unfold n0; lia). clearbody n0.
  destruct (Z.eqb_spec e 4) as [He|He]; cbn [orb year month day].
  - apply datetime_in_range; [lia|lia|rewrite days_in_month_december; lia].
  - destruct (Z.eqb_spec b 4) as [Hb|Hb]; cbn [orb year month day].
    + apply datetime_in_range; [lia|lia|rewrite days_in_month_december; lia].
    + assert (Hb' : 0 <= b <= 3) by lia.
      assert (Hc : 0 <= c <= 24) by lia.
      assert (He' : 0 <= e <= 3) by lia.
      set (leapyear := (e =? 3) && (negb (c =? 24) || (b =? 3))).
      pose proof (month_day_spec leapyear r3 Hr3) as (Hm & Hd & _).
      assert (Hfits : month_day_fits leapyear r3 = true).
      { destruct month_day_fits_checked as [Ht Hf].
        destruct leapyear;
          [apply (all_from_spec _ _ _ Ht)|apply (all_from_spec _ _ _ Hf)];
          lia. }
      unfold month_day_fits in Hfits.
      destruct (month_day r3 leapyear) as [m d] eqn:E. cbn [fst snd] in *.
      apply Z.leb_le in Hfits.
      apply datetime_in_range; [lia|lia|].
      split; [lia|]. unfold _days_in_month.
      rewrite is_leap_of_parts by lia. fold leapyear. exact Hfits.
Qed.

Lemma chars_text (l : list ascii) : chars (text l) = l.
Proof. apply list_ascii_of_string_of_list_ascii. Qed.

Lemma digits_lack (c : ascii) (ds : list ascii) :
  isdigit c = false -> forallb isdigit ds = true -> contains c ds = false.
Proof.
  intros Hc. induction ds as [|x r IH]; [reflexivity|].
  cbn [forallb contains existsb]. intros H.
  apply andb_true_iff in H as [Hx Hr]. fold (contains c r).
  rewrite (IH Hr), orb_false_r.
  destruct (Ascii.eqb_spec c x) as [->|]; [congruence|reflexivity].
Qed.

Lemma pad_digits_digits (width : nat) (n : Z) (acc : list ascii) :
  forallb isdigit acc = true -> forallb isdigit (pad_digits width n acc) = true.
Proof.
  revert n acc. induction width as [|w IH]; intros n acc H; [exact H|].
  cbn [pad_digits]. apply IH. cbn [forallb]. rewrite H, andb_true_r.
  pose proof (Z.mod_pos_bound n 10 eq_refl) as Hm.
  unfold isdigit. rewrite nat_ascii_embedding by lia.
  apply andb_true_iff. split; apply Nat.leb_le; lia.
Qed.

Lemma digit_val_of_char (k : Z) :
  0 <= k <= 9 -> digit_val (ascii_of_nat (48 + Z.to_nat k)) = k.
Proof.
  intros H. unfold digit_val. rewrite nat_ascii_embedding by lia. lia.
Qed.

(** A year of four digits at most that is formatted on four digits is read
    back as it was. *)
Lemma year_reads_back (y : Z) :
  0 <= y <= 9999 -> strptime_Y (pad_digits 4 y []) = Some y.
Proof.
  intros Hy. pose proof (pad_digits_digits 4 y [] eq_refl) as Hd.
  cbn [pad_digits] in *. unfold strptime_Y. rewrite Hd. f_equal.
  cbn [digits_val].
  rewrite !digit_val_of_char
    by (match goal with
        | |- _ <= ?a mod 10 <= _ =>
            pose proof (Z.mod_pos_bound a 10 eq_refl); lia
        end).
  Z.div_mod_to_equations. lia.
Qed.

Lemma split_on_app_sep (c : ascii) (a rest : list ascii) :
  contains c a = false ->
  split_on c (a ++ c :: rest) = a :: split_on c rest.
Proof.
  induction a as [|x r IH]; cbn [contains existsb app split_on]; intros H.
  - rewrite Ascii.eqb_refl. reflexivity.
  - apply orb_false_iff in H as [Hx Hr]. fold (contains c r) in Hr.
    rewrite Ascii.eqb_sym, Hx, (IH Hr). reflexivity.
Qed.

(** A valid date that is formatted as [DD/MM/YYYY] is read back as it
    was. *)
Lemma strptime_strftime (y m d : Z) (r : date) :
  datetime y m d = Some r -> strptime_dmy (chars (strftime_dmy r)) = Some r.
Proof.
  intros H. pose proof (datetime_fields y m d r H) as (-> & Hy & Hm & Hd).
  assert (Hd31 : 1 <= d <= 31).
  { split; [lia|]. destruct Hd as [_ Hd]. unfold _days_in_month in Hd.
    destruct ((m =? 2) && _is_leap y); [lia|].
    assert (Hcases : m = 1 \/ m = 2 \/ m = 3 \/ m = 4 \/ m = 5 \/ m = 6
                     \/ m = 7 \/ m = 8 \/ m = 9 \/ m = 10 \/ m = 11
                     \/ m = 12) by lia.
    repeat (destruct Hcases as [->|Hcases]); try subst m;
      eval_month_tables; lia. }
  unfold strftime_dmy, strptime_dmy. cbn [year month day].
  rewrite chars_text.
  change (chars "/") with ["/"%char]. cbn [app].
  rewrite !split_on_app_sep, split_on_absent
    by (apply digits_lack; [reflexivity|apply pad_digits_digits; reflexivity]).
  destruct fields_read_back_checked as (Cd & Cm).
  rewrite (reads_back_spec 2 strptime_d d)
    by (apply (all_from_spec _ _ _ Cd); lia).
  rewrite (reads_back_spec 2 strptime_m m)
    by (apply (all_from_spec _ _ _ Cm); lia).
  rewrite (year_reads_back y) by lia.
  exact H.
Qed.

Lemma add_days_calendar (d r : date) (k : Z) :
  add_days d k = Some r ->
  datetime (year r) (month r) (day r) = Some r.
Proof.
  unfold add_days. cbv zeta.
  destruct (Z.leb_spec 1 (toordinal d + k)); [|discriminate].
  destruct (Z.leb_spec (toordinal d + k) MAXORDINAL); [|discriminate].
  intros [= <-]. apply ord2ymd_valid. lia.
Qed.

Lemma priority_date_of_calendar (d r : date) (delivery_address : string) :
  priority_date_of d delivery_address = Some r ->
  datetime (year r) (month r) (day r) = Some r.
Proof.
  unfold priority_date_of.
  destruct (add_days d (-6)) as [calculated|] eqn:E; [|discriminate].
  destruct (special_address delivery_address).
  - apply add_days_calendar.
  - destruct (weekday calculated =? 5).
    + apply add_days_calendar.
    + intros [= <-]. exact (add_days_calendar _ _ _ E).
Qed.

Lemma parse_delivery_date_datetime (s : string) (r : date) :
  parse_delivery_date s = Some r -> exists y m d, datetime y m d = Some r.
Proof.
  unfold parse_delivery_date. cbv zeta.
  destruct (contains "." (chars s)).
  - destruct (split_on "." (chars s)) as [|p0 [|p1 [|p2 [|]]]];
      try discriminate.
    destruct (int p2) as [y|]; [|discriminate].
    destruct (int p1) as [m|]; [|discriminate].
    destruct (int p0) as [d|]; [|discriminate].
    eauto.
  - apply strptime_dmy_datetime.
Qed.

(** The calculated date is at most nine days before the delivery date. *)
Lemma priority_date_of_not_far (d r : date) (delivery_address : string) :
  priority_date_of d delivery_address = Some r ->
  toordinal d - 9 <= toordinal r.
Proof.
  unfold priority_date_of.
  destruct (add_days d (-6)) as [calculated|] eqn:E; [|discriminate].
  apply add_days_ordinal in E.
  destruct (special_address delivery_address).
  - intros H. apply add_days_ordinal in H.
    unfold weekday in H.
    pose proof (Z.mod_pos_bound (toordinal calculated + 6) 7 eq_refl). lia.
  - destruct (weekday calculated =? 5).
    + intros H. apply add_days_ordinal in H. lia.
    + intros [= <-]. lia.
Qed.

Lemma ordinal_of_late_year (y m d : Z) (r : date) :
  datetime y m d = Some r -> 1001 <= year r -> 365243 <= toordinal r.
Proof.
  intros H. apply datetime_fields in H as (-> & Hy & Hm & Hd).
  cbn [year]. intros Hlate.
  unfold toordinal, _ymd2ord. cbn [year month day].
  pose proof (day_of_year_bound y m d Hm Hd) as Hdoy.
  assert (365242 <= _days_before_year y).
  { unfold _days_before_year. cbv zeta. Z.div_mod_to_equations. lia. }
  lia.
Qed.

Lemma year_of_late_ordinal (y m d : Z) (r : date) :
  datetime y m d = Some r -> 365234 <= toordinal r -> 1000 <= year r.
Proof.
  intros H. apply datetime_fields in H as (-> & Hy & Hm & Hd).
  unfold toordinal, _ymd2ord. cbn [year month day]. intros Hlate.
  pose proof (day_of_year_bound y m d Hm Hd) as Hdoy.
  destruct (Z.le_gt_cases 1000 y) as [Hok|Hearly]; [exact Hok|].
  assert (_days_before_year y <= 364512).
  { unfold _days_before_year. cbv zeta. Z.div_mod_to_equations. lia. }
  destruct (_is_leap y); lia.
Qed.

(** X13.  For a delivery date of the year 1001 or later, whenever the date
    calculator reports no error, the string it returns is accepted by
    [convert_date_format]: it is the [DD/MM/YYYY] form of a date of the
    calendar whose year has four digits, it is read back as that date, and
    the timestamp handed to the order system is the one of that day. *)
Theorem X13_calculated_date_converts (delivery_date_str delivery_address : string)
  (original : date) (result : string) :
  parse_delivery_date delivery_date_str = Some original ->
  1001 <= year original ->
  calculate_priority_date delivery_date_str delivery_address
  = {| returned := result; error_reported := false |} ->
  exists d : date,
    result = strftime_dmy d
    /\ datetime (year d) (month d) (day d) = Some d
    /\ 1000 <= year d
    /\ strptime_dmy (chars result) = Some d
    /\ convert_date_format result = Some (strftime_priority d).
Proof.
  intros Hparse Hyear. unfold calculate_priority_date. rewrite Hparse.
  destruct (priority_date_of original delivery_address)
    as [priority_date|] eqn:E; [|discriminate].
  intros [= <-]. exists priority_date.
  pose proof (priority_date_of_calendar _ _ _ E) as Hvalid.
  pose proof (strptime_strftime _ _ _ _ Hvalid) as Hread.
  pose proof (priority_date_of_not_far _ _ _ E) as Hnear.
  destruct (parse_delivery_date_datetime _ _ Hparse) as (y & m & d & Hdate).
  pose proof (ordinal_of_late_year _ _ _ _ Hdate Hyear) as Hordinal.
  split; [reflexivity|]. split; [exact Hvalid|].
  split; [apply (year_of_late_ordinal _ _ _ _ Hvalid); lia|].
  split; [exact Hread|].
  unfold convert_date_format. rewrite Hread. reflexivity.
Qed.

Lemma X13_calculated_date_witness :
  parse_delivery_date "10.01.2025"
  = Some {| year := 2025; month := 1; day := 10 |}
  /\ 1001 <= year {| year := 2025; month := 1; day := 10 |}
  /\ calculate_priority_date "10.01.2025" "1 Main Street"
     = {| returned := "03/01/2025"; error_reported := false |}
  /\ exists d : date,
       "03/01/2025" = strftime_dmy d
       /\ datetime (year d) (month d) (day d) = Some d
       /\ 1000 <= year d
       /\ strptime_dmy (chars "03/01/2025") = Some d
       /\ convert_date_format "03/01/2025" = Some (strftime_priority d).
Proof.
  split; [reflexivity|]. split; [cbn [year]; lia|]. split; [reflexivity|].
  apply (X13_calculated_date_converts "10.01.2025" "1 Main Street"
           {| year := 2025; month := 1; day := 10 |} "03/01/2025");
    [reflexivity|cbn [year]; lia|reflexivity].
Defined.

Local Close Scope Z_scope.

(** ** Delivery dates that cannot be read *)

Lemma split_replace_sep (s : list ascii) :
  contains "/" s = false ->
  split_on "/" (replace_char "." "/" s) = split_on "." s.
Proof.
  induction s as [|x r IH]; [reflexivity|].
  cbn [contains existsb]. intros H. apply orb_false_iff in H as [Hx Hr].
  fold (contains "/" r) in Hr. specialize (IH Hr).
  cbn [replace_char map split_on]. fold (replace_char "." "/" r).
  destruct (Ascii.eqb x ".") eqn:E.
  - rewrite Ascii.eqb_refl, IH. reflexivity.
  - rewrite Ascii.eqb_sym, Hx, IH. reflexivity.
Qed.

Lemma int_digits_after (ds : list ascii) (acc : Z) :
  forallb isdigit ds = true ->
  int_digits acc true ds = Some (digits_val acc ds).
Proof.
  revert acc. induction ds as [|c r IH]; intros acc H; [reflexivity|].
  cbn [forallb] in H. apply andb_true_iff in H as [Hc Hr].
  cbn [int_digits digits_val]. rewrite Hc. exact (IH _ Hr).
Qed.

Lemma lstrip_digits (s : list ascii) :
  forallb isdigit s = true -> lstrip s = s.
Proof.
  destruct s as [|c r]; [reflexivity|]. cbn [forallb lstrip]. intros H.
  apply andb_true_iff in H as [Hc _].
  rewrite (digit_is_no_space c Hc). reflexivity.
Qed.

Lemma strip_digits (s : list ascii) :
  forallb isdigit s = true -> strip s = s.
Proof.
  intros H. unfold strip, rstrip. rewrite (lstrip_digits s H).
  rewrite lstrip_digits; [apply rev_involutive|].
  apply forallb_forall. intros x Hx. apply in_rev in Hx.
  rewrite forallb_forall in H. exact (H x Hx).
Qed.

Lemma int_of_digits (s : list ascii) :
  forallb isdigit s = true -> is_empty s = false ->
  int s = Some (digits_val 0%Z s).
Proof.
  intros H Hne. unfold int. rewrite (strip_digits s H).
  destruct s as [|c r]; [discriminate|].
  cbn [forallb] in H. apply andb_true_iff in H as [Hc Hr].
  destruct (Ascii.eqb_spec c "-") as [->|_]; [discriminate|].
  destruct (Ascii.eqb_spec c "+") as [->|_]; [discriminate|].
  cbn [int_digits digits_val]. rewrite Hc. exact (int_digits_after r _ Hr).
Qed.

Lemma nonzero_digit_digit (c : ascii) :
  nonzero_digit c = true -> isdigit c = true.
Proof. unfold nonzero_digit. intros H. now apply andb_true_iff in H. Qed.

Lemma strptime_d_int (p : list ascii) (v : Z) :
  strptime_d p = Some v -> int p = Some v.
Proof.
  destruct p as [|a [|b [|c r]]]; try discriminate; cbn [strptime_d].
  - destruct (nonzero_digit a) eqn:Ha; [|discriminate]. intros [= <-].
    apply nonzero_digit_digit in Ha.
    rewrite int_of_digits by (cbn [forallb]; rewrite ?Ha; reflexivity).
    cbn [digits_val]. f_equal; lia.
  - destruct (Ascii.eqb_spec a "3") as [->|_]; cbn [andb].
    { destruct (Ascii.eqb_spec b "0") as [->|_]; cbn [orb];
        [intros [= <-]; reflexivity|].
      destruct (Ascii.eqb_spec b "1") as [->|_]; cbn [orb];
        [intros [= <-]; reflexivity|].
      destruct (isdigit b) eqn:Hb; cbn [andb orb]; [|discriminate].
      discriminate. }
    destruct (Ascii.eqb_spec a "1") as [->|_]; cbn [orb andb].
    { destruct (isdigit b) eqn:Hb; [|destruct (nonzero_digit b); discriminate].
      intros [= <-].
      rewrite int_of_digits by (cbn [forallb]; rewrite ?Hb; reflexivity).
      cbn [digits_val]. f_equal; change (digit_val "1") with 1%Z; lia. }
    destruct (Ascii.eqb_spec a "2") as [->|_]; cbn [orb andb].
    { destruct (isdigit b) eqn:Hb; [|destruct (nonzero_digit b); discriminate].
      intros [= <-].
      rewrite int_of_digits by (cbn [forallb]; rewrite ?Hb; reflexivity).
      cbn [digits_val]. f_equal; change (digit_val "2") with 2%Z; lia. }
    destruct (Ascii.eqb_spec a "0") as [->|_]; cbn [orb andb].
    { destruct (nonzero_digit b) eqn:Hb; [|discriminate]. intros [= <-].
      apply nonzero_digit_digit in Hb.
      rewrite int_of_digits by (cbn [forallb]; rewrite ?Hb; reflexivity).
      cbn [digits_val]. f_equal; change (digit_val "0") with 0%Z; lia. }
    destruct (Ascii.eqb_spec a " ") as [->|_]; cbn [orb andb];
      [|discriminate].
    destruct (nonzero_digit b) eqn:Hb; [|discriminate]. intros [= <-].
    apply nonzero_digit_digit in Hb.
    pose proof (digit_is_no_space b Hb) as Hs.
    unfold int, strip, rstrip.
    change (lstrip [" "%char; b]) with (lstrip [b]).
    cbn [lstrip rev app]. rewrite Hs. cbn [rev app lstrip]. rewrite Hs.
    cbn [rev app].
    destruct (Ascii.eqb_spec b "-") as [->|_]; [discriminate|].
    destruct (Ascii.eqb_spec b "+") as [->|_]; [discriminate|].
    cbn [int_digits]. rewrite Hb. cbn [int_digits]. f_equal; lia.
Qed.

Lemma strptime_m_int (p : list ascii) (v : Z) :
  strptime_m p = Some v -> int p = Some v.
Proof.
  destruct p as [|a [|b [|c r]]]; try discriminate; cbn [strptime_m].
  - destruct (nonzero_digit a) eqn:Ha; [|discriminate]. intros [= <-].
    apply nonzero_digit_digit in Ha.
    rewrite int_of_digits by (cbn [forallb]; rewrite ?Ha; reflexivity).
    cbn [digits_val]. f_equal; lia.
  - destruct (Ascii.eqb_spec a "1") as [->|_]; cbn [andb].
    { destruct (Ascii.eqb_spec b "0") as [->|_]; cbn [orb];
        [intros [= <-]; reflexivity|].
      destruct (Ascii.eqb_spec b "1") as [->|_]; cbn [orb];
        [intros [= <-]; reflexivity|].
      destruct (Ascii.eqb_spec b "2") as [->|_]; cbn [orb];
        [intros [= <-]; reflexivity|].
      discriminate. }
    destruct (Ascii.eqb_spec a "0") as [->|_]; cbn [andb]; [|discriminate].
    destruct (nonzero_digit b) eqn:Hb; [|discriminate]. intros [= <-].
    apply nonzero_digit_digit in Hb.
    rewrite int_of_digits by (cbn [forallb]; rewrite ?Hb; reflexivity).
    cbn [digits_val]. f_equal; change (digit_val "0") with 0%Z; lia.
Qed.

Lemma strptime_Y_int (p : list ascii) (v : Z) :
  strptime_Y p = Some v -> int p = Some v.
Proof.
  unfold strptime_Y.
  destruct p as [|a [|b [|c [|d [|e r]]]]]; try discriminate.
  destruct (forallb isdigit [a; b; c; d]) eqn:H; [|discriminate].
  intros [= <-]. apply int_of_digits; [exact H|reflexivity].
Qed.

(** What [strptime] reads in a date whose periods were replaced by
    slashes, the parsing of the date with periods reads as well. *)
Lemma fallback_is_not_read (delivery_date_str : string) :
  contains "." (chars delivery_date_str)
  && contains "/" (chars delivery_date_str) = false ->
  parse_delivery_date delivery_date_str = None ->
  strptime_dmy
    (chars (returned (date_fallback delivery_date_str))) = None.
Proof.
  unfold date_fallback, parse_delivery_date. cbn [returned]. cbv zeta.
  destruct (contains "." (chars delivery_date_str)) eqn:Hdot;
    [|intros _ H; exact H].
  cbn [andb]. intros Hslash. rewrite chars_text.
  unfold strptime_dmy. rewrite (split_replace_sep _ Hslash).
  destruct (split_on "." (chars delivery_date_str))
    as [|p0 [|p1 [|p2 [|p3 r]]]]; try reflexivity.
  destruct (strptime_d p0) as [d|] eqn:Ed; [|reflexivity].
  destruct (strptime_m p1) as [m|] eqn:Em; [|reflexivity].
  destruct (strptime_Y p2) as [y|] eqn:Ey; [|reflexivity].
  rewrite (strptime_Y_int _ _ Ey), (strptime_m_int _ _ Em),
    (strptime_d_int _ _ Ed).
  intros H. exact H.
Qed.

(** X14.  A delivery date that cannot be read, and that does not mix
    periods with slashes, never reaches the order system: the string the
    calculator falls back to is refused by [convert_date_format], so the
    line gets a result with the status date error and no request is sent
    for it. *)
Theorem X14_unreadable_date_is_not_sent
  (base_url customer_po delivery_address : string)
  (answers : nat -> http_answer) (st : update_state) (item : matched_item) :
  parse_delivery_date (mi_delivery_date item) = None ->
  contains "." (chars (mi_delivery_date item))
  && contains "/" (chars (mi_delivery_date item)) = false ->
  let st' :=
    update_line base_url customer_po delivery_address answers st item in
  convert_date_format
    (returned (calculate_priority_date (mi_delivery_date item)
                 delivery_address)) = None
  /\ us_requests st' = us_requests st
  /\ us_success_count st' = us_success_count st
  /\ exists r,
       us_results st' = us_results st ++ [r]
       /\ ur_product_code r = mi_product_code item
       /\ ur_kline_id r = Some (mi_kline_id item)
       /\ ur_status r = date_error.
Proof.
  intros Hparse Hmixed. cbv zeta.
  assert (Hconv : convert_date_format
                    (returned (calculate_priority_date (mi_delivery_date item)
                                 delivery_address)) = None).
  { rewrite (calculate_priority_date_malformed _ _ Hparse).
    unfold convert_date_format.
    rewrite (fallback_is_not_read _ Hmixed Hparse). reflexivity. }
  split; [exact Hconv|].
  unfold update_line. cbv zeta. rewrite Hconv.
  cbn [us_requests us_success_count us_results].
  split; [reflexivity|]. split; [reflexivity|].
  eexists. split; [reflexivity|]. repeat split.
Qed.

Lemma X14_unreadable_date_witness :
  let item :=
    {| mi_product_code := "G1312-60067"; mi_delivery_date := "31.02.2025";
       mi_kline_id := 1%Z |} in
  let st :=
    {| us_results := []; us_requests := [];
       us_success_count := 0; us_seen := 0 |} in
  parse_delivery_date (mi_delivery_date item) = None
  /\ contains "." (chars (mi_delivery_date item))
     && contains "/" (chars (mi_delivery_date item)) = false
  /\ us_requests
       (update_line "https://erp" "PO2410000285" "1 Main Street" always_ok
          st item) = [].
Proof.
  cbv zeta. split; [reflexivity|]. split; [reflexivity|].
  apply (X14_unreadable_date_is_not_sent "https://erp" "PO2410000285"
           "1 Main Street" always_ok
           {| us_results := []; us_requests := [];
              us_success_count := 0; us_seen := 0 |}
           {| mi_product_code := "G1312-60067";
              mi_delivery_date := "31.02.2025"; mi_kline_id := 1%Z |});
    reflexivity.
Defined.

(** ** Lines that repeat a product code *)

Lemma find_snoc {A : Type} (f : A -> bool) (l : list A) (x : A) :
  find f (l ++ [x])
  = match find f l with
    | Some y => Some y
    | None => if f x then Some x else None
    end.
Proof.
  induction l as [|a l IH]; [reflexivity|].
  cbn [app find]. destruct (f a); [reflexivity|exact IH].
Qed.

Lemma dict_get_fold {A : Type} (key : A -> string) (k : string)
  (items : list A) (d : list (string * A)) :
  PyDict.get k (fold_left (fun d item => PyDict.set (key item) item d) items d)
  = match find (fun item => String.eqb (key item) k) (rev items) with
    | Some item => Some item
    | None => PyDict.get k d
    end.
Proof.
  revert d. induction items as [|x r IH]; intros d; [reflexivity|].
  cbn [fold_left rev]. rewrite IH, find_snoc, dict_get_set.
  destruct (find _ (rev r)); [reflexivity|].
  destruct (String.eqb (key x) k); reflexivity.
Qed.

(** In a dictionary built from a list of items, a key gives the last item
    of the list that has it. *)
Lemma dict_get_of_items {A : Type} (key : A -> string) (k : string)
  (items : list A) :
  PyDict.get k (PyDict.of_items key items)
  = find (fun item => String.eqb (key item) k) (rev items).
Proof.
  unfold PyDict.of_items. rewrite dict_get_fold.
  destruct (find _ (rev items)); reflexivity.
Qed.

(** X15.  When several extracted lines carry the same product code, the
    item matcher compares the authoritative line with the last of them and
    ignores the earlier ones; a line of the authoritative order that no
    extracted line names is recorded as missing. *)
Theorem X15_last_duplicate_is_compared (priority_items : list priority_item)
  (ai_items : list ai_item) :
  item_details (validate_items_detail priority_items ai_items)
  = map (fun p =>
           match last_line_with (PARTNAME p) ai_items with
           | Some item => compare_item p item
           | None => missing_item p
           end) priority_items.
Proof.
  destruct (validate_items_detail_fields priority_items ai_items)
    as (D & _). cbv zeta in D. rewrite D.
  apply map_ext. intros p. unfold detail_of, last_line_with.
  rewrite dict_get_of_items. reflexivity.
Qed.

(** ** The shipping amount found at the level of the order *)

Lemma first_outcome_found {A : Type} (step : A -> option hint_outcome)
  (l : list A) (o : hint_outcome) :
  first_outcome step l = Some o -> exists x, In x l /\ step x = Some o.
Proof.
  induction l as [|x r IH]; [discriminate|]. cbn [first_outcome].
  destruct (step x) as [o'|] eqn:E.
  - intros [= <-]. exists x. split; [now left|exact E].
  - intros H. destruct (IH H) as (y & Hy & Hs). exists y.
    split; [now right|exact Hs].
Qed.

Lemma first_outcome_none {A : Type} (step : A -> option hint_outcome)
  (l : list A) :
  (forall x, In x l -> step x = None) -> first_outcome step l = None.
Proof.
  induction l as [|x r IH]; [reflexivity|]. intros H. cbn [first_outcome].
  rewrite (H x (or_introl eq_refl)). apply IH. intros y Hy. apply H. now right.
Qed.

Lemma hint_if_positive_found (value : string) (record : Q -> shipping_info)
  (d : shipping_info) :
  hint_if_positive value record = Some (HintFound d) ->
  exists p, hint_amount value = Some p /\ (0 < p)%Q /\ d = record p.
Proof.
  unfold hint_if_positive. destruct (hint_amount value) as [p|]; [|discriminate].
  destruct (Qlt_bool 0 p) eqn:E; [|discriminate]. intros [= <-].
  exists p. split; [reflexivity|]. split; [now apply Qlt_bool_iff|reflexivity].
Qed.

Lemma dict_get_In {V : Type} (k : string) (d : list (string * V)) (v : V) :
  PyDict.get k d = Some v -> In (k, v) d.
Proof.
  induction d as [|[k' v'] r IH]; [discriminate|]. cbn [PyDict.get].
  destruct (String.eqb k' k) eqn:E.
  - apply String.eqb_eq in E. intros [= <-]. subst. now left.
  - intros H. right. exact (IH H).
Qed.

Lemma hint_of_item_without_amount (items : list hint_item) (item : hint_item) :
  item_total (hi_item item) = None -> extended_price item = None ->
  hint_of_item items item = None.
Proof.
  intros Ht He. unfold hint_of_item. cbv zeta. rewrite Ht, He.
  apply first_outcome_none. intros keyword _.
  destruct (_ || _); reflexivity.
Qed.

Lemma lines_for_hint_without_amount (items_data : list ai_item)
  (item : hint_item) :
  In item (lines_for_hint items_data) ->
  item_total (hi_item item) = None /\ extended_price item = None.
Proof.
  unfold lines_for_hint, valid_items_of. intros H.
  apply in_map_iff in H as (x & <- & Hx).
  apply in_flat_map in Hx as (y & _ & Hy). cbv zeta in Hy.
  destruct (_ && _); [|destruct Hy].
  destruct Hy as [<-|[]]. split; reflexivity.
Qed.

(** X16.  In the request handler, where the search is handed items that
    hold a code and a date only, a shipping record that
    [_extract_shipping_from_order_info] finds always comes from a value of
    [order_info], never from a line, and its amount is positive.  Handed to
    [validate_shipping_charges], this record is the extracted shipping
    whatever the lines say: the case is the comparison of the two amounts
    when the order has a shipping line, and otherwise the case is the one
    of a charge that the order lacks and the shipping check fails. *)
Theorem X16_order_level_shipping (order_info : list (string * string))
  (items_data : list ai_item) (d : shipping_info)
  (priority_items : list priority_item) (ai_items : list ai_item) :
  _extract_shipping_from_order_info order_info (lines_for_hint items_data)
  = HintFound d ->
  (exists key value p,
      In (key, value) order_info
      /\ si_price_raw d = Some value /\ hint_amount value = Some p
      /\ si_price_numeric d = Some p /\ (0 < p)%Q)
  /\ sv_ai_shipping_info
       (validate_shipping_charges priority_items ai_items (Some d)) = Some d
  /\ (if authoritative_shipping_present priority_items
      then sv_validation_case
             (validate_shipping_charges priority_items ai_items (Some d))
           = both_exist_compare_prices
      else sv_validation_case
             (validate_shipping_charges priority_items ai_items (Some d))
           = ai_has_priority_missing
           /\ shipping_validation_passed
                (validate_shipping_charges priority_items ai_items (Some d))
              = false).
Proof.
  intros H.
  assert (Hfrom : exists key value p,
             In (key, value) order_info
             /\ si_price_raw d = Some value /\ hint_amount value = Some p
             /\ si_price_numeric d = Some p /\ (0 < p)%Q).
  { unfold _extract_shipping_from_order_info in H.
    destruct (first_outcome (hint_of_field order_info) shipping_fields)
      as [o|] eqn:E1.
    - subst o. apply first_outcome_found in E1 as (field & _ & Hf).
      unfold hint_of_field in Hf.
      destruct (PyDict.get field order_info) as [value|] eqn:Eg;
        [|discriminate].
      destruct (_ && _); [|discriminate].
      apply hint_if_positive_found in Hf as (p & Hp & Hpos & ->).
      exists field, value, p. cbn [si_price_raw si_price_numeric].
      repeat split; try assumption. now apply dict_get_In.
    - destruct (first_outcome hint_of_value order_info) as [o|] eqn:E2.
      + subst o. apply first_outcome_found in E2 as ([key value] & Hin & Hv).
        unfold hint_of_value in Hv.
        apply first_outcome_found in Hv as (keyword & _ & Hk).
        destruct (is_substring _ _); [|discriminate].
        apply hint_if_positive_found in Hk as (p & Hp & Hpos & ->).
        exists key, value, p. cbn [si_price_raw si_price_numeric].
        repeat split; assumption.
      + rewrite first_outcome_none in H; [discriminate|].
        intros item Hitem.
        destruct (lines_for_hint_without_amount _ _ Hitem) as [Ht He].
        now apply hint_of_item_without_amount. }
  split; [exact Hfrom|].
  destruct Hfrom as (_ & _ & p & _ & _ & _ & Hnum & _).
  assert (Htruthy : shipping_info_truthy d = true).
  { unfold shipping_info_truthy. rewrite Hnum. cbn [is_some].
    rewrite !orb_true_r. reflexivity. }
  unfold validate_shipping_charges.
  pose proof (has_priority_shipping_iff priority_items) as Hpresent.
  destruct (collect_priority_shipping priority_items) as [shipping total].
  cbn [fst] in Hpresent. rewrite Hpresent.
  unfold ai_shipping_extracted_of. rewrite Htruthy.
  destruct (authoritative_shipping_present priority_items);
    cbn [andb negb is_some sv_ai_shipping_info sv_validation_case
         shipping_validation_passed];
    repeat split; reflexivity.
Qed.

Lemma X16_order_level_shipping_witness :
  _extract_shipping_from_order_info [("shipping_cost", "USD 129.00")]
    (lines_for_hint sample_extracted_items)
  = HintFound
      {| si_source := Some "order_info.shipping_cost";
         si_found_keyword := None;
         si_raw_text := Some "USD 129.00";
         si_price_raw := Some "USD 129.00";
         si_price_numeric := Some (Qmake 12900 100);
         si_ai_item := None |}
  /\ shipping_validation_passed
       (validate_shipping_charges sample_priority_without_shipping
          sample_lines_without_shipping
          (Some {| si_source := Some "order_info.shipping_cost";
                   si_found_keyword := None;
                   si_raw_text := Some "USD 129.00";
                   si_price_raw := Some "USD 129.00";
                   si_price_numeric := Some (Qmake 12900 100);
                   si_ai_item := None |}))
     = false.
Proof.
  split; [vm_compute; reflexivity|].
  pose proof (X16_order_level_shipping [("shipping_cost", "USD 129.00")]
                sample_extracted_items
                {| si_source := Some "order_info.shipping_cost";
                   si_found_keyword := None;
                   si_raw_text := Some "USD 129.00";
                   si_price_raw := Some "USD 129.00";
                   si_price_numeric := Some (Qmake 12900 100);
                   si_ai_item := None |}
                sample_priority_without_shipping
                sample_lines_without_shipping) as H.
  apply H. vm_compute; reflexivity.
Defined.

(** ** Amounts with a decimal comma *)

Lemma truthy_chars (s : string) : truthy s = negb (is_empty (chars s)).
Proof. destruct s; reflexivity. Qed.

Lemma length_chars (s : string) : List.length (chars s) = String.length s.
Proof.
  unfold chars. induction s as [|c s IH]; [reflexivity|].
  cbn [list_ascii_of_string List.length String.length]. now rewrite IH.
Qed.

Lemma keep_numeric_digits (ds : list ascii) :
  forallb isdigit ds = true -> keep_numeric ds = ds.
Proof.
  intros H. apply filter_all. apply forallb_forall. intros x Hx.
  rewrite forallb_forall in H. rewrite (H x Hx). reflexivity.
Qed.

Lemma keep_digits_periods_digits (ds : list ascii) :
  forallb isdigit ds = true -> keep_digits_periods ds = ds.
Proof.
  intros H. apply filter_all. apply forallb_forall. intros x Hx.
  rewrite forallb_forall in H. rewrite (H x Hx). reflexivity.
Qed.

Lemma keep_digits_periods_none (s : list ascii) :
  keep_numeric s = [] -> keep_digits_periods s = [].
Proof.
  unfold keep_numeric, keep_digits_periods. rewrite !filter_empty_iff.
  intros H x Hx. specialize (H x Hx).
  apply orb_false_iff in H as [H _]. exact H.
Qed.

Lemma keep_digits_periods_comma (a b : list ascii) :
  keep_digits_periods (a ++ ","%char :: b)
  = keep_digits_periods a ++ keep_digits_periods b.
Proof. unfold keep_digits_periods. rewrite filter_app. reflexivity. Qed.

Lemma keep_numeric_comma (a b : list ascii) :
  keep_numeric (a ++ ","%char :: b)
  = keep_numeric a ++ ","%char :: keep_numeric b.
Proof. unfold keep_numeric. rewrite filter_app. reflexivity. Qed.

(** X17.  An amount written with a decimal comma is read differently at
    the two places that read shipping amounts.  The search for an order
    level shipping amount drops the comma and hands the digits of both
    sides to [float] as one numeral (12900 for an amount written 129,00),
    where the price extractor of the order client hands over the numeral
    with a period in the place of the comma (129.00). *)
Theorem X17_decimal_comma_overread (label whole fraction : string) :
  no_amount_char label -> all_digits whole -> truthy whole = true ->
  all_digits fraction ->
  let raw := (label ++ whole ++ "," ++ fraction)%string in
  hint_amount raw = float (chars (whole ++ fraction)%string)
  /\ PriorityAPIClient._extract_numeric_price raw
     = get_default (float (chars (whole ++ "." ++ fraction)%string)) 0%Q
  /\ float (chars (whole ++ fraction)%string) <> None
  /\ float (chars (whole ++ "." ++ fraction)%string) <> None.
Proof.
  unfold no_amount_char, all_digits. intros Hlabel Hw Hne Hf. cbv zeta.
  rewrite truthy_chars in Hne. apply negb_true_iff in Hne.
  assert (Hchars : chars (label ++ whole ++ "," ++ fraction)%string
                   = chars label ++ chars whole ++ ","%char :: chars fraction).
  { rewrite !chars_app. reflexivity. }
  assert (Hjoined : chars (whole ++ fraction)%string
                    = chars whole ++ chars fraction)
    by apply chars_app.
  assert (Hdotted : chars (whole ++ "." ++ fraction)%string
                    = chars whole ++ "."%char :: chars fraction).
  { rewrite !chars_app. reflexivity. }
  assert (Hboth : forallb isdigit (chars whole ++ chars fraction) = true)
    by (rewrite forallb_app, Hw, Hf; reflexivity).
  assert (Hnonempty : is_empty (chars whole ++ chars fraction) = false)
    by (destruct (chars whole); [discriminate|reflexivity]).
  assert (Hfloat_dotted :
    float (chars whole ++ "."%char :: chars fraction)
    = Some (digits_val 0%Z (chars whole ++ chars fraction)
            # Z.to_pos (10 ^ Z.of_nat (List.length (chars fraction))))).
  { unfold float.
    rewrite split_on_app_sep by (apply digit_is_no_period; exact Hw).
    rewrite split_on_absent by (apply digit_is_no_period; exact Hf).
    rewrite Hw, Hf, Hnonempty. reflexivity. }
  rewrite Hjoined, Hdotted.
  split; [|split; [|split]].
  - assert (Hkept :
      keep_digits_periods
        (chars label ++ chars whole ++ ","%char :: chars fraction)
      = chars whole ++ chars fraction).
    { rewrite app_assoc, keep_digits_periods_comma.
      unfold keep_digits_periods at 1. rewrite filter_app.
      fold (keep_digits_periods (chars label)).
      fold (keep_digits_periods (chars whole)).
      rewrite (keep_digits_periods_none _ Hlabel),
        (keep_digits_periods_digits _ Hw), (keep_digits_periods_digits _ Hf).
      reflexivity. }
    unfold hint_amount. cbv zeta. rewrite Hchars, Hkept, Hnonempty.
    reflexivity.
  - unfold PriorityAPIClient._extract_numeric_price.
    rewrite truthy_chars, Hchars.
    assert (Hcleaned :
      keep_numeric (chars label ++ chars whole ++ ","%char :: chars fraction)
      = chars whole ++ ","%char :: chars fraction).
    { rewrite app_assoc, keep_numeric_comma.
      unfold keep_numeric at 1. rewrite filter_app.
      fold (keep_numeric (chars label)). fold (keep_numeric (chars whole)).
      rewrite Hlabel, (keep_numeric_digits _ Hw), (keep_numeric_digits _ Hf).
      reflexivity. }
    assert (Hraw_nonempty :
      is_empty (chars label ++ chars whole ++ ","%char :: chars fraction)
      = false).
    { destruct (chars label); [|reflexivity].
      destruct (chars whole); [discriminate|reflexivity]. }
    rewrite Hraw_nonempty. cbn [negb]. cbv zeta. rewrite Hcleaned.
    assert (Hcleaned_nonempty :
      is_empty (chars whole ++ ","%char :: chars fraction) = false)
      by (destruct (chars whole); reflexivity).
    rewrite Hcleaned_nonempty.
    assert (Hcomma : contains ","
                       (chars whole ++ ","%char :: chars fraction) = true).
    { unfold contains. rewrite existsb_app. cbn [existsb].
      rewrite Ascii.eqb_refl, orb_true_r. reflexivity. }
    assert (Hperiod : contains "."
                        (chars whole ++ ","%char :: chars fraction) = false).
    { unfold contains. rewrite existsb_app. cbn [existsb].
      fold (contains "." (chars whole)). fold (contains "." (chars fraction)).
      rewrite (digit_is_no_period _ Hw), (digit_is_no_period _ Hf).
      reflexivity. }
    unfold PriorityAPIClient.resolve_separators.
    rewrite Hcomma, Hperiod. cbn [andb negb].
    assert (Hreplaced :
      replace_char "," "." (chars whole ++ ","%char :: chars fraction)
      = chars whole ++ "."%char :: chars fraction).
    { unfold replace_char at 1. rewrite map_app. cbn [map].
      fold (replace_char "," "." (chars whole)).
      fold (replace_char "," "." (chars fraction)).
      rewrite Ascii.eqb_refl.
      rewrite !replace_char_absent
        by (apply digits_lack; [reflexivity|assumption]).
      reflexivity. }
    rewrite Hreplaced. unfold to_amount.
    assert (Hne' : is_empty (chars whole ++ "."%char :: chars fraction) = false)
      by (destruct (chars whole); reflexivity).
    rewrite Hne', Hfloat_dotted. reflexivity.
  - rewrite (float_digits _ Hboth Hnonempty). discriminate.
  - rewrite Hfloat_dotted. discriminate.
Qed.

Lemma X17_decimal_comma_witness :
  no_amount_char "USD " /\ all_digits "129" /\ truthy "129" = true
  /\ all_digits "00"
  /\ hint_amount "USD 129,00" = float (chars "12900")
  /\ PriorityAPIClient._extract_numeric_price "USD 129,00"
     = get_default (float (chars "129.00")) 0%Q.
Proof.
  assert (Hlabel : no_amount_char "USD ") by reflexivity.
  assert (Hwhole : all_digits "129") by reflexivity.
  assert (Htruthy : truthy "129" = true) by reflexivity.
  assert (Hfraction : all_digits "00") by reflexivity.
  pose proof (X17_decimal_comma_overread "USD " "129" "00"
                Hlabel Hwhole Htruthy Hfraction) as H.
  cbv zeta in H. destruct H as (Hhint & Hprice & _).
  repeat (split; [assumption|]). exact Hprice.
Defined.

(** ** The report and the item matcher on missing lines *)

Lemma dict_keys_set {V : Type} (k : string) (v : V) (d : list (string * V))
  (k' : string) :
  In k' (PyDict.keys (PyDict.set k v d)) <-> k' = k \/ In k' (PyDict.keys d).
Proof.
  unfold PyDict.keys. induction d as [|[k0 v0] r IH]; cbn [PyDict.set map fst In].
  - intuition.
  - destruct (String.eqb_spec k0 k) as [->|Hne]; cbn [map fst In].
    + intuition.
    + rewrite IH. intuition.
Qed.

Lemma dict_keys_set_NoDup {V : Type} (k : string) (v : V)
  (d : list (string * V)) :
  NoDup (PyDict.keys d) -> NoDup (PyDict.keys (PyDict.set k v d)).
Proof.
  unfold PyDict.keys. induction d as [|[k0 v0] r IH]; cbn [PyDict.set map fst].
  - intros _. constructor; [intros []|constructor].
  - intros H. inversion H as [|? ? Hnotin Hr]; subst.
    destruct (String.eqb_spec k0 k) as [->|Hne]; cbn [map fst].
    + constructor; assumption.
    + constructor; [|exact (IH Hr)].
      intros Hin. apply (dict_keys_set k v r k0) in Hin as [Heq|Hin];
        [now apply Hne|now apply Hnotin].
Qed.

Lemma dict_keys_of_items {A : Type} (key : A -> string) (items : list A) :
  NoDup (PyDict.keys (PyDict.of_items key items))
  /\ forall k, In k (PyDict.keys (PyDict.of_items key items))
               <-> In k (map key items).
Proof.
  unfold PyDict.of_items.
  assert (H : forall d : list (string * A),
             NoDup (PyDict.keys d) ->
             NoDup (PyDict.keys
                      (fold_left (fun d item => PyDict.set (key item) item d)
                         items d))
             /\ forall k,
                 In k (PyDict.keys
                         (fold_left (fun d item => PyDict.set (key item) item d)
                            items d))
                 <-> In k (PyDict.keys d) \/ In k (map key items)).
  { induction items as [|x r IH]; intros d Hd; cbn [fold_left map In].
    - split; [exact Hd|]. intuition.
    - destruct (IH (PyDict.set (key x) x d) (dict_keys_set_NoDup _ _ _ Hd))
        as [Hn Hk].
      split; [exact Hn|]. intros k. rewrite Hk, dict_keys_set. intuition. }
  destruct (H [] (NoDup_nil _)) as [Hn Hk]. split; [exact Hn|].
  intros k. rewrite Hk. cbn. intuition.
Qed.

(** X18.  The report lists each authoritative part name without an
    extracted line once, however often the order repeats it, and for every
    non-empty part name it agrees with the item matcher: the name is among
    the report's missing part names exactly when the matcher lists it as
    missing in the extraction. *)
Theorem X18_report_lists_missing_once (extracted_items : list ai_item)
  (priority_items : list priority_item) :
  let report :=
    ResponseHandler.validate_extraction_results extracted_items
      priority_items in
  let matched := validate_items_detail priority_items extracted_items in
  NoDup (ResponseHandler.missing_partnames report)
  /\ (forall k,
        In k (ResponseHandler.missing_partnames report)
        <-> In k (map PARTNAME priority_items)
            /\ ~ (truthy k = true /\ In k (map code_of extracted_items)))
  /\ (forall k, truthy k = true ->
        (In k (ResponseHandler.missing_partnames report)
         <-> In k (missing_in_ai (vr_mismatches matched)))).
Proof.
  cbv zeta.
  destruct (validate_items_detail_fields priority_items extracted_items)
    as (_ & MA & _). cbv zeta in MA. rewrite MA.
  unfold ResponseHandler.validate_extraction_results. cbv zeta.
  destruct (fold_left _ _ _) as [quantity_mismatches price_mismatches].
  cbn [ResponseHandler.missing_partnames].
  destruct (dict_keys_of_items PARTNAME priority_items) as [Hnodup Hkeys].
  assert (Hhas : forall k,
             PyDict.has k
               (PyDict.of_items code_of
                  (filter (fun item => truthy (code_of item)) extracted_items))
             = true
             <-> truthy k = true /\ In k (map code_of extracted_items)).
  { intros k. rewrite dict_has_of_items, !in_map_iff. split.
    - intros (item & <- & Hi). apply filter_In in Hi as [Hi Ht].
      split; [exact Ht|]. exists item. split; [reflexivity|exact Hi].
    - intros (Ht & item & <- & Hi). exists item. split; [reflexivity|].
      apply filter_In. split; assumption. }
  assert (Hmissing : forall k,
             In k (filter
                     (fun partname =>
                        negb (PyDict.has partname
                                (PyDict.of_items code_of
                                   (filter (fun item => truthy (code_of item))
                                      extracted_items))))
                     (PyDict.keys (PyDict.of_items PARTNAME priority_items)))
             <-> In k (map PARTNAME priority_items)
                 /\ ~ (truthy k = true /\ In k (map code_of extracted_items))).
  { intros k. rewrite filter_In, Hkeys, negb_true_iff, <- Hhas.
    destruct (PyDict.has k _); intuition congruence. }
  split; [apply NoDup_filter; exact Hnodup|]. split; [exact Hmissing|].
  intros k Ht. rewrite Hmissing, filter_In, negb_true_iff.
  rewrite <- (not_true_iff_false (PyDict.has k _)), dict_has_of_items.
  intuition.
Qed.

(** ** The order number read in the answer of the model *)

Lemma take_while_all (f : ascii -> bool) (s : list ascii) :
  forallb f (take_while f s) = true.
Proof.
  induction s as [|c r IH]; [reflexivity|]. cbn [take_while].
  destruct (f c) eqn:E; [|reflexivity]. cbn [forallb]. now rewrite E, IH.
Qed.

Lemma search_labelled_po_group (s group : list ascii) :
  search_labelled_po s = Some group -> forallb upper_or_digit group = true.
Proof.
  induction s as [|c r IH]; cbn [search_labelled_po].
  - unfold labelled_po_here. cbn [startswith chars list_ascii_of_string].
    discriminate.
  - destruct (labelled_po_here (c :: r)) as [g|] eqn:E; [|exact IH].
    intros [= <-]. unfold labelled_po_here in E.
    destruct (startswith _ _); [|discriminate].
    cbv zeta in E. destruct (is_empty _); [discriminate|].
    injection E as <-. apply take_while_all.
Qed.

Lemma take_digits_prefix (s : list ascii) :
  exists rest, s = take_digits s ++ rest
               /\ forallb isdigit (take_digits s) = true.
Proof.
  induction s as [|c r (rest & E & H)]; [exists []; split; reflexivity|].
  cbn [take_digits]. destruct (isdigit c) eqn:Hc.
  - exists rest. cbn [app forallb]. rewrite Hc, H, <- E. split; reflexivity.
  - exists (c :: r). split; reflexivity.
Qed.

Lemma forallb_firstn {A : Type} (f : A -> bool) (n : nat) (l : list A) :
  forallb f l = true -> forallb f (firstn n l) = true.
Proof.
  revert n. induction l as [|x r IH]; intros [|n] H; try reflexivity.
  cbn [forallb firstn] in *. apply andb_true_iff in H as [-> H].
  exact (IH n H).
Qed.

Lemma po_pattern_here_shape (s po : list ascii) :
  po_pattern_here s = Some po ->
  exists ds, po = "P"%char :: "O"%char :: ds
             /\ List.length ds = 10%nat /\ forallb isdigit ds = true.
Proof.
  unfold po_pattern_here.
  destruct (startswith (chars "PO") s) eqn:Hs; [|discriminate].
  destruct (10 <=? List.length (take_digits (skipn 2 s)))%nat eqn:Hl;
    [|discriminate].
  cbn [andb]. intros [= <-]. apply Nat.leb_le in Hl.
  destruct s as [|a [|b r]];
    cbn [chars list_ascii_of_string startswith] in Hs;
    rewrite ?andb_false_r in Hs; try discriminate.
  apply andb_true_iff in Hs as [Ha Hs].
  apply andb_true_iff in Hs as [Hb _].
  apply Ascii.eqb_eq in Ha, Hb. subst a b.
  change (skipn 2 ("P"%char :: "O"%char :: r)) with r in Hl.
  change (firstn 12 ("P"%char :: "O"%char :: r))
    with ("P"%char :: "O"%char :: firstn 10 r).
  destruct (take_digits_prefix r) as (rest & E & Hd).
  exists (firstn 10 r). split; [reflexivity|].
  rewrite E, firstn_app.
  replace (10 - List.length (take_digits r))%nat with 0%nat by lia.
  rewrite firstn_O, app_nil_r.
  split; [apply firstn_length_le; exact Hl|].
  apply forallb_firstn. exact Hd.
Qed.

Lemma search_po_pattern_shape (s po : list ascii) :
  search_po_pattern s = Some po ->
  exists ds, po = "P"%char :: "O"%char :: ds
             /\ List.length ds = 10%nat /\ forallb isdigit ds = true.
Proof.
  induction s as [|c r IH]; cbn [search_po_pattern].
  - destruct (po_pattern_here []) as [p|] eqn:E; [|discriminate].
    intros [= <-]. exact (po_pattern_here_shape _ _ E).
  - destruct (po_pattern_here (c :: r)) as [p|] eqn:E; [|exact IH].
    intros [= <-]. exact (po_pattern_here_shape _ _ E).
Qed.

Lemma length_text (l : list ascii) : String.length (text l) = List.length l.
Proof. rewrite <- length_chars, chars_text. reflexivity. Qed.

Lemma digit_is_upper_or_digit (ds : list ascii) :
  forallb isdigit ds = true -> forallb upper_or_digit ds = true.
Proof.
  rewrite !forallb_forall. intros H x Hx. unfold upper_or_digit.
  rewrite (H x Hx). reflexivity.
Qed.

(** X19.  What [_extract_po_from_response] returns is either empty or an
    order number of twelve characters that starts with PO and holds capital
    letters and digits only; it then passes the format check exactly when
    its last ten characters are digits, and it always does when it was
    found by the pattern of the order number and not after the label. *)
Theorem X19_extracted_po_shape (response_text : string) :
  let po := _extract_po_from_response response_text in
  po = EmptyString
  \/ (String.length po = 12%nat
      /\ startswith (chars "PO") (chars po) = true
      /\ forallb upper_or_digit (chars po) = true
      /\ po_format_ok po = forallb isdigit (skipn 2 (chars po))
      /\ (search_labelled_po (chars response_text) = None ->
          po_format_ok po = true)).
Proof.
  cbv zeta. unfold _extract_po_from_response.
  assert (Hfallback :
    forall po,
      po = match search_po_pattern (chars response_text) with
           | Some p => text p
           | None => EmptyString
           end ->
      po = EmptyString
      \/ (String.length po = 12%nat
          /\ startswith (chars "PO") (chars po) = true
          /\ forallb upper_or_digit (chars po) = true
          /\ po_format_ok po = forallb isdigit (skipn 2 (chars po))
          /\ po_format_ok po = true)).
  { intros po ->.
    destruct (search_po_pattern (chars response_text)) as [p|] eqn:E;
      [|now left].
    right. apply search_po_pattern_shape in E as (ds & -> & Hl & Hd).
    assert (Hne : is_empty ds = false)
      by (destruct ds; [discriminate|reflexivity]).
    assert (Hok : po_format_ok (text ("P"%char :: "O"%char :: ds)) = true).
    { unfold po_format_ok, str_isdigit. rewrite length_text, chars_text.
      cbn [List.length skipn]. rewrite Hl, Hd, Hne. reflexivity. }
    rewrite Hok, length_text, chars_text. cbn [List.length skipn].
    rewrite Hl, Hd.
    split; [reflexivity|]. split; [reflexivity|].
    split; [|split; reflexivity].
    cbn [forallb]. change (upper_or_digit "P") with true.
    change (upper_or_digit "O") with true. cbn [andb].
    apply digit_is_upper_or_digit. exact Hd. }
  destruct (search_labelled_po (chars response_text)) as [group|] eqn:E.
  - destruct (negb (String.eqb (text group) "NOT_FOUND")); cbn [andb].
    + destruct (List.length group =? 12)%nat eqn:Hl; cbn [andb].
      * destruct (startswith (chars "PO") group) eqn:Hs.
        -- right. apply Nat.eqb_eq in Hl.
           apply search_labelled_po_group in E.
           rewrite length_text, chars_text.
           split; [exact Hl|]. split; [exact Hs|]. split; [exact E|].
           split; [|discriminate].
           unfold po_format_ok, str_isdigit.
           rewrite length_text, chars_text, Hl, Hs. cbn [Nat.eqb negb orb].
           destruct group as [|a [|b [|c r]]]; try discriminate.
           cbn [skipn is_empty negb andb]. apply negb_involutive.
        -- destruct (Hfallback _ eq_refl) as [H|(H1 & H2 & H3 & H4 & H5)];
             [now left|right]. repeat split; try assumption; intros _; assumption.
      * destruct (Hfallback _ eq_refl) as [H|(H1 & H2 & H3 & H4 & H5)];
          [now left|right]. repeat split; try assumption; intros _; assumption.
    + destruct (Hfallback _ eq_refl) as [H|(H1 & H2 & H3 & H4 & H5)];
        [now left|right]. repeat split; try assumption; intros _; assumption.
  - destruct (Hfallback _ eq_refl) as [H|(H1 & H2 & H3 & H4 & H5)];
      [now left|right]. repeat split; try assumption; intros _; assumption.
Qed.

(** ** Orders that the order validator finds the same *)

Section SameOrders.

Variable L : OrderValidator.decimal_library.

Lemma check_agilent_item_missing (pd : list (string * priority_item))
  (acc acc' : list (OrderValidator.order_mismatch L) * list string)
  (entry : string * ai_item) :
  OrderValidator.check_agilent_item L pd acc entry = Some acc' ->
  snd acc'
  = snd acc ++ (if PyDict.has (fst entry) pd then [] else [fst entry]).
Proof.
  destruct entry as [code item]. unfold OrderValidator.check_agilent_item,
    PyDict.has. cbn [fst].
  destruct (PyDict.get code pd) as [p|];
    [|intros [= <-]; reflexivity].
  destruct (quantity item); [|intros [= <-]; now rewrite app_nil_r].
  destruct (item_total item); [|intros [= <-]; now rewrite app_nil_r].
  destruct (negb _); [intros [= <-]; cbn [snd]; now rewrite app_nil_r|].
  destruct (OrderValidator.differs_by_more_than_a_cent L _ _) as [[|]|];
    [| |discriminate]; intros [= <-]; cbn [snd]; now rewrite app_nil_r.
Qed.

Lemma check_agilent_loop_missing (pd : list (string * priority_item))
  (entries : list (string * ai_item))
  (acc acc' : list (OrderValidator.order_mismatch L) * list string) :
  OrderValidator.check_agilent_items L pd entries acc = Some acc' ->
  snd acc'
  = snd acc
    ++ filter (fun k => negb (PyDict.has k pd)) (map fst entries).
Proof.
  revert acc. induction entries as [|entry r IH]; intros acc;
    cbn [OrderValidator.check_agilent_items map filter].
  - intros [= <-]. now rewrite app_nil_r.
  - destruct (OrderValidator.check_agilent_item L pd acc entry) as [acc1|] eqn:E;
      [|discriminate].
    intros H. rewrite (IH _ H), (check_agilent_item_missing _ _ _ _ E),
      <- app_assoc.
    destruct (PyDict.has (fst entry) pd); reflexivity.
Qed.

End SameOrders.

(** X20.  When [validate_orders] finds two orders the same, they name the
    same parts: a part name is on a line of the authoritative order exactly
    when it is the product code of an extracted item. *)
Theorem X20_same_orders_name_same_parts (L : OrderValidator.decimal_library)
  (a : OrderValidator.agilent_data) (p : OrderValidator.priority_data) :
  option_map OrderValidator.status (OrderValidator.validate_orders L a p)
  = Some OrderValidator.SAME ->
  forall k,
    In k (map PARTNAME (OrderValidator.PORDERITEMS_SUBFORM p))
    <-> exists item,
          In item (get_default (OrderValidator.items a) [])
          /\ product_code item = Some k.
Proof.
  unfold OrderValidator.validate_orders. cbv zeta.
  set (items := get_default (OrderValidator.items a) []).
  set (pd := PyDict.of_items PARTNAME (OrderValidator.PORDERITEMS_SUBFORM p)).
  set (ad := PyDict.of_items code_of
               (filter (fun item => is_some (product_code item)) items)).
  pose proof (check_agilent_loop_missing L pd ad ([], [])) as Hloop.
  destruct (OrderValidator.check_agilent_items L pd ad ([], []))
    as [[mismatches missing_in_priority]|]; [|discriminate].
  specialize (Hloop _ eq_refl).
  cbn [snd app] in Hloop. cbn [option_map OrderValidator.status].
  destruct (negb (is_empty (OrderValidator.incomplete_of items)));
    [discriminate|].
  destruct (is_empty mismatches); cbn [negb orb]; [|discriminate].
  destruct (is_empty missing_in_priority) eqn:Hmp; cbn [negb orb];
    [|discriminate].
  destruct (is_empty (filter _ (PyDict.keys pd))) eqn:Hma; cbn [negb];
    [|discriminate].
  intros _ k.
  apply is_empty_true_iff in Hmp, Hma. rewrite Hloop in Hmp.
  rewrite filter_empty_iff in Hmp, Hma.
  destruct (dict_keys_of_items PARTNAME (OrderValidator.PORDERITEMS_SUBFORM p))
    as [_ Hpk].
  destruct (dict_keys_of_items code_of
              (filter (fun item => is_some (product_code item)) items))
    as [_ Hak].
  fold pd in Hpk. fold ad in Hak. unfold PyDict.keys in Hak.
  assert (Hcodes : forall k,
             In k (map code_of
                     (filter (fun item => is_some (product_code item)) items))
             <-> exists item, In item items /\ product_code item = Some k).
  { intros c. rewrite in_map_iff. split.
    - intros (item & <- & Hi). apply filter_In in Hi as [Hi Hs].
      exists item. split; [exact Hi|]. unfold code_of.
      destruct (product_code item); [reflexivity|discriminate].
    - intros (item & Hi & Hc). exists item. split.
      + unfold code_of. rewrite Hc. reflexivity.
      + apply filter_In. split; [exact Hi|]. rewrite Hc. reflexivity. }
  rewrite <- Hcodes. split.
  - intros Hk. apply Hpk in Hk. specialize (Hma k Hk).
    apply negb_false_iff in Hma. unfold ad in Hma.
    now apply dict_has_of_items in Hma.
  - intros Hk. apply Hak in Hk. specialize (Hmp k Hk).
    apply negb_false_iff in Hmp. unfold pd in Hmp.
    now apply dict_has_of_items in Hmp.
Qed.

Lemma X20_same_orders_witness :
  option_map OrderValidator.status
    (OrderValidator.validate_orders plain_decimal
       (sample_agilent sample_lines_without_shipping)
       (sample_priority sample_priority_without_shipping))
  = Some OrderValidator.SAME
  /\ forall k,
       In k (map PARTNAME
               (OrderValidator.PORDERITEMS_SUBFORM
                  (sample_priority sample_priority_without_shipping)))
       <-> exists item,
             In item
               (get_default
                  (OrderValidator.items
                     (sample_agilent sample_lines_without_shipping)) [])
             /\ product_code item = Some k.
Proof.
  split; [vm_compute; reflexivity|].
  apply (X20_same_orders_name_same_parts plain_decimal
           (sample_agilent sample_lines_without_shipping)
           (sample_priority sample_priority_without_shipping)).
  vm_compute; reflexivity.
Defined.

(** ** The price comparisons on doubles *)






(** Two prices one cent apart: the comparison of the doubles depends on the
    rounding of the two prices.  An authoritative shipping line of 2 with an
    extracted charge of 2,01 passes, a line of 1 with a charge of 1,01
    fails; two lines of 0.1 and 0.2 pass with a charge of 0,31; the report
    does not flag a line of 1.005 against an extracted total of 1,00. *)
Lemma one_cent_apart_examples :
  Binary64.shipping_validation_passed
    (Binary64.validate_shipping_charges [ sample_shipping_line 2 ]
       [ sample_line "FREIGHT" "Shipping & Handling" "USD 2,01" ] None)
  = true
  /\ Binary64.shipping_validation_passed
       (Binary64.validate_shipping_charges [ sample_shipping_line 1 ]
          [ sample_line "FREIGHT" "Shipping & Handling" "USD 1,01" ] None)
     = false
  /\ Binary64.shipping_validation_passed
       (Binary64.validate_shipping_charges
          [ sample_shipping_line 0.1; sample_shipping_line 0.2 ]
          [ sample_line "FREIGHT" "Shipping & Handling" "USD 0,31" ] None)
     = true
  /\ Binary64.item_price_match (sample_priority_line 2)
       (sample_line "G1312-60067" "Pump head" "USD 2,01")
     = true
  /\ Binary64.item_price_match (sample_priority_line 1)
       (sample_line "G1312-60067" "Pump head" "USD 1,01")
     = false
  /\ Binary64.price_mismatches
       [ sample_line "G1312-60067" "Pump head" "USD 1,00" ]
       [ sample_priority_line 1.005 ]
     = [].
Proof. vm_compute. repeat split. Qed.



